(** * GridAPI build and release scripts

    A shallow embedding of [build_script.py], [build.py],
    [release_script.py] and the requirements of [setup.py], and the
    properties of the release workflow proved about it.

    Layout:
    - [PyStr]: Python [str] values and the string methods the scripts use;
    - [Sha256]: the digest that [hashlib.sha256] computes;
    - [Fs]: the directory tree under the working directory;
    - [Py]: the outside world, exceptions, and the monad of script code;
    - [BuildScript], [BuildPy], [ReleaseScript]: the three scripts;
    - the theorems; [SetupPy] is with the theorems about it, at the
      end. *)

From Stdlib Require Import String Ascii DecimalString.
From Stdlib Require Import List ZArith NArith Lia Bool.
Import ListNotations.

Set Implicit Arguments.

(* ================================================================== *)
(** ** Python strings *)

Module PyStr.

(** A [str] is a sequence of Unicode code points. *)
Definition char := N.
Definition str := list char.

Definition N_of_byte (b : Byte.byte) : N := Byte.to_N b.

(** String literals of the scripts are written as Rocq strings, which hold
    the UTF-8 bytes of the source text; [utf8_decode] recovers the code
    points, as the Python reader does. *)
Fixpoint utf8_decode (bs : list Byte.byte) : str :=
  match bs with
  | [] => []
  | b0 :: r0 =>
    let n0 := N_of_byte b0 in
    let cont b := N.land (N_of_byte b) 63 in
    if (n0 <? 128)%N then n0 :: utf8_decode r0
    else if (n0 <? 224)%N then
      match r0 with
      | b1 :: r1 =>
        N.lor (N.shiftl (N.land n0 31) 6) (cont b1) :: utf8_decode r1
      | _ => [n0]
      end
    else if (n0 <? 240)%N then
      match r0 with
      | b1 :: b2 :: r2 =>
        N.lor (N.shiftl (N.land n0 15) 12)
              (N.lor (N.shiftl (cont b1) 6) (cont b2)) :: utf8_decode r2
      | _ => [n0]
      end
    else
      match r0 with
      | b1 :: b2 :: b3 :: r3 =>
        N.lor (N.shiftl (N.land n0 7) 18)
              (N.lor (N.shiftl (cont b1) 12)
                     (N.lor (N.shiftl (cont b2) 6) (cont b3)))
          :: utf8_decode r3
      | _ => [n0]
      end
  end.

Definition lit (s : string) : str := utf8_decode (list_byte_of_string s).

Definition eqb (a b : str) : bool :=
  if list_eq_dec N.eq_dec a b then true else false.

Lemma eqb_eq (a b : str) : eqb a b = true <-> a = b.
Proof.
  unfold eqb. destruct (list_eq_dec N.eq_dec a b); split; congruence.
Qed.

Lemma eqb_refl (a : str) : eqb a a = true.
Proof. now apply eqb_eq. Qed.


(** [x in xs] for a list of strings, as in ["--clean" in sys.argv]. *)
Definition mem (x : str) (xs : list str) : bool := existsb (eqb x) xs.

(** The code points for which [str.isspace] holds; [str.strip()] removes
    exactly these. *)
Definition isspace (c : char) : bool :=
  ((9 <=? c) && (c <=? 13) || (28 <=? c) && (c <=? 32)
   || (c =? 133) || (c =? 160) || (c =? 5760)
   || (8192 <=? c) && (c <=? 8202)
   || (c =? 8232) || (c =? 8233) || (c =? 8239) || (c =? 8287)
   || (c =? 12288))%N.

Fixpoint lstrip_by (p : char -> bool) (s : str) : str :=
  match s with
  | [] => []
  | c :: s' => if p c then lstrip_by p s' else s
  end.

Definition rstrip_by (p : char -> bool) (s : str) : str :=
  rev (lstrip_by p (rev s)).

Definition strip_by (p : char -> bool) (s : str) : str :=
  rstrip_by p (lstrip_by p s).

(** [s.strip()] *)
Definition strip (s : str) : str := strip_by isspace s.

(** [s.strip(chars)] *)
Definition strip_chars (chars : str) (s : str) : str :=
  strip_by (fun c => existsb (N.eqb c) chars) s.

(** [s.startswith(prefix)] *)
Fixpoint startswith (prefix s : str) : bool :=
  match prefix, s with
  | [], _ => true
  | _ :: _, [] => false
  | p :: prefix', c :: s' => (p =? c)%N && startswith prefix' s'
  end.

(** [sub in s] *)
Fixpoint contains (sub s : str) : bool :=
  startswith sub s ||
  match s with
  | [] => false
  | _ :: s' => contains sub s'
  end.

(** [s.split(sep)] for a separator of one code point, the only kind the
    scripts use (["\n"] and ["="]). *)
Fixpoint split (sep : char) (s : str) : list str :=
  match s with
  | [] => [[]]
  | c :: s' =>
    if (c =? sep)%N then [] :: split sep s'
    else match split sep s' with
         | [] => [[c]]
         | l :: ls => (c :: l) :: ls
         end
  end.

(** [sep.join(parts)] *)
Fixpoint join (sep : str) (parts : list str) : str :=
  match parts with
  | [] => []
  | [x] => x
  | x :: rest => x ++ sep ++ join sep rest
  end.

(** [s.lower()] on the ASCII letters; [platform.system()] yields the ASCII
    name that [uname] reports. *)
Definition lower_char (c : char) : char :=
  if ((65 <=? c) && (c <=? 90))%N then (c + 32)%N else c.

Definition lower (s : str) : str := map lower_char s.

(** [str(n)] for an integer. *)
Definition of_Z (z : Z) : str := lit (NilZero.string_of_int (Z.to_int z)).

Definition nl : char := 10%N.
Definition eq_sign : char := 61%N.

End PyStr.

Import PyStr.

Arguments lit s%_string.

Example lit_ascii : lit "v1" = [118; 49]%N.
Proof. reflexivity. Qed.

Example lit_emoji : lit "✅" = [9989]%N.
Proof. reflexivity. Qed.

Example split_example :
  split eq_sign (lit "version = 1") = [lit "version "; lit " 1"].
Proof. reflexivity. Qed.

Example strip_example : strip (lit "  a b	") = lit "a b".
Proof. reflexivity. Qed.

(* ================================================================== *)
(** ** SHA-256

    [hashlib.sha256] is a library of the Python distribution, not code of
    the scripts.  The digest is written out after FIPS 180-4 so that the
    manifest the scripts write is a concrete string. *)

Module Sha256.

Local Open Scope N_scope.

Definition w32 (x : N) : N := N.land x 4294967295.
Definition add32 (a b : N) : N := w32 (a + b).
Definition rotr (n x : N) : N :=
  N.lor (N.shiftr x n) (w32 (N.shiftl x (32 - n))).
Definition not32 (x : N) : N := N.lxor x 4294967295.

Definition Ch (x y z : N) := N.lxor (N.land x y) (N.land (not32 x) z).
Definition Maj (x y z : N) :=
  N.lxor (N.lxor (N.land x y) (N.land x z)) (N.land y z).
Definition Sigma0 x := N.lxor (N.lxor (rotr 2 x) (rotr 13 x)) (rotr 22 x).
Definition Sigma1 x := N.lxor (N.lxor (rotr 6 x) (rotr 11 x)) (rotr 25 x).
Definition sigma0 x := N.lxor (N.lxor (rotr 7 x) (rotr 18 x)) (N.shiftr x 3).
Definition sigma1 x := N.lxor (N.lxor (rotr 17 x) (rotr 19 x)) (N.shiftr x 10).

Definition K : list N :=
  [
   1116352408; 1899447441; 3049323471; 3921009573;
   961987163; 1508970993; 2453635748; 2870763221;
   3624381080; 310598401; 607225278; 1426881987;
   1925078388; 2162078206; 2614888103; 3248222580;
   3835390401; 4022224774; 264347078; 604807628;
   770255983; 1249150122; 1555081692; 1996064986;
   2554220882; 2821834349; 2952996808; 3210313671;
   3336571891; 3584528711; 113926993; 338241895;
   666307205; 773529912; 1294757372; 1396182291;
   1695183700; 1986661051; 2177026350; 2456956037;
   2730485921; 2820302411; 3259730800; 3345764771;
   3516065817; 3600352804; 4094571909; 275423344;
   430227734; 506948616; 659060556; 883997877;
   958139571; 1322822218; 1537002063; 1747873779;
   1955562222; 2024104815; 2227730452; 2361852424;
   2428436474; 2756734187; 3204031479; 3329325298
  ].

Record state := mkState { ha : N; hb : N; hc : N; hd : N;
                          he : N; hf : N; hg : N; hh : N }.

Definition H0 : state :=
  mkState 1779033703 3144134277 1013904242 2773480762 1359893119 2600822924 528734635 1541459225.

(** The message schedule: [win] holds the sixteen latest words, oldest
    first; [schedule 64] lists W0 .. W63. *)
Fixpoint schedule (n : nat) (win : list N) : list N :=
  match n with
  | O => []
  | S n' =>
    let next := add32 (add32 (sigma1 (nth 14 win 0)) (nth 9 win 0))
                      (add32 (sigma0 (nth 1 win 0)) (nth 0 win 0)) in
    nth 0 win 0 :: schedule n' (tl win ++ [next])
  end.

Definition round (s : state) (kw : N * N) : state :=
  let '(k, w) := kw in
  let t1 := add32 (add32 (add32 (hh s) (Sigma1 (he s)))
                         (add32 (Ch (he s) (hf s) (hg s)) k)) w in
  let t2 := add32 (Sigma0 (ha s)) (Maj (ha s) (hb s) (hc s)) in
  mkState (add32 t1 t2) (ha s) (hb s) (hc s)
          (add32 (hd s) t1) (he s) (hf s) (hg s).

(** Big-endian words of a block of bytes. *)
Fixpoint words (bs : list N) : list N :=
  match bs with
  | b0 :: b1 :: b2 :: b3 :: r =>
    N.lor (N.shiftl b0 24) (N.lor (N.shiftl b1 16) (N.lor (N.shiftl b2 8) b3))
      :: words r
  | _ => []
  end.

Definition compress (s : state) (block : list N) : state :=
  let r := fold_left round (combine K (schedule 64 (words block))) s in
  mkState (add32 (ha s) (ha r)) (add32 (hb s) (hb r))
          (add32 (hc s) (hc r)) (add32 (hd s) (hd r))
          (add32 (he s) (he r)) (add32 (hf s) (hf r))
          (add32 (hg s) (hg r)) (add32 (hh s) (hh r)).

Fixpoint process (fuel : nat) (s : state) (msg : list N) : state :=
  match fuel, msg with
  | S fuel', _ :: _ => process fuel' (compress s (firstn 64 msg)) (skipn 64 msg)
  | _, _ => s
  end.

(** Big-endian bytes of [x], [n] of them. *)
Fixpoint be_bytes (n : nat) (x : N) : list N :=
  match n with
  | O => []
  | S n' => N.land (N.shiftr x (8 * N.of_nat n')) 255 :: be_bytes n' x
  end.

Definition pad (data : list N) : list N :=
  let len := N.of_nat (length data) in
  let zeros := N.to_nat ((119 - len mod 64) mod 64) in
  data ++ [128] ++ repeat 0 zeros ++ be_bytes 8 (8 * len).

Definition digest_state (data : list N) : state :=
  let msg := pad (map (fun b => N.land b 255) data) in
  process (length msg) H0 msg.

Definition hex_digit (d : N) : N := if d <? 10 then 48 + d else 87 + d.

Definition hex32 (w : N) : list N :=
  map (fun i => hex_digit (N.land (N.shiftr w (4 * i)) 15))
      [7; 6; 5; 4; 3; 2; 1; 0].

(** [hashlib.sha256(data).hexdigest()] *)
Definition hexdigest (data : list N) : str :=
  let s := digest_state data in
  hex32 (ha s) ++ hex32 (hb s) ++ hex32 (hc s) ++ hex32 (hd s) ++
  hex32 (he s) ++ hex32 (hf s) ++ hex32 (hg s) ++ hex32 (hh s).

Definition is_hex (c : N) : bool :=
  (48 <=? c) && (c <=? 57) || (97 <=? c) && (c <=? 102).

End Sha256.

Example sha256_empty :
  Sha256.hexdigest [] =
  lit "e3b0c44298fc1c149afbf4c8996fb92427ae41e4649b934ca495991b7852b855".
Proof. vm_compute. reflexivity. Qed.

Example sha256_abc :
  Sha256.hexdigest (lit "abc") =
  lit "ba7816bf8f01cfea414140de5dae2223b00361a396177a9cb410ff61f20015ad".
Proof. vm_compute. reflexivity. Qed.

Example sha256_two_blocks :
  Sha256.hexdigest
    (lit "abcdbcdecdefdefgefghfghighijhijkijkljklmklmnlmnomnopnopq") =
  lit "248d6a61d20638b8e5c026930c3e6039a33ce45964ff2167f6ecedd419db06c1".
Proof. vm_compute. reflexivity. Qed.

(* ================================================================== *)
(** ** The directory tree

    The files and directories under the working directory of the script.
    A [path] lists the components of a relative path; a file holds its
    bytes.  What a script reads from a file opened in text mode, and what
    it writes to one, goes through the codec and the line ends of the host
    (see [Py.text_of] and [Py.to_bytes]).  Lookups take the first entry of
    a name. *)

Module Fs.

Inductive node :=
| File (data : list N)
| Dir (entries : list (str * node)).

Definition path := list str.

Fixpoint assoc (name : str) (es : list (str * node)) : option node :=
  match es with
  | [] => None
  | (k, v) :: r => if PyStr.eqb k name then Some v else assoc name r
  end.

Fixpoint set_entry (name : str) (m : node) (es : list (str * node))
  : list (str * node) :=
  match es with
  | [] => [(name, m)]
  | (k, v) :: r =>
    if PyStr.eqb k name then (name, m) :: r else (k, v) :: set_entry name m r
  end.

Definition del_entry (name : str) (es : list (str * node))
  : list (str * node) :=
  filter (fun kv => negb (PyStr.eqb (fst kv) name)) es.

Fixpoint lookup (p : path) (n : node) : option node :=
  match p with
  | [] => Some n
  | c :: p' =>
    match n with
    | File _ => None
    | Dir es =>
      match assoc c es with
      | Some m => lookup p' m
      | None => None
      end
    end
  end.

(** [put p new n]: the tree [n] with [new] at [p]; the parent of [p] has to
    be a directory of [n]. *)
Fixpoint put (p : path) (new : node) (n : node) : option node :=
  match p with
  | [] => Some new
  | c :: p' =>
    match n with
    | File _ => None
    | Dir es =>
      let child :=
        match assoc c es with
        | Some m => put p' new m
        | None => match p' with [] => Some new | _ => None end
        end in
      option_map (fun m' => Dir (set_entry c m' es)) child
    end
  end.

(** [remove p n]: the tree [n] without the entry at [p]. *)
Fixpoint remove (p : path) (n : node) : node :=
  match p with
  | [] => n
  | c :: p' =>
    match n with
    | File _ => n
    | Dir es =>
      match p' with
      | [] => Dir (del_entry c es)
      | _ =>
        match assoc c es with
        | Some m => Dir (set_entry c (remove p' m) es)
        | None => n
        end
      end
    end
  end.

Definition exists_ (p : path) (n : node) : bool :=
  match lookup p n with Some _ => true | None => false end.

Definition is_dir (p : path) (n : node) : bool :=
  match lookup p n with Some (Dir _) => true | _ => false end.

Definition children (n : node) : list (str * node) :=
  match n with Dir es => es | File _ => [] end.

(** [s.endswith(suffix)] through the reversed strings. *)
Definition endswith (suffix s : str) : bool :=
  startswith (rev suffix) (rev s).

(** [Path(".").glob(pattern)] for the patterns of [clean_build]: a literal
    name, or ["*"] followed by a literal suffix. *)
Definition glob (pattern : str) (n : node) : list path :=
  match pattern with
  | 42%N :: suffix =>
    map (fun kv => [fst kv])
        (filter (fun kv => endswith suffix (fst kv)) (children n))
  | _ => if exists_ [pattern] n then [[pattern]] else []
  end.

(** [Path(".").rglob(name)]: the entries called [name], at any depth, a
    directory before what is below it.  The walk does not go into an entry
    called [name]: [clean_build] has removed it by then. *)
Fixpoint rglob (name : str) (n : node) : list path :=
  match n with
  | File _ => []
  | Dir es =>
    (if exists_ [name] n then [[name]] else []) ++
    flat_map (fun kv =>
                if PyStr.eqb (fst kv) name then []
                else map (cons (fst kv)) (rglob name (snd kv))) es
  end.

End Fs.

Example fs_rglob_example :
  Fs.rglob (lit "__pycache__")
    (Fs.Dir [(lit "src", Fs.Dir [(lit "__pycache__", Fs.Dir [])]);
             (lit "__pycache__", Fs.Dir [(lit "__pycache__", Fs.Dir [])])])
  = [[lit "__pycache__"]; [lit "src"; lit "__pycache__"]].
Proof. reflexivity. Qed.

(* ================================================================== *)
(** ** The outside world and the monad of script code *)

Module Py.

(** An external command: a line given to the shell ([shell=True]) or an
    argument vector. *)
Inductive Cmd :=
| Shell (line : str)
| Argv (args : list str).

Definition Cmd_eqb (a b : Cmd) : bool :=
  match a, b with
  | Shell x, Shell y => PyStr.eqb x y
  | Argv x, Argv y =>
    if list_eq_dec (list_eq_dec N.eq_dec) x y then true else false
  | _, _ => false
  end.

(** The exceptions the scripts can meet.  [SystemExit] is what [sys.exit]
    raises; it is not an [Exception]. *)
Inductive exn :=
| CalledProcessError (c : Cmd) (returncode : Z) (out err : str)
| TimeoutExpired (c : Cmd)
| FileNotFoundError
| FileExistsError
| IsADirectoryError
| NotADirectoryError
| PermissionError
| OSError
| IndexError
| UnicodeDecodeError
| UnicodeEncodeError
| SystemExit (code : Z).

Definition is_Exception (e : exn) : bool :=
  match e with SystemExit _ => false | _ => true end.

Definition is_CalledProcessError (e : exn) : bool :=
  match e with CalledProcessError _ _ _ _ => true | _ => false end.

Definition is_FileNotFoundError (e : exn) : bool :=
  match e with FileNotFoundError => true | _ => false end.

Definition is_TimeoutExpired (e : exn) : bool :=
  match e with TimeoutExpired _ => true | _ => false end.

(** Why a command could not be started at all. *)
Inductive launch_error := NoSuchFile | Denied | OtherFailure.

Definition exn_of_launch (l : launch_error) : exn :=
  match l with
  | NoSuchFile => FileNotFoundError
  | Denied => PermissionError
  | OtherFailure => OSError
  end.

(** What the environment answers to a command.  [Completed rc out err]:
    the command ran to its end with status [rc] and its output is valid
    text in the encoding of the host, [out] and [err] once decoded.
    [Undecodable rc]: it ran to its end with status [rc] and wrote
    something that is not valid text.  [Failed why]: it could not be
    started. *)
Inductive outcome :=
| Completed (returncode : Z) (out err : str)
| Undecodable (returncode : Z)
| Failed (why : launch_error).

(** The file operations that the operating system may refuse, and why: for
    lack of permission ([PermissionError]) or for another reason
    ([OSError]), such as a directory that is a link for [shutil.rmtree]. *)
Inductive fs_op := OpenRead | OpenWrite | MakeDir | RemoveTree.

Inductive refusal := Forbidden | Unusable.

Definition exn_of_refusal (r : refusal) : exn :=
  match r with
  | Forbidden => PermissionError
  | Unusable => OSError
  end.

(** [subprocess.CompletedProcess] *)
Record CompletedProcess := mkCompleted
  { returncode : Z; stdout : str; stderr : str }.

Section WithHost.

(** [X] is the part of the outside world that is not the directory tree:
    the network, the git repository, the installed tools. *)
Variable X : Type.

(** The host of the script.  [spawn] runs a command to its end and may
    change the tree and the rest of the world; [expires c t s] is [Some s']
    when [c], started in [s], is still running after [t] seconds and leaves
    [s'] when it is killed.  [format_mb] renders a size in bytes as
    [f"{size / (1024*1024):.1f}"] does and [str_exn] is [str(e)]; floating
    point and the messages of the library stay abstract.

    [encode_char] and [decode] are the codec of the locale, which text
    files go through: it encodes character by character, as UTF-8 and the
    code pages do, and decodes a whole file or fails.  [refused op p s] is
    [Some r] when the operating system refuses [op] at [p] in the state
    [s]; [debris p s] is what a removal of [p] that fails leaves of the
    tree. *)
Record Host := mkHost
  { os_name : str;
    platform_system : str;
    spawn : Cmd -> Fs.node * X -> outcome * (Fs.node * X);
    expires : Cmd -> N -> Fs.node * X -> option (Fs.node * X);
    format_mb : N -> str;
    str_exn : exn -> str;
    dir_size : N;
    encode_char : char -> option (list N);
    decode : list N -> option str;
    refused : fs_op -> Fs.path -> Fs.node * X -> option refusal;
    debris : Fs.path -> Fs.node * X -> Fs.node }.

Variable host : Host.

(** The state a script runs in.  [printed] and [history] are what the
    script has printed and the commands it has started, latest first. *)
Record World := mkWorld
  { fs : Fs.node;
    ext : X;
    printed : list str;
    history : list Cmd }.

Inductive res (A : Type) :=
| Ret (a : A)
| Raise (e : exn).
Arguments Ret {A} a.
Arguments Raise {A} e.

Definition M (A : Type) := World -> res A * World.

Definition ret {A} (a : A) : M A := fun w => (Ret a, w).

Definition raise {A} (e : exn) : M A := fun w => (Raise e, w).

Definition bind {A B} (m : M A) (k : A -> M B) : M B :=
  fun w =>
    match m w with
    | (Ret a, w') => k a w'
    | (Raise e, w') => (Raise e, w')
    end.

(** [try: m except <catches> as e: handler e] *)
Definition try_except {A} (m : M A) (catches : exn -> bool)
           (handler : exn -> M A) : M A :=
  fun w =>
    match m w with
    | (Raise e, w') => if catches e then handler e w' else (Raise e, w')
    | r => r
    end.

(** [try: m finally: fin] *)
Definition try_finally {A} (m : M A) (fin : M unit) : M A :=
  fun w =>
    let '(r, w') := m w in
    match fin w' with
    | (Ret _, w'') => (r, w'')
    | (Raise e, w'') => (Raise e, w'')
    end.

Definition get_fs : M Fs.node := fun w => (Ret (fs w), w).

Definition set_fs (n : Fs.node) : M unit :=
  fun w => (Ret tt, mkWorld n (ext w) (printed w) (history w)).

(** [print(s)] *)
Definition print (s : str) : M unit :=
  fun w => (Ret tt, mkWorld (fs w) (ext w) (s :: printed w) (history w)).

(** [sys.exit(code)] *)
Definition sys_exit {A} (code : Z) : M A := raise (SystemExit code).

(** [subprocess.run(c, check=check, capture_output=True, text=text,
    timeout=timeout)].  Every call of the scripts captures the output of
    the command.  With [text=True] the output is decoded when it is
    collected, before the status is looked at: output that is not valid
    text raises [UnicodeDecodeError] whatever the status.  Without it the
    output stays bytes, which no call of the scripts looks at: it is left
    empty here when it is not text. *)
Definition subprocess_run (c : Cmd) (check text : bool) (timeout : option N)
  : M CompletedProcess :=
  fun w =>
    let started s := mkWorld (fst s) (snd s) (printed w) (c :: history w) in
    let killed :=
      match timeout with
      | Some t => expires host c t (fs w, ext w)
      | None => None
      end in
    match killed with
    | Some s' => (Raise (TimeoutExpired c), started s')
    | None =>
      let '(o, s') := spawn host c (fs w, ext w) in
      match o with
      | Completed rc out err =>
        if check && negb (rc =? 0)%Z
        then (Raise (CalledProcessError c rc out err), started s')
        else (Ret (mkCompleted rc out err), started s')
      | Undecodable rc =>
        if text then (Raise UnicodeDecodeError, started s')
        else if check && negb (rc =? 0)%Z
        then (Raise (CalledProcessError c rc [] []), started s')
        else (Ret (mkCompleted rc [] []), started s')
      | Failed why => (Raise (exn_of_launch why), started s')
      end
    end.

(** The process status that running [m] as a script gives: 0 when it
    returns, the code of [sys.exit], and 1 after a traceback. *)
Definition exit_status {A} (r : res A) : Z :=
  match r with
  | Ret _ => 0
  | Raise (SystemExit code) => code
  | Raise _ => 1
  end.

(** *** Paths and files *)

Definition is_windows : bool := PyStr.eqb (os_name host) (lit "nt").

(** [str(path)] *)
Definition path_str (p : Fs.path) : str :=
  join (if is_windows then lit "\" else lit "/") p.

(** [path.exists()] *)
Definition path_exists (p : Fs.path) : M bool :=
  fun w => (Ret (Fs.exists_ p (fs w)), w).

(** [path.is_dir()] *)
Definition path_is_dir (p : Fs.path) : M bool :=
  fun w => (Ret (Fs.is_dir p (fs w)), w).

(** [path.stat().st_size] *)
Definition st_size (p : Fs.path) : M N :=
  fun w =>
    match Fs.lookup p (fs w) with
    | Some (Fs.File d) => (Ret (N.of_nat (length d)), w)
    | Some (Fs.Dir _) => (Ret (dir_size host), w)
    | None => (Raise FileNotFoundError, w)
    end.

(** [shutil.rmtree(path)].  The removal of a directory can fail, on a
    directory that is a link or for lack of permission: the error is
    raised and a part of the tree may be gone already. *)
Definition rmtree (p : Fs.path) : M unit :=
  fun w =>
    match Fs.lookup p (fs w) with
    | Some (Fs.Dir _) =>
      match refused host RemoveTree p (fs w, ext w) with
      | Some r =>
        (Raise (exn_of_refusal r),
         mkWorld (debris host p (fs w, ext w)) (ext w) (printed w) (history w))
      | None => set_fs (Fs.remove p (fs w)) w
      end
    | Some (Fs.File _) => (Raise NotADirectoryError, w)
    | None => (Raise FileNotFoundError, w)
    end.

(** What stands in the way of creating an entry at [p]. *)
Definition parent_error (p : Fs.path) (n : Fs.node) : exn :=
  if Fs.exists_ (removelast p) n then NotADirectoryError
  else FileNotFoundError.

(** [path.mkdir(exist_ok=exist_ok)] *)
Definition mkdir (p : Fs.path) (exist_ok : bool) : M unit :=
  fun w =>
    match Fs.lookup p (fs w) with
    | Some (Fs.Dir _) =>
      if exist_ok then (Ret tt, w) else (Raise FileExistsError, w)
    | Some (Fs.File _) => (Raise FileExistsError, w)
    | None =>
      match Fs.put p (Fs.Dir []) (fs w) with
      | Some n =>
        match refused host MakeDir p (fs w, ext w) with
        | Some r => (Raise (exn_of_refusal r), w)
        | None => set_fs n w
        end
      | None => (Raise (parent_error p (fs w)), w)
      end
    end.

(** [path.iterdir()], the names only *)
Definition iterdir (p : Fs.path) : M (list str) :=
  fun w =>
    match Fs.lookup p (fs w) with
    | Some (Fs.Dir es) => (Ret (map fst es), w)
    | Some (Fs.File _) => (Raise NotADirectoryError, w)
    | None => (Raise FileNotFoundError, w)
    end.

(** [open(p, "rb").read()]: the bytes of the file. *)
Definition read_file (p : Fs.path) : M (list N) :=
  fun w =>
    match Fs.lookup p (fs w) with
    | Some (Fs.File d) =>
      match refused host OpenRead p (fs w, ext w) with
      | Some r => (Raise (exn_of_refusal r), w)
      | None => (Ret d, w)
      end
    | Some (Fs.Dir _) => (Raise IsADirectoryError, w)
    | None => (Raise FileNotFoundError, w)
    end.

(** [open(p, "wb")] followed by [write(d)], as [shutil.copy2] does at its
    destination: the file holds [d] and nothing else. *)
Definition write_file (p : Fs.path) (d : list N) : M unit :=
  fun w =>
    match Fs.lookup p (fs w) with
    | Some (Fs.Dir _) => (Raise IsADirectoryError, w)
    | _ =>
      match Fs.put p (Fs.File d) (fs w) with
      | Some n =>
        match refused host OpenWrite p (fs w, ext w) with
        | Some r => (Raise (exn_of_refusal r), w)
        | None => set_fs n w
        end
      | None => (Raise (parent_error p (fs w)), w)
      end
    end.

(** *** Text files

    A file opened in text mode is decoded with the codec of the locale, and
    ["\r\n"] and ["\r"] are read as ["\n"]; what is written has its
    ["\n"] replaced by the line end of the host and is encoded. *)

Definition cr : char := 13%N.

(** [os.linesep] *)
Definition linesep : str := if is_windows then [cr; nl] else [nl].

Fixpoint universal_newlines (s : str) : str :=
  match s with
  | [] => []
  | c :: rest =>
    if (c =? cr)%N then
      match rest with
      | d :: rest' =>
        if (d =? nl)%N then nl :: universal_newlines rest'
        else nl :: universal_newlines rest
      | [] => [nl]
      end
    else c :: universal_newlines rest
  end.

Definition to_linesep (s : str) : str :=
  flat_map (fun c => if (c =? nl)%N then linesep else [c]) s.

Fixpoint encode (s : str) : option (list N) :=
  match s with
  | [] => Some []
  | c :: rest =>
    match encode_char host c, encode rest with
    | Some b, Some bs => Some (b ++ bs)
    | _, _ => None
    end
  end.

(** The text that a file with the bytes [d] reads as, if any. *)
Definition text_of (d : list N) : option str :=
  option_map universal_newlines (decode host d).

(** The bytes that writing the text [s] leaves in a file, if [s] can be
    encoded. *)
Definition to_bytes (s : str) : option (list N) := encode (to_linesep s).

(** [open(p, "r").read()] *)
Definition read_text (p : Fs.path) : M str :=
  bind (read_file p) (fun d =>
  match text_of d with
  | Some s => ret s
  | None => raise UnicodeDecodeError
  end).

(** [open(p, "w")]: the file is there and empty. *)
Definition open_w (p : Fs.path) : M unit := write_file p [].

(** [f.write(s)] on the file at [p], opened by [open_w] and empty so far:
    nothing is written when [s] cannot be encoded. *)
Definition put_text (p : Fs.path) (s : str) : M unit :=
  match to_bytes s with
  | Some d =>
    fun w =>
      match Fs.put p (Fs.File d) (fs w) with
      | Some n => set_fs n w
      | None => (Raise (parent_error p (fs w)), w)
      end
  | None => raise UnicodeEncodeError
  end.

(** [with open(p, "w") as f: f.write(s)] *)
Definition write_text (p : Fs.path) (s : str) : M unit :=
  bind (open_w p) (fun _ => put_text p s).

(** [shutil.copy2(src, dst)]; a [dst] that is a directory receives the
    copy under the name of [src]. *)
Definition copy2 (src dst : Fs.path) : M unit :=
  bind (read_file src) (fun d =>
  bind get_fs (fun n =>
  write_file (if Fs.is_dir dst n then dst ++ [last src []] else dst) d)).

End WithHost.

Arguments Ret {A} a.
Arguments Raise {A} e.
Arguments ret {X A} a.
Arguments raise {X A} e.
Arguments sys_exit {X A} code.
Arguments print {X} s.
Arguments get_fs {X}.
Arguments set_fs {X} n.
Arguments path_exists {X} p.
Arguments path_is_dir {X} p.
Arguments iterdir {X} p.

End Py.

Import Py.

Declare Scope py_scope.
Delimit Scope py_scope with py.
Notation "x <- m ;; k" := (bind m (fun x => k))
  (at level 100, m at next level, right associativity) : py_scope.
Notation "m ;; k" := (bind m (fun _ => k))
  (at level 100, right associativity) : py_scope.
Notation "'when' b 'do' m" := (if b then m else ret tt)
  (at level 99, b at level 9, m at level 99) : py_scope.

Local Open Scope py_scope.
Local Open Scope list_scope.

(** [for x in xs: body x] *)
Fixpoint for_each {X A} (xs : list A) (body : A -> M X unit) : M X unit :=
  match xs with
  | [] => ret tt
  | x :: rest => body x ;; for_each rest body
  end.

(** A string is true when it is not empty. *)
Definition truthy (s : str) : bool :=
  match s with [] => false | _ => true end.

(* ================================================================== *)
(** ** build_script.py *)

Module BuildScript.

Section WithHost.

Variable X : Type.
Variable host : Host X.

Definition run_command (cmd description : str) : M X bool :=
  print (nl :: lit "[RUNNING] " ++ description ++ lit "...") ;;
  try_except
    (result <- subprocess_run host (Shell cmd) true true None ;;
     print (lit "[SUCCESS] " ++ description ++ lit " completed successfully") ;;
     when (truthy (stdout result)) do print (stdout result) ;;
     ret true)
    is_CalledProcessError
    (fun e =>
       print (lit "[ERROR] " ++ description ++ lit " failed") ;;
       print (lit "Error: " ++ str_exn host e) ;;
       match e with
       | CalledProcessError _ _ out err =>
         when (truthy out) do print (lit "Stdout: " ++ out) ;;
         when (truthy err) do print (lit "Stderr: " ++ err) ;;
         ret false
       | _ => ret false
       end).

Definition remove_if_dir (p : Fs.path) : M X unit :=
  d <- path_is_dir p ;;
  when d do (rmtree host p ;; print (lit "  Removed " ++ path_str host p)).

Definition clean_build : M X unit :=
  print (nl :: lit "[CLEAN] Cleaning build artifacts...") ;;
  for_each [lit "build"; lit "dist"; lit "*.egg-info"]
    (fun pattern =>
       n <- get_fs ;;
       for_each (Fs.glob pattern n) remove_if_dir) ;;
  n <- get_fs ;;
  for_each (Fs.rglob (lit "__pycache__") n) remove_if_dir ;;
  print (lit "[SUCCESS] Clean completed").

(** One of the two probing loops of [check_requirements]: the tools of
    [tools] that are missing, in order. *)
Fixpoint probe_tools (tools : list str) (missing_msg : str -> str)
  : M X (list str) :=
  match tools with
  | [] => ret []
  | tool :: rest =>
    missing <-
      try_except
        (subprocess_run host (Argv [tool; lit "--version"]) true false None ;;
         print (lit "  [SUCCESS] " ++ tool ++ lit " is available") ;;
         ret false)
        (fun e => is_CalledProcessError e || is_FileNotFoundError e)
        (fun _ => print (missing_msg tool) ;; ret true) ;;
    others <- probe_tools rest missing_msg ;;
    ret (if missing then tool :: others else others)
  end.

Definition check_requirements : M X bool :=
  print (nl :: lit "[CHECK] Checking requirements...") ;;
  missing_tools <-
    probe_tools [lit "python"; lit "pip"; lit "twine"]
      (fun tool => lit "  [ERROR] " ++ tool ++ lit " is missing") ;;
  missing_optional <-
    probe_tools [lit "pyinstaller"]
      (fun tool => lit "  [WARNING]  " ++ tool
                   ++ lit " is missing (optional for executables)") ;;
  match missing_tools with
  | _ :: _ =>
    print (nl :: lit "[ERROR] Missing required tools: "
              ++ join (lit ", ") missing_tools) ;;
    print (lit "Please install them before building:") ;;
    print (lit "  pip install twine build") ;;
    ret false
  | [] =>
    when (match missing_optional with [] => false | _ => true end) do
      (print (nl :: lit "[WARNING]  Missing optional tools: "
                 ++ join (lit ", ") missing_optional) ;;
       print (lit "Install them to create standalone executables:") ;;
       print (lit "  pip install pyinstaller")) ;;
    ret true
  end.

Definition build_package : M X bool :=
  print (nl :: lit "[BUILD] Building package...") ;;
  ok <- run_command (lit "python -m build")
                    (lit "Building source distribution and wheel") ;;
  if negb ok then ret false else
  ok <- run_command (lit "twine check dist/*") (lit "Checking built package") ;;
  if negb ok then ret false else
  ret true.

Definition test_package : M X bool :=
  print (nl :: lit "🧪 Testing package installation...") ;;
  let test_dir := [lit "test_install"] in
  e <- path_exists test_dir ;;
  when e do rmtree host test_dir ;;
  mkdir host test_dir false ;;
  try_finally
    (ok <- run_command
             (lit "cd " ++ path_str host test_dir ++ lit " && python -m venv venv")
             (lit "Creating test virtual environment") ;;
     if negb ok then ret false else
     let pip_cmd :=
       if PyStr.eqb (os_name host) (lit "nt")
       then path_str host test_dir ++ lit "/venv/Scripts/pip"
       else path_str host test_dir ++ lit "/venv/bin/pip" in
     let install_cmd := pip_cmd ++ lit " install ../dist/*.whl" in
     ok <- run_command install_cmd
                       (lit "Installing package in test environment") ;;
     if negb ok then ret false else
     let test_import_cmd :=
       pip_cmd ++ lit " run python -c "
       ++ [34%N] ++ lit "import gridapi; print('GridAPI imported successfully')"
       ++ [34%N] in
     ok <- run_command test_import_cmd (lit "Testing package import") ;;
     if negb ok then ret false else
     print (lit "[SUCCESS] Package test completed successfully") ;;
     ret true)
    (e <- path_exists test_dir ;;
     when e do rmtree host test_dir).

Definition get_platform_info : str * str :=
  let system := lower (platform_system host) in
  if PyStr.eqb system (lit "windows") then (lit "windows", lit ".exe")
  else if PyStr.eqb system (lit "darwin") then (lit "macos", [])
  else if PyStr.eqb system (lit "linux") then (lit "linux", [])
  else (lit "unknown", []).

(** [f"gridapi{ext}" if ext else "gridapi"] *)
Definition exe_name_of (ext : str) : str :=
  if truthy ext then lit "gridapi" ++ ext else lit "gridapi".

Definition exe_path_of (ext : str) : Fs.path := [lit "dist"; exe_name_of ext].

Definition build_executable : M X bool :=
  print (nl :: lit "[EXECUTABLE] Building standalone executable...") ;;
  let '(platform_name, ext) := get_platform_info in
  print (lit "   Platform: " ++ platform_name) ;;
  found <-
    try_except
      (subprocess_run host (Argv [lit "pyinstaller"; lit "--version"])
                      true false None ;;
       ret true)
      (fun e => is_CalledProcessError e || is_FileNotFoundError e)
      (fun _ =>
         print (lit "[ERROR] PyInstaller not found. Install it with: pip install pyinstaller") ;;
         ret false) ;;
  if negb found then ret false else
  let platform_spec := lit "gridapi-" ++ platform_name ++ lit ".spec" in
  has_spec <- path_exists [platform_spec] ;;
  let spec_file := if has_spec then platform_spec else lit "gridapi.spec" in
  (if has_spec
   then print (lit "   Using platform-specific spec file: " ++ spec_file)
   else print (lit "   Using generic spec file: " ++ spec_file)) ;;
  ok <- run_command (lit "pyinstaller " ++ spec_file ++ lit " --clean")
                    (lit "Building standalone executable") ;;
  if negb ok then ret false else
  let exe_path := exe_path_of ext in
  print (lit "   Debug: Contents of dist directory:") ;;
  let dist_dir := [lit "dist"] in
  has_dist <- path_exists dist_dir ;;
  (if has_dist
   then names <- iterdir dist_dir ;;
        for_each names (fun name => print (lit "     - " ++ name))
   else print (lit "     - dist directory does not exist")) ;;
  print (lit "   Debug: Looking for executable: " ++ path_str host exe_path) ;;
  created <- path_exists exe_path ;;
  if created then
    print (lit "[SUCCESS] Executable created: " ++ path_str host exe_path) ;;
    print (lit "   Platform: " ++ platform_name) ;;
    size <- st_size host exe_path ;;
    print (lit "   Size: " ++ format_mb host size ++ lit " MB") ;;
    print (lit "   Testing executable...") ;;
    try_except
      (result <- subprocess_run host
                   (Argv [path_str host exe_path; lit "--help"])
                   false true (Some 10%N) ;;
       if (returncode result =? 0)%Z
       then print (lit "   [SUCCESS] Executable test passed")
       else print (lit "   [WARNING]  Executable test failed (return code: "
                   ++ of_Z (returncode result) ++ lit ")"))
      is_Exception
      (fun e =>
         if is_TimeoutExpired e
         then print (lit "   [WARNING]  Executable test timed out")
         else print (lit "   [WARNING]  Executable test error: "
                     ++ str_exn host e)) ;;
    ret true
  else
    print (lit "[ERROR] Executable not found after build") ;;
    ret false.

Definition build_all_platforms : M X bool :=
  print (nl :: lit "[PLATFORMS] Building executables for all platforms...") ;;
  let current_platform := fst get_platform_info in
  print (lit "   Current platform: " ++ current_platform) ;;
  print (nl :: lit "[BUILD] Building for " ++ current_platform ++ lit "...") ;;
  ok <- build_executable ;;
  if ok then
    print (lit "[SUCCESS] " ++ current_platform ++ lit " build completed") ;;
    print (nl :: lit "💡 Cross-platform building notes:") ;;
    print (lit "   - Executables are built for the current platform only") ;;
    print (lit "   - For Windows executables: Build on Windows") ;;
    print (lit "   - For macOS executables: Build on macOS") ;;
    print (lit "   - For Linux executables: Build on Linux") ;;
    print (lit "   - Use CI/CD pipelines for automated multi-platform builds") ;;
    ret true
  else
    print (lit "[ERROR] " ++ current_platform ++ lit " build failed") ;;
    ret false.

(** The object that [hashlib.sha256()] returns, by what has been fed to
    it: the digest of an object is the digest of the concatenation of the
    arguments of its [update] calls. *)
Record sha256_object := mkSha { fed : list N }.

Definition sha256_new : sha256_object := mkSha [].

Definition sha256_update (h : sha256_object) (chunk : list N)
  : sha256_object :=
  mkSha (fed h ++ chunk).

Definition sha256_hexdigest (h : sha256_object) : str :=
  Sha256.hexdigest (fed h).

(** [for chunk in iter(lambda: exe_file.read(4096), b""): h.update(chunk)]
    on a file object that has [remaining] left to read.  One round of the
    loop is one unit of [fuel]. *)
Fixpoint hash_chunks (fuel : nat) (remaining : list N) (h : sha256_object)
  : sha256_object :=
  match fuel with
  | O => h
  | S fuel' =>
    match firstn 4096 remaining with
    | [] => h
    | chunk =>
      hash_chunks fuel' (skipn 4096 remaining) (sha256_update h chunk)
    end
  end.

Definition platform_exe_name_of (platform_name ext : str) : str :=
  if truthy ext then lit "gridapi-" ++ platform_name ++ ext
  else lit "gridapi-" ++ platform_name.

(** The second half of [prepare_release_assets], from the comment
    [# Create release directory] to the end of the function. *)
Definition seal_release_assets (platform_name ext : str) : M X bool :=
  let exe_path := exe_path_of ext in
  let release_dir := [lit "release-assets"] in
  mkdir host release_dir true ;;
  let platform_exe_name := platform_exe_name_of platform_name ext in
  let platform_exe_path := release_dir ++ [platform_exe_name] in
  copy2 host exe_path platform_exe_path ;;
  print (lit "[SUCCESS] Copied executable: " ++ path_str host platform_exe_path) ;;
  size <- st_size host platform_exe_path ;;
  print (lit "   Size: " ++ format_mb host size ++ lit " MB") ;;
  let checksum_file := release_dir ++ [lit "checksums.txt"] in
  sealed <-
    try_except
      (open_w host checksum_file ;;
       data <- read_file host platform_exe_path ;;
       let sha256_hash := hash_chunks (S (length data)) data sha256_new in
       let checksum := sha256_hexdigest sha256_hash in
       put_text host checksum_file
                (checksum ++ lit "  " ++ platform_exe_name ++ [nl]) ;;
       print (lit "[SUCCESS] Created checksums: " ++ path_str host checksum_file) ;;
       text <- read_text host checksum_file ;;
       print (lit "   Checksum: " ++ strip text) ;;
       ret true)
      is_Exception
      (fun e =>
         print (lit "[ERROR] Failed to create checksums: " ++ str_exn host e) ;;
         ret false) ;;
  if negb sealed then ret false else
  print (nl :: lit "[INFO] Release assets prepared in: "
            ++ path_str host release_dir) ;;
  print (lit "   - " ++ platform_exe_name) ;;
  print (lit "   - checksums.txt") ;;
  ret true.

(** The first half builds the executable when it is missing. *)
Definition prepare_release_assets : M X bool :=
  print (nl :: lit "[BUILD] Preparing release assets...") ;;
  let '(platform_name, ext) := get_platform_info in
  let exe_path := exe_path_of ext in
  present <- path_exists exe_path ;;
  built <-
    (if negb present then
       print (lit "   Executable not found: " ++ path_str host exe_path) ;;
       print (lit "   Building executable first...") ;;
       ok <- build_executable ;;
       if negb ok
       then print (lit "[ERROR] Failed to build executable") ;; ret false
       else ret true
     else ret true) ;;
  if negb built then ret false else
  seal_release_assets platform_name ext.

Definition publish_package (test_pypi : bool) : M X bool :=
  print (nl :: lit "[RELEASE] Publishing package...") ;;
  (if test_pypi then print (lit "  Publishing to Test PyPI...")
   else print (lit "  Publishing to PyPI...")) ;;
  let upload_cmd :=
    if test_pypi then lit "twine upload --repository testpypi dist/*"
    else lit "twine upload dist/*" in
  ok <- run_command upload_cmd (lit "Uploading package") ;;
  if negb ok then ret false else
  print (lit "[SUCCESS] Package published successfully") ;;
  ret true.

Definition usage : list str :=
  [ nl :: lit "[INFO] Available commands:";
    lit "  python build_script.py --clean          # Clean build artifacts";
    lit "  python build_script.py --build          # Build package only";
    lit "  python build_script.py --exe            # Build standalone executable";
    lit "  python build_script.py --all-platforms  # Build for all platforms";
    lit "  python build_script.py --prepare-release # Prepare release assets";
    lit "  python build_script.py --test           # Test package installation";
    lit "  python build_script.py --test-pypi      # Publish to Test PyPI";
    lit "  python build_script.py --publish        # Publish to PyPI";
    lit "  python build_script.py                  # Full build, test, and publish";
    nl :: lit "[RELEASE] Release Management:";
    lit "  python release_script.py --version 1.0.0 --build-only";
    lit "  python release_script.py --version 1.0.0 --create-release";
    lit "  python release_script.py --list-releases" ].

(** [if not step(): sys.exit(1)] *)
Definition or_exit (step : M X bool) : M X unit :=
  ok <- step ;;
  if negb ok then sys_exit 1 else ret tt.

(** The lines that [main] prints first. *)
Definition banner : M X unit :=
  print (lit "GridAPI Package Build and Publish Script") ;;
  print (repeat 61%N 50) ;;
  print (lit "Note: This script has been renamed from build.py to build_script.py") ;;
  print (lit "to avoid conflicts with the Python 'build' module.") ;;
  print (repeat 61%N 50).

Definition main (argv : list str) : M X unit :=
  banner ;;
  let clean_only := mem (lit "--clean") argv in
  let build_only := mem (lit "--build") argv in
  let build_exe := mem (lit "--exe") argv in
  let build_all := mem (lit "--all-platforms") argv in
  let prepare_release := mem (lit "--prepare-release") argv in
  let test_only := mem (lit "--test") argv in
  let publish_test := mem (lit "--test-pypi") argv in
  let publish_prod := mem (lit "--publish") argv in
  clean_build ;;
  if clean_only then
    print (nl :: lit "[SUCCESS] Clean completed. Exiting.")
  else
  or_exit check_requirements ;;
  when (build_only || negb (test_only || publish_test || publish_prod)) do
    or_exit build_package ;;
  if build_only then
    print (nl :: lit "[SUCCESS] Build completed. Exiting.")
  else
  if build_exe then
    or_exit build_executable ;;
    print (nl :: lit "[SUCCESS] Executable build completed. Exiting.")
  else
  if build_all then
    or_exit build_all_platforms ;;
    print (nl :: lit "[SUCCESS] Multi-platform build completed. Exiting.")
  else
  if prepare_release then
    or_exit prepare_release_assets ;;
    print (nl :: lit "[SUCCESS] Release assets prepared. Exiting.")
  else
  when (test_only || negb (publish_test || publish_prod)) do
    or_exit test_package ;;
  if test_only then
    print (nl :: lit "[SUCCESS] Test completed. Exiting.")
  else
  (if publish_test then
     or_exit (publish_package true) ;;
     print (nl :: lit "[SUCCESS] Package published to Test PyPI")
   else if publish_prod then
     or_exit (publish_package false) ;;
     print (nl :: lit "[SUCCESS] Package published to PyPI")
   else ret tt) ;;
  print (nl :: lit "[COMPLETE] All operations completed successfully!") ;;
  for_each usage print.

(** The status of the process that runs the script with [argv]. *)
Definition run (argv : list str) (w : World X) : Z * World X :=
  let '(r, w') := main argv w in (exit_status r, w').

End WithHost.

End BuildScript.

(* ================================================================== *)
(** ** build.py

    The script that [build_script.py] was renamed from; it has the package
    steps only. *)

Module BuildPy.

Section WithHost.

Variable X : Type.
Variable host : Host X.

Definition run_command (cmd description : str) : M X bool :=
  print (nl :: lit "🔄 " ++ description ++ lit "...") ;;
  try_except
    (result <- subprocess_run host (Shell cmd) true true None ;;
     print (lit "✅ " ++ description ++ lit " completed successfully") ;;
     when (truthy (stdout result)) do print (stdout result) ;;
     ret true)
    is_CalledProcessError
    (fun e =>
       print (lit "❌ " ++ description ++ lit " failed") ;;
       print (lit "Error: " ++ str_exn host e) ;;
       match e with
       | CalledProcessError _ _ out err =>
         when (truthy out) do print (lit "Stdout: " ++ out) ;;
         when (truthy err) do print (lit "Stderr: " ++ err) ;;
         ret false
       | _ => ret false
       end).

Definition remove_if_dir (p : Fs.path) : M X unit :=
  d <- path_is_dir p ;;
  when d do (rmtree host p ;; print (lit "  Removed " ++ path_str host p)).

Definition clean_build : M X unit :=
  print (nl :: lit "🧹 Cleaning build artifacts...") ;;
  for_each [lit "build"; lit "dist"; lit "*.egg-info"]
    (fun pattern =>
       n <- get_fs ;;
       for_each (Fs.glob pattern n) remove_if_dir) ;;
  n <- get_fs ;;
  for_each (Fs.rglob (lit "__pycache__") n) remove_if_dir ;;
  print (lit "✅ Clean completed").

Fixpoint probe_tools (tools : list str) : M X (list str) :=
  match tools with
  | [] => ret []
  | tool :: rest =>
    missing <-
      try_except
        (subprocess_run host (Argv [tool; lit "--version"]) true false None ;;
         print (lit "  ✅ " ++ tool ++ lit " is available") ;;
         ret false)
        (fun e => is_CalledProcessError e || is_FileNotFoundError e)
        (fun _ => print (lit "  ❌ " ++ tool ++ lit " is missing") ;; ret true) ;;
    others <- probe_tools rest ;;
    ret (if missing then tool :: others else others)
  end.

Definition check_requirements : M X bool :=
  print (nl :: lit "🔍 Checking requirements...") ;;
  missing_tools <- probe_tools [lit "python"; lit "pip"; lit "twine"] ;;
  match missing_tools with
  | _ :: _ =>
    print (nl :: lit "❌ Missing required tools: "
              ++ join (lit ", ") missing_tools) ;;
    print (lit "Please install them before building:") ;;
    print (lit "  pip install twine build") ;;
    ret false
  | [] => ret true
  end.

Definition build_package : M X bool :=
  print (nl :: lit "📦 Building package...") ;;
  ok <- run_command (lit "python -m build")
                    (lit "Building source distribution and wheel") ;;
  if negb ok then ret false else
  ok <- run_command (lit "twine check dist/*") (lit "Checking built package") ;;
  if negb ok then ret false else
  ret true.

Definition test_package : M X bool :=
  print (nl :: lit "🧪 Testing package installation...") ;;
  let test_dir := [lit "test_install"] in
  e <- path_exists test_dir ;;
  when e do rmtree host test_dir ;;
  mkdir host test_dir false ;;
  try_finally
    (ok <- run_command
             (lit "cd " ++ path_str host test_dir ++ lit " && python -m venv venv")
             (lit "Creating test virtual environment") ;;
     if negb ok then ret false else
     let pip_cmd :=
       if PyStr.eqb (os_name host) (lit "nt")
       then path_str host test_dir ++ lit "/venv/Scripts/pip"
       else path_str host test_dir ++ lit "/venv/bin/pip" in
     let install_cmd := pip_cmd ++ lit " install ../dist/*.whl" in
     ok <- run_command install_cmd
                       (lit "Installing package in test environment") ;;
     if negb ok then ret false else
     let test_import_cmd :=
       pip_cmd ++ lit " run python -c "
       ++ [34%N] ++ lit "import gridapi; print('GridAPI imported successfully')"
       ++ [34%N] in
     ok <- run_command test_import_cmd (lit "Testing package import") ;;
     if negb ok then ret false else
     print (lit "✅ Package test completed successfully") ;;
     ret true)
    (e <- path_exists test_dir ;;
     when e do rmtree host test_dir).

Definition publish_package (test_pypi : bool) : M X bool :=
  print (nl :: lit "🚀 Publishing package...") ;;
  (if test_pypi then print (lit "  Publishing to Test PyPI...")
   else print (lit "  Publishing to PyPI...")) ;;
  let upload_cmd :=
    if test_pypi then lit "twine upload --repository testpypi dist/*"
    else lit "twine upload dist/*" in
  ok <- run_command upload_cmd (lit "Uploading package") ;;
  if negb ok then ret false else
  print (lit "✅ Package published successfully") ;;
  ret true.

Definition or_exit (step : M X bool) : M X unit :=
  ok <- step ;;
  if negb ok then sys_exit 1 else ret tt.

Definition banner : M X unit :=
  print (lit "🚀 GridAPI Package Build and Publish Script") ;;
  print (repeat 61%N 50).

Definition main (argv : list str) : M X unit :=
  banner ;;
  let clean_only := mem (lit "--clean") argv in
  let build_only := mem (lit "--build") argv in
  let test_only := mem (lit "--test") argv in
  let publish_test := mem (lit "--test-pypi") argv in
  let publish_prod := mem (lit "--publish") argv in
  clean_build ;;
  if clean_only then
    print (nl :: lit "✅ Clean completed. Exiting.")
  else
  or_exit check_requirements ;;
  when (build_only || negb (test_only || publish_test || publish_prod)) do
    or_exit build_package ;;
  if build_only then
    print (nl :: lit "✅ Build completed. Exiting.")
  else
  when (test_only || negb (publish_test || publish_prod)) do
    or_exit test_package ;;
  if test_only then
    print (nl :: lit "✅ Test completed. Exiting.")
  else
  (if publish_test then
     or_exit (publish_package true) ;;
     print (nl :: lit "✅ Package published to Test PyPI")
   else if publish_prod then
     or_exit (publish_package false) ;;
     print (nl :: lit "✅ Package published to PyPI")
   else ret tt) ;;
  print (nl :: lit "🎉 All operations completed successfully!").

Definition run (argv : list str) (w : World X) : Z * World X :=
  let '(r, w') := main argv w in (exit_status r, w').

End WithHost.

End BuildPy.

(* ================================================================== *)
(** ** release_script.py *)

Module ReleaseScript.

Section WithHost.

Variable X : Type.
Variable host : Host X.

Definition run_command (cmd description : str) : M X bool :=
  when (truthy description) do print (lit "🔄 " ++ description ++ lit "...") ;;
  try_except
    (result <- subprocess_run host (Shell cmd) true true None ;;
     when (truthy description) do
       print (lit "✅ " ++ description ++ lit " completed successfully") ;;
     ret true)
    is_CalledProcessError
    (fun e =>
       print (lit "❌ " ++ description ++ lit " failed") ;;
       match e with
       | CalledProcessError _ _ _ err =>
         print (lit "Error: " ++ err) ;; ret false
       | _ => ret false
       end).

Definition pyproject : Fs.path := [lit "pyproject.toml"].

Definition is_version_line (line : str) : bool :=
  startswith (lit "version =") (strip line).

(** The loop of [get_current_version]; [None] when no line matches and the
    loop runs to its end. *)
Fixpoint find_version (lines : list str) : M X (option str) :=
  match lines with
  | [] => ret None
  | line :: rest =>
    if is_version_line line then
      match nth_error (split eq_sign line) 1 with
      | Some value => ret (Some (strip_chars [34%N] (strip value)))
      | None => raise IndexError
      end
    else find_version rest
  end.

Definition get_current_version : M X str :=
  found <-
    try_except
      (content <- read_text host pyproject ;;
       find_version (split nl content))
      is_Exception
      (fun _ => ret None) ;;
  match found with
  | Some v => ret v
  | None => ret (lit "1.0.0")
  end.

(** The loop of [update_version]: the first matching line is replaced and
    the loop left. *)
Fixpoint replace_version (version : str) (lines : list str) : list str :=
  match lines with
  | [] => []
  | line :: rest =>
    if is_version_line line
    then (lit "version = " ++ [34%N] ++ version ++ [34%N]) :: rest
    else line :: replace_version version rest
  end.

Definition update_version (version : str) : M X bool :=
  try_except
    (content <- read_text host pyproject ;;
     let lines := replace_version version (split nl content) in
     write_text host pyproject (join [nl] lines) ;;
     print (lit "✅ Updated version to " ++ version) ;;
     ret true)
    is_Exception
    (fun e =>
       print (lit "❌ Failed to update version: " ++ str_exn host e) ;;
       ret false).

Definition create_git_tag (version : str) : M X bool :=
  let tag_name := lit "v" ++ version in
  print (nl :: lit "🏷️  Creating git tag: " ++ tag_name) ;;
  exists_already <-
    try_except
      (result <- subprocess_run host (Shell (lit "git tag -l " ++ tag_name))
                                false true None ;;
       if contains tag_name (stdout result)
       then print (lit "⚠️  Tag " ++ tag_name ++ lit " already exists") ;;
            ret true
       else ret false)
      is_Exception
      (fun _ => ret false) ;;
  if exists_already then ret true else
  ok <- run_command
          (lit "git tag -a " ++ tag_name ++ lit " -m 'Release " ++ tag_name
               ++ lit "'")
          (lit "Creating tag " ++ tag_name) ;;
  if negb ok then ret false else
  ok <- run_command (lit "git push origin " ++ tag_name)
                    (lit "Pushing tag " ++ tag_name) ;;
  if negb ok then ret false else
  print (lit "✅ Tag " ++ tag_name ++ lit " created and pushed") ;;
  ret true.

(** [platform_names[current_platform]] for the three supported systems. *)
Definition platform_names (current_platform : str) : option str :=
  if PyStr.eqb current_platform (lit "windows") then Some (lit "Windows")
  else if PyStr.eqb current_platform (lit "darwin") then Some (lit "macOS")
  else if PyStr.eqb current_platform (lit "linux") then Some (lit "Linux")
  else None.

Definition build_all_platforms : M X bool :=
  print (nl :: lit "🌍 Building executables for all platforms...") ;;
  let current_platform := lower (platform_system host) in
  match platform_names current_platform with
  | None =>
    print (lit "❌ Unsupported platform: " ++ current_platform) ;;
    ret false
  | Some platform_name =>
    print (lit "   Building for " ++ platform_name ++ lit "...") ;;
    ok <- run_command (lit "python build_script.py --exe")
                      (lit "Building " ++ platform_name ++ lit " executable") ;;
    if negb ok then ret false else
    let windows := PyStr.eqb current_platform (lit "windows") in
    let exe_name := if windows then lit "gridapi.exe" else lit "gridapi" in
    let exe_path := [lit "dist"; exe_name] in
    created <- path_exists exe_path ;;
    if created then
      print (lit "✅ Executable created: " ++ path_str host exe_path) ;;
      size <- st_size host exe_path ;;
      print (lit "   Size: " ++ format_mb host size ++ lit " MB") ;;
      let test_cmd :=
        if windows then lit "dist\" ++ exe_name ++ lit " --help"
        else lit "./dist/" ++ exe_name ++ lit " --help" in
      ok <- run_command test_cmd (lit "Testing executable") ;;
      if ok then
        print (lit "✅ " ++ platform_name ++ lit " build completed successfully") ;;
        ret true
      else
        print (lit "❌ " ++ platform_name ++ lit " executable test failed") ;;
        ret false
    else
      print (lit "❌ Executable not found: " ++ path_str host exe_path) ;;
      ret false
  end.

(** [try: subprocess.run(cmd, shell=True, check=True, capture_output=True)
    except subprocess.CalledProcessError: print(msg); return False], as
    [create_github_release] does twice: [true] when the command succeeds. *)
Definition gh_check (cmd msg : str) : M X bool :=
  try_except
    (subprocess_run host (Shell cmd) true false None ;; ret true)
    is_CalledProcessError
    (fun _ => print msg ;; ret false).

Definition create_github_release (version : str) (draft : bool) : M X bool :=
  let tag_name := lit "v" ++ version in
  print (nl :: lit "🚀 Creating GitHub release: " ++ tag_name) ;;
  ok <- gh_check (lit "gh --version")
                 (lit "❌ GitHub CLI (gh) not found. Install it from: https://cli.github.com/") ;;
  if negb ok then ret false else
  ok <- gh_check (lit "gh auth status")
                 (lit "❌ Not authenticated with GitHub CLI. Run: gh auth login") ;;
  if negb ok then ret false else
  let draft_flag := if draft then lit "--draft" else [] in
  let cmd := lit "gh release create " ++ tag_name ++ lit " " ++ draft_flag
             ++ lit " --title 'GridAPI CLI " ++ tag_name
             ++ lit "' --notes-file RELEASE_NOTES.md" in
  ok <- run_command cmd (lit "Creating GitHub release " ++ tag_name) ;;
  if negb ok then ret false else
  print (lit "✅ GitHub release " ++ tag_name ++ lit " created") ;;
  ret true.

Definition list_releases : M X bool :=
  print (nl :: lit "📋 Existing releases:") ;;
  try_except
    (result <- subprocess_run host (Shell (lit "gh release list")) true true None ;;
     (if truthy (strip (stdout result)) then print (stdout result)
      else print (lit "   No releases found")) ;;
     ret true)
    is_CalledProcessError
    (fun _ =>
       print (lit "❌ Failed to list releases. Make sure GitHub CLI is installed and authenticated.") ;;
       ret false).

(** The text of the release notes, line by line. *)
Definition notes_lines (version : str) : list str :=
  [ lit "# GridAPI CLI " ++ version;
    [];
    lit "## What's New";
    lit "- Cross-platform standalone executables";
    lit "- No Python installation required";
    lit "- Full CLI functionality included";
    [];
    lit "## Downloads";
    lit "- **Windows**: `gridapi-windows.exe` (requires Windows 7+)";
    lit "- **macOS**: `gridapi-macos` (requires macOS 10.13+)";
    lit "- **Linux**: `gridapi-linux` (requires glibc 2.17+)";
    [];
    lit "## Installation";
    lit "1. Download the appropriate executable for your platform";
    lit "2. Make it executable (Linux/macOS): `chmod +x gridapi-*`";
    lit "3. Create a `grid_token` file with your API credentials:";
    lit "   ```";
    lit "   grid_token=your-api-token-here";
    lit "   base_url=https://your-api-url.com";
    lit "   ```";
    lit "4. Run: `./gridapi-* studies list` (or `gridapi-windows.exe studies list` on Windows)";
    [];
    lit "## Verification";
    lit "Verify your download using the provided checksums:";
    lit "```bash";
    lit "sha256sum -c checksums.txt";
    lit "```";
    [];
    lit "## Changes";
    lit "- Initial release with cross-platform executable support";
    lit "- Full CLI functionality";
    lit "- Comprehensive documentation";
    [] ].

Definition notes_file : Fs.path := [lit "RELEASE_NOTES.md"].

Definition create_release_notes (version : str) : M X bool :=
  let notes_content := join [nl] (notes_lines version) in
  try_except
    (write_text host notes_file notes_content ;;
     print (lit "✅ Created release notes: " ++ path_str host notes_file) ;;
     ret true)
    is_Exception
    (fun e =>
       print (lit "❌ Failed to create release notes: " ++ str_exn host e) ;;
       ret false).

(** The namespace that [parser.parse_args()] returns; [arg_version] is
    [None] when [--version] is not given. *)
Record Args := mkArgs
  { arg_version : option str;
    arg_build_only : bool;
    arg_create_release : bool;
    arg_create_tag : bool;
    arg_list_releases : bool;
    arg_draft : bool }.

(** What [parser.parse_args()] does with a command line: it returns the
    namespace, or it prints [out] ([--help]; a usage error prints nothing
    on the standard output) and leaves through [sys.exit(code)]. *)
Inductive parsed :=
| Parsed (args : Args)
| Stopped (code : Z) (out : list str).

(** [argparse] is a library of the Python distribution: what the parser
    of [main], with its six options, makes of the command line is a
    parameter of the script. *)
Variable parse_args : list str -> parsed.

(** [main] from the statement after [args = parser.parse_args()]. *)
Definition main_parsed (args : Args) : M X bool :=
  if arg_list_releases args then list_releases else
  match arg_version args with
  | Some ((_ :: _) as version) =>
    print (lit "🚀 GridAPI Release Management - Version " ++ version) ;;
    print (repeat 61%N 50) ;;
    ok <- update_version version ;;
    if negb ok then ret false else
    ok <- build_all_platforms ;;
    if negb ok then ret false else
    if arg_build_only args then
      print (nl :: lit "✅ Build completed. Use --create-release to create a GitHub release.") ;;
      ret true
    else
    ok <- create_release_notes version ;;
    if negb ok then ret false else
    ok <- (if arg_create_tag args || arg_create_release args
           then create_git_tag version else ret true) ;;
    if negb ok then ret false else
    ok <- (if arg_create_release args
           then create_github_release version (arg_draft args) else ret true) ;;
    if negb ok then ret false else
    print (nl :: lit "🎉 Release " ++ version ++ lit " completed successfully!") ;;
    print (nl :: lit "Next steps:") ;;
    print (lit "1. GitHub Actions will automatically build executables for all platforms") ;;
    print (lit "2. The release will be created with downloadable executables") ;;
    print (lit "3. Users can download executables from the GitHub releases page") ;;
    ret true
  | _ =>
    current_version <- get_current_version ;;
    print (lit "Current version: " ++ current_version) ;;
    print (lit "Use --version to specify a different version") ;;
    ret true
  end.

(** [main] on the command line [argv], which is [sys.argv[1:]]. *)
Definition main (argv : list str) : M X bool :=
  match parse_args argv with
  | Parsed args => main_parsed args
  | Stopped code out => for_each out print ;; sys_exit code
  end.

(** [success = main(); sys.exit(0 if success else 1)] *)
Definition run (argv : list str) (w : World X) : Z * World X :=
  let '(r, w') := main argv w in
  (match r with
   | Ret success => if success then 0%Z else 1%Z
   | Raise e => exit_status (Raise (A := unit) e)
   end, w').

End WithHost.

End ReleaseScript.

(* ================================================================== *)
(** ** Example hosts

    Hosts to run the scripts on.  The rest of the world of an example host
    is the list of the tags of its git repository. *)

Module Hosts.

(** The tree with the regular file [dir/name] holding [d]. *)
Definition install (dir name : str) (d : list N) (n : Fs.node) : Fs.node :=
  let n1 :=
    if Fs.is_dir [dir] n then n
    else match Fs.put [dir] (Fs.Dir []) n with Some m => m | None => n end in
  match Fs.put [dir; name] (Fs.File d) n1 with Some m => m | None => n1 end.

Definition tag_listing : str := lit "git tag -l ".

(** A host on which every tool is installed and works: the package build
    leaves a wheel, the packager leaves the executable [exe], [false]
    exits with status 1 and [git tag -l] prints the tag it is asked for
    when the repository has it. *)
Definition spawn_ok (exe : str) (c : Cmd) (s : Fs.node * list str)
  : outcome * (Fs.node * list str) :=
  let '(n, tags) := s in
  match c with
  | Shell line =>
    if PyStr.eqb line (lit "python -m build") then
      (Completed 0 [] [],
       (install (lit "dist") (lit "gridapi-1.0.0-py3-none-any.whl")
                (lit "PK") n, tags))
    else if startswith (lit "pyinstaller ") line then
      (Completed 0 [] [], (install (lit "dist") exe (lit "binary") n, tags))
    else if PyStr.eqb line (lit "false") then
      (Completed 1 [] (lit "failed"), s)
    else if startswith tag_listing line then
      let tag := skipn (length tag_listing) line in
      (Completed 0 (if mem tag tags then tag ++ [nl] else []) [], s)
    else (Completed 0 [] [], s)
  | Argv (tool :: _) =>
    if PyStr.eqb tool (lit "missing-tool") then (Failed NoSuchFile, s)
    else (Completed 0 [] [], s)
  | Argv [] => (Failed OtherFailure, s)
  end.

Definition exn_name (e : exn) : str :=
  match e with
  | CalledProcessError _ rc _ _ =>
    lit "Command returned non-zero exit status " ++ of_Z rc
  | TimeoutExpired _ => lit "Command timed out"
  | FileNotFoundError => lit "No such file or directory"
  | UnicodeDecodeError => lit "codec can't decode bytes"
  | UnicodeEncodeError => lit "codec can't encode characters"
  | FileExistsError => lit "File exists"
  | IsADirectoryError => lit "Is a directory"
  | NotADirectoryError => lit "Not a directory"
  | PermissionError => lit "Permission denied"
  | OSError => lit "OSError"
  | IndexError => lit "list index out of range"
  | SystemExit code => of_Z code
  end.

(** [f"{size / (1024*1024):.1f}"]: the division by a power of two is
    exact in floating point (for sizes below 2^53), and the format rounds
    its exact value to the nearest tenth, a tie to the even one. *)
Definition tenths_mb (size : N) : str :=
  let t := ((size * 10) / 1048576)%N in
  let r := ((size * 10) mod 1048576)%N in
  let t' :=
    if (524288 <? r)%N then (t + 1)%N
    else if (r =? 524288)%N then (t + t mod 2)%N
    else t in
  of_Z (Z.of_N (t' / 10)) ++ lit "." ++ of_Z (Z.of_N (t' mod 10)).

(** The codec of a UTF-8 locale. *)
Definition utf8_char (c : char) : option (list N) :=
  (if c <? 128 then Some [c]
   else if c <? 2048 then Some [192 + c / 64; 128 + c mod 64]
   else if (55296 <=? c) && (c <=? 57343) then None
   else if c <? 65536 then
     Some [224 + c / 4096; 128 + (c / 64) mod 64; 128 + c mod 64]
   else if c <? 1114112 then
     Some [240 + c / 262144; 128 + (c / 4096) mod 64;
           128 + (c / 64) mod 64; 128 + c mod 64]
   else None)%N.

Definition utf8_cont (b : N) : bool := ((128 <=? b) && (b <=? 191))%N.

Fixpoint utf8_text (d : list N) : option str :=
  match d with
  | [] => Some []
  | b0 :: r0 =>
    if (b0 <? 128)%N then option_map (cons b0) (utf8_text r0)
    else if ((194 <=? b0) && (b0 <=? 223))%N then
      match r0 with
      | b1 :: r1 =>
        if utf8_cont b1
        then option_map (cons ((b0 - 192) * 64 + (b1 - 128))%N) (utf8_text r1)
        else None
      | _ => None
      end
    else if ((224 <=? b0) && (b0 <=? 239))%N then
      match r0 with
      | b1 :: b2 :: r2 =>
        let c := ((b0 - 224) * 4096 + (b1 - 128) * 64 + (b2 - 128))%N in
        if utf8_cont b1 && utf8_cont b2 && (2048 <=? c)%N
           && negb ((55296 <=? c) && (c <=? 57343))%N
        then option_map (cons c) (utf8_text r2)
        else None
      | _ => None
      end
    else if ((240 <=? b0) && (b0 <=? 244))%N then
      match r0 with
      | b1 :: b2 :: b3 :: r3 =>
        let c := ((b0 - 240) * 262144 + (b1 - 128) * 4096
                  + (b2 - 128) * 64 + (b3 - 128))%N in
        if utf8_cont b1 && utf8_cont b2 && utf8_cont b3
           && (65536 <=? c)%N && (c <? 1114112)%N
        then option_map (cons c) (utf8_text r3)
        else None
      | _ => None
      end
    else None
  end.

(** The hosts below let every file operation through. *)
Definition permissive {X} (_ : fs_op) (_ : Fs.path) (_ : Fs.node * X)
  : option refusal := None.

Definition untouched {X} (_ : Fs.path) (s : Fs.node * X) : Fs.node := fst s.

Definition linux : Host (list str) :=
  mkHost (lit "posix") (lit "Linux") (spawn_ok (lit "gridapi"))
         (fun _ _ _ => None) tenths_mb exn_name 4096
         utf8_char utf8_text permissive untouched.

Definition windows : Host (list str) :=
  mkHost (lit "nt") (lit "Windows") (spawn_ok (lit "gridapi.exe"))
         (fun _ _ _ => None) tenths_mb exn_name 0
         utf8_char utf8_text permissive untouched.

(** A host whose packaged executable hangs: the test of the executable,
    the one command run under a timeout, is killed. *)
Definition hanging_exe : Host (list str) :=
  mkHost (lit "posix") (lit "Linux") (spawn_ok (lit "gridapi"))
         (fun _ _ s => Some s) tenths_mb exn_name 4096
         utf8_char utf8_text permissive untouched.

(** A host that cannot start any command: it has no shell. *)
Definition no_shell : Host (list str) :=
  mkHost (lit "posix") (lit "Linux") (fun _ s => (Failed NoSuchFile, s))
         (fun _ _ _ => None) tenths_mb exn_name 4096
         utf8_char utf8_text permissive untouched.



(** A checkout whose project file holds the bytes [pyproject_toml], with
    a spec file and a source directory. *)
Definition checkout (pyproject_toml : str) : World (list str) :=
  mkWorld
    (Fs.Dir [(lit "pyproject.toml", Fs.File pyproject_toml);
             (lit "gridapi.spec", Fs.File (lit "# spec"));
             (lit "src", Fs.Dir [(lit "__pycache__", Fs.Dir [])])])
    [lit "v1.0.0"] [] [].

Definition project_file : str :=
  lit "[project]" ++ [nl] ++ lit "name = 'gridapi'" ++ [nl]
  ++ lit "version = " ++ [34%N] ++ lit "1.0.0" ++ [34%N] ++ [nl].

Definition w0 : World (list str) := checkout project_file.

(** A parser of the command line of [release_script.py] that knows the
    six options by their full names, and [-h] and [--help]: it stops with
    code 2 on anything else. *)
Fixpoint parse_options (argv : list str) (a : ReleaseScript.Args)
  : ReleaseScript.parsed :=
  match argv with
  | [] => ReleaseScript.Parsed a
  | o :: rest =>
    let with_flag f := parse_options rest (f a) in
    if PyStr.eqb o (lit "--version") then
      match rest with
      | v :: rest' =>
        parse_options
          rest'
          (ReleaseScript.mkArgs
             (Some v) (ReleaseScript.arg_build_only a)
             (ReleaseScript.arg_create_release a)
             (ReleaseScript.arg_create_tag a)
             (ReleaseScript.arg_list_releases a) (ReleaseScript.arg_draft a))
      | [] => ReleaseScript.Stopped 2 []
      end
    else if PyStr.eqb o (lit "--build-only") then
      with_flag (fun a =>
        ReleaseScript.mkArgs
          (ReleaseScript.arg_version a) true
          (ReleaseScript.arg_create_release a)
          (ReleaseScript.arg_create_tag a)
          (ReleaseScript.arg_list_releases a) (ReleaseScript.arg_draft a))
    else if PyStr.eqb o (lit "--create-release") then
      with_flag (fun a =>
        ReleaseScript.mkArgs
          (ReleaseScript.arg_version a) (ReleaseScript.arg_build_only a)
          true (ReleaseScript.arg_create_tag a)
          (ReleaseScript.arg_list_releases a) (ReleaseScript.arg_draft a))
    else if PyStr.eqb o (lit "--create-tag") then
      with_flag (fun a =>
        ReleaseScript.mkArgs
          (ReleaseScript.arg_version a) (ReleaseScript.arg_build_only a)
          (ReleaseScript.arg_create_release a) true
          (ReleaseScript.arg_list_releases a) (ReleaseScript.arg_draft a))
    else if PyStr.eqb o (lit "--list-releases") then
      with_flag (fun a =>
        ReleaseScript.mkArgs
          (ReleaseScript.arg_version a) (ReleaseScript.arg_build_only a)
          (ReleaseScript.arg_create_release a)
          (ReleaseScript.arg_create_tag a) true (ReleaseScript.arg_draft a))
    else if PyStr.eqb o (lit "--draft") then
      with_flag (fun a =>
        ReleaseScript.mkArgs
          (ReleaseScript.arg_version a) (ReleaseScript.arg_build_only a)
          (ReleaseScript.arg_create_release a)
          (ReleaseScript.arg_create_tag a)
          (ReleaseScript.arg_list_releases a) true)
    else if PyStr.eqb o (lit "-h") || PyStr.eqb o (lit "--help") then
      ReleaseScript.Stopped 0 [lit "usage: release_script.py [-h]"]
    else ReleaseScript.Stopped 2 []
  end.

Definition parse_args (argv : list str) : ReleaseScript.parsed :=
  parse_options
    argv (ReleaseScript.mkArgs None false false false false false).

(** The same checkout, where a directory is in the place of the manifest
    of the release directory. *)
Definition manifest_taken : World (list str) :=
  mkWorld
    (Fs.Dir [(lit "pyproject.toml", Fs.File project_file);
             (lit "gridapi.spec", Fs.File (lit "# spec"));
             (lit "src", Fs.Dir [(lit "__pycache__", Fs.Dir [])]);
             (lit "release-assets",
              Fs.Dir [(lit "checksums.txt", Fs.Dir [])])])
    [lit "v1.0.0"] [] [].

End Hosts.
(* ================================================================== *)
(** ** Strings: splitting, joining and stripping *)

Section StringFacts.

Variable sep : char.

Lemma split_nonempty (s : str) : split sep s <> [].
Proof.
  destruct s as [|c s]; simpl; [discriminate|].
  destruct (c =? sep)%N; [discriminate|].
  destruct (split sep s); discriminate.
Qed.

(** Joining the parts of a string gives the string back. *)
Lemma join_split (s : str) : join [sep] (split sep s) = s.
Proof.
  induction s as [|c s IH]; simpl; [reflexivity|].
  destruct (N.eqb_spec c sep) as [->|Hne].
  - pose proof (split_nonempty s) as Hs.
    destruct (split sep s) as [|l ls]; [contradiction|].
    simpl in *. now rewrite IH.
  - destruct (split sep s) as [|l ls] eqn:E.
    + now destruct (split_nonempty s).
    + rewrite <- IH. destruct ls; reflexivity.
Qed.

Lemma split_no_sep (a : str) : ~ In sep a -> split sep a = [a].
Proof.
  induction a as [|c a IH]; simpl; intros H; [reflexivity|].
  destruct (N.eqb_spec c sep) as [->|Hne]; [tauto|].
  rewrite IH by tauto. reflexivity.
Qed.

Lemma split_app_sep (a b : str) :
  ~ In sep a -> split sep (a ++ sep :: b) = a :: split sep b.
Proof.
  induction a as [|c a IH]; simpl; intros H.
  - now rewrite N.eqb_refl.
  - destruct (N.eqb_spec c sep) as [->|Hne]; [tauto|].
    rewrite IH by tauto. reflexivity.
Qed.

(** No part of a split holds the separator. *)
Lemma split_parts_no_sep (s : str) :
  Forall (fun l => ~ In sep l) (split sep s).
Proof.
  induction s as [|c s IH]; simpl.
  - constructor; [tauto|constructor].
  - destruct (N.eqb_spec c sep) as [->|Hne].
    + constructor; [tauto|assumption].
    + destruct (split sep s) as [|l ls]; [constructor; [|constructor]|].
      * simpl. intuition.
      * inversion IH; subst. constructor; [|assumption].
        simpl. intuition.
Qed.

(** Splitting what was joined gives the parts back, when no part holds
    the separator. *)
Lemma split_join (parts : list str) :
  parts <> [] -> Forall (fun l => ~ In sep l) parts ->
  split sep (join [sep] parts) = parts.
Proof.
  induction parts as [|a rest IH]; intros Hne Hall; [contradiction|].
  inversion Hall as [|? ? Ha Hrest]; subst.
  destruct rest as [|b rest'].
  - simpl. now apply split_no_sep.
  - change (join [sep] (a :: b :: rest'))
      with (a ++ sep :: join [sep] (b :: rest')).
    rewrite split_app_sep by assumption.
    rewrite IH; [reflexivity|discriminate|assumption].
Qed.

End StringFacts.

Section StripFacts.

Variable p : char -> bool.

Lemma lstrip_by_keeps (c : char) (s : str) :
  p c = false -> lstrip_by p (c :: s) = c :: s.
Proof. intros H. simpl. now rewrite H. Qed.

Lemma rstrip_by_keeps (s : str) (c : char) :
  p c = false -> rstrip_by p (s ++ [c]) = s ++ [c].
Proof.
  intros H. unfold rstrip_by. rewrite rev_app_distr. simpl.
  rewrite H. simpl. now rewrite rev_involutive.
Qed.

Lemma rstrip_by_drops (s : str) (c : char) :
  p c = true -> rstrip_by p (s ++ [c]) = rstrip_by p s.
Proof.
  intros H. unfold rstrip_by. rewrite rev_app_distr. simpl.
  now rewrite H.
Qed.

(** A string whose first and last characters stay is not changed. *)
Lemma strip_by_keeps (a : char) (s : str) (z : char) :
  p a = false -> p z = false ->
  strip_by p (a :: s ++ [z]) = a :: s ++ [z].
Proof.
  intros Ha Hz. unfold strip_by. rewrite lstrip_by_keeps by assumption.
  change (a :: s ++ [z]) with ((a :: s) ++ [z]).
  now apply rstrip_by_keeps.
Qed.

Lemma strip_by_single (a : char) : p a = false -> strip_by p [a] = [a].
Proof. intros Ha. unfold strip_by, rstrip_by. simpl. rewrite Ha. simpl. now rewrite Ha. Qed.

End StripFacts.

(* ================================================================== *)
(** ** The directory tree: what a lookup finds after an update *)

Section FsFacts.

Import Fs.

Lemma assoc_set_entry_same (c : str) (m : node) (es : list (str * node)) :
  assoc c (set_entry c m es) = Some m.
Proof.
  induction es as [|[k v] r IH]; simpl.
  - now rewrite PyStr.eqb_refl.
  - destruct (PyStr.eqb k c) eqn:E; simpl.
    + now rewrite PyStr.eqb_refl.
    + now rewrite E.
Qed.

Lemma assoc_set_entry_other (c d : str) (m : node) (es : list (str * node)) :
  c <> d -> assoc d (set_entry c m es) = assoc d es.
Proof.
  intros Hne. induction es as [|[k v] r IH]; simpl.
  - destruct (PyStr.eqb c d) eqn:E; [apply PyStr.eqb_eq in E; contradiction|reflexivity].
  - destruct (PyStr.eqb k c) eqn:E; simpl.
    + apply PyStr.eqb_eq in E; subst k.
      destruct (PyStr.eqb c d) eqn:E'; [apply PyStr.eqb_eq in E'; contradiction|reflexivity].
    + now rewrite IH.
Qed.

Lemma set_entry_same_value (c : str) (m : node) (es : list (str * node)) :
  assoc c es = Some m -> set_entry c m es = es.
Proof.
  induction es as [|[k v] r IH]; simpl; [discriminate|].
  destruct (PyStr.eqb k c) eqn:E.
  - apply PyStr.eqb_eq in E; subst k. now intros [= ->].
  - intros H. now rewrite IH.
Qed.

(** After [put], the new node is what is found at the path. *)
Lemma lookup_put_same (p : path) (new : node) :
  forall n n', put p new n = Some n' -> lookup p n' = Some new.
Proof.
  induction p as [|c p IH]; simpl; intros n n' H.
  - now injection H as ->.
  - destruct n as [d|es]; [discriminate|].
    destruct (assoc c es) as [m|] eqn:E.
    + destruct (put p new m) as [m'|] eqn:Hp; simpl in H; [|discriminate].
      injection H as <-. rewrite assoc_set_entry_same. eauto.
    + destruct p; simpl in H; [|discriminate].
      injection H as <-. now rewrite assoc_set_entry_same.
Qed.

(** Writing over an entry that exists succeeds. *)
Lemma put_over_existing (p : path) (new : node) :
  forall n old, lookup p n = Some old -> exists n', put p new n = Some n'.
Proof.
  induction p as [|c p IH]; simpl; intros n old H; [eauto|].
  destruct n as [d|es]; [discriminate|].
  destruct (assoc c es) as [m|] eqn:E; [|discriminate].
  destruct (IH m old H) as [m' ->]. simpl. eauto.
Qed.

(** Writing what is there already changes nothing. *)
Lemma put_same_value (p : path) :
  forall n v, lookup p n = Some v -> put p v n = Some n.
Proof.
  induction p as [|c p IH]; simpl; intros n v H.
  - congruence.
  - destruct n as [d|es]; [discriminate|].
    destruct (assoc c es) as [m|] eqn:E; [|discriminate].
    rewrite (IH m v H). simpl. now rewrite set_entry_same_value.
Qed.

(** After [put] at [dir/a], what is at [dir/b] is what was there. *)
Lemma lookup_put_sibling (dir : path) (a b : str) (new : node) :
  a <> b ->
  forall n n', put (dir ++ [a]) new n = Some n' ->
               lookup (dir ++ [b]) n' = lookup (dir ++ [b]) n.
Proof.
  intros Hab. induction dir as [|c dir IH]; simpl; intros n n' H.
  - destruct n as [d|es]; [discriminate|].
    destruct (assoc a es) as [m|]; simpl in H; injection H as <-;
      now rewrite assoc_set_entry_other.
  - destruct n as [d|es]; [discriminate|].
    destruct (assoc c es) as [m|] eqn:E.
    + destruct (put (dir ++ [a]) new m) as [m'|] eqn:Hp; simpl in H; [|discriminate].
      injection H as <-. rewrite assoc_set_entry_same. eauto.
    + destruct (dir ++ [a]) eqn:Hd; [now destruct dir|discriminate].
Qed.

Lemma set_entry_twice (c : str) (a b : node) (es : list (str * node)) :
  set_entry c b (set_entry c a es) = set_entry c b es.
Proof.
  induction es as [|[k v] r IH]; cbn [set_entry].
  - now rewrite PyStr.eqb_refl.
  - destruct (PyStr.eqb k c) eqn:E; cbn [set_entry].
    + now rewrite PyStr.eqb_refl.
    + now rewrite E, IH.
Qed.

(** A second [put] at the same path makes the first one invisible. *)
Lemma put_twice (p : path) (a b : node) :
  forall n n1, put p a n = Some n1 -> put p b n1 = put p b n.
Proof.
  induction p as [|c p IH]; cbn [put]; intros n n1 H; [reflexivity|].
  destruct n as [d|es]; [discriminate|].
  destruct (assoc c es) as [m|] eqn:E.
  - destruct (put p a m) as [m'|] eqn:Hp; cbn [option_map] in H;
      [|discriminate].
    injection H as <-. cbn [put]. rewrite assoc_set_entry_same.
    rewrite (IH _ _ Hp).
    destruct (put p b m); cbn [option_map]; [|reflexivity].
    now rewrite set_entry_twice.
  - destruct p; cbn [option_map] in H; [|discriminate].
    injection H as <-. cbn [put]. rewrite assoc_set_entry_same.
    cbn [option_map]. now rewrite set_entry_twice.
Qed.

End FsFacts.

(* ================================================================== *)
(** ** The version store of release_script.py *)

Ltac eval_lits :=
  repeat match goal with
         | |- context [lit ?s] =>
           let v := eval vm_compute in (lit s) in change (lit s) with v
         end.

Definition is_digit (c : char) : bool := ((48 <=? c) && (c <=? 57))%N.

Definition is_number (s : str) : bool := truthy s && forallb is_digit s.

Definition dot : char := 46%N.

(** A version string of the form X.Y.Z: three numbers between dots. *)
Definition is_semver (v : str) : bool :=
  match split dot v with
  | [x; y; z] => is_number x && is_number y && is_number z
  | _ => false
  end.

Definition version_char (c : char) : bool := is_digit c || (c =? dot)%N.

(** The line that [update_version] writes. *)
Definition version_line (version : str) : str :=
  lit "version = " ++ [34%N] ++ version ++ [34%N].

Example is_semver_example : is_semver (lit "1.20.3") = true.
Proof. reflexivity. Qed.

Example is_semver_counterexample : is_semver (lit "1.2") = false.
Proof. reflexivity. Qed.

Section VersionFacts.

Import ReleaseScript.

Lemma is_number_chars (s : str) :
  is_number s = true -> s <> [] /\ forallb version_char s = true.
Proof.
  unfold is_number. intros H. apply andb_prop in H as [Hne Hd]. split.
  - now destruct s.
  - rewrite forallb_forall in *. intros c Hc. unfold version_char.
    now rewrite (Hd c Hc).
Qed.

Lemma is_semver_chars (v : str) :
  is_semver v = true -> v <> [] /\ forallb version_char v = true.
Proof.
  unfold is_semver. intros H. pose proof (join_split dot v) as J.
  destruct (split dot v) as [|x [|y [|z [|]]]]; try discriminate.
  apply andb_prop in H as [H Hz]. apply andb_prop in H as [Hx Hy].
  apply is_number_chars in Hx as [Hx Hx'], Hy as [_ Hy'], Hz as [_ Hz'].
  simpl in J. subst v. split.
  - now destruct x.
  - repeat (rewrite forallb_app; simpl). now rewrite Hx', Hy', Hz'.
Qed.

Lemma version_char_not (c : char) :
  version_char c = true ->
  c <> nl /\ c <> eq_sign /\ c <> 34%N /\ isspace c = false.
Proof.
  unfold version_char, is_digit, dot, nl, eq_sign, isspace. intros H.
  apply orb_prop in H as [H|H].
  - apply andb_prop in H as [H1 H2].
    apply N.leb_le in H1, H2.
    repeat split; try lia.
    repeat match goal with
           | |- context [(?a <=? ?b)%N] => destruct (N.leb_spec a b); try lia
           | |- context [(?a =? ?b)%N] => destruct (N.eqb_spec a b); try lia
           end; reflexivity.
  - apply N.eqb_eq in H. subst c. repeat split; try discriminate.
Qed.

Lemma forallb_version_char_not_in (v : str) (c : char) :
  forallb version_char v = true -> version_char c = false -> ~ In c v.
Proof.
  intros H Hc Hin. rewrite forallb_forall in H.
  specialize (H c Hin). congruence.
Qed.

(** The written line is a version line, and the value read from it is the
    version. *)
Lemma version_line_read (v : str) :
  v <> [] -> forallb version_char v = true ->
  is_version_line (version_line v) = true /\
  ~ In nl (version_line v) /\
  exists value,
    nth_error (split eq_sign (version_line v)) 1 = Some value /\
    strip_chars [34%N] (strip value) = v.
Proof.
  intros Hne Hv.
  assert (Hnl : ~ In nl v)
    by (apply forallb_version_char_not_in; [assumption|reflexivity]).
  assert (Heq : ~ In eq_sign v)
    by (apply forallb_version_char_not_in; [assumption|reflexivity]).
  destruct v as [|a v0]; [contradiction|].
  destruct (exists_last (l := a :: v0)) as (v1 & z & Ez); [discriminate|].
  assert (Ha : version_char a = true)
    by (simpl in Hv; now apply andb_prop in Hv as [? _]).
  assert (Hz : version_char z = true).
  { rewrite Ez, forallb_app in Hv. apply andb_prop in Hv as [_ Hv].
    simpl in Hv. now apply andb_prop in Hv as [? _]. }
  apply version_char_not in Ha as (_ & _ & Ha & _).
  apply version_char_not in Hz as (_ & _ & Hz & _).
  unfold version_line, is_version_line. eval_lits. split; [|split].
  - change ([118; 101; 114; 115; 105; 111; 110; 32; 61; 32] ++ [34] ++ (a :: v0) ++ [34])%N
      with (118 :: ([101; 114; 115; 105; 111; 110; 32; 61; 32; 34] ++ a :: v0) ++ [34])%N.
    unfold strip. rewrite strip_by_keeps by reflexivity. reflexivity.
  - unfold nl in *. rewrite !in_app_iff. simpl in *.
    intuition congruence.
  - exists ([32; 34]%N ++ (a :: v0) ++ [34%N]). split.
    + change ([118; 101; 114; 115; 105; 111; 110; 32; 61; 32] ++ [34] ++ (a :: v0) ++ [34])%N
        with ([118; 101; 114; 115; 105; 111; 110; 32]%N
                ++ eq_sign :: ([32; 34]%N ++ (a :: v0) ++ [34%N])).
      rewrite split_app_sep.
      * rewrite split_no_sep; [reflexivity|].
        unfold eq_sign in *. rewrite !in_app_iff. simpl in *.
        intuition congruence.
      * unfold eq_sign. simpl. intuition congruence.
    + unfold strip, strip_by. simpl lstrip_by.
      change (34 :: a :: v0 ++ [34])%N with ((34 :: a :: v0) ++ [34])%N.
      rewrite rstrip_by_keeps by reflexivity.
      unfold strip_chars, strip_by. simpl lstrip_by.
      assert (Qa : (a =? 34)%N || false = false)
        by (destruct (N.eqb_spec a 34); [contradiction|reflexivity]).
      assert (Qz : (z =? 34)%N || false = false)
        by (destruct (N.eqb_spec z 34); [contradiction|reflexivity]).
      rewrite Qa.
      change (a :: v0 ++ [34])%N with ((a :: v0) ++ [34])%N.
      rewrite rstrip_by_drops by reflexivity.
      rewrite Ez. now apply rstrip_by_keeps.
Qed.

End VersionFacts.

Section TextFiles.

Variable X : Type.
Variable host : Host X.

(** Text without a carriage return is read as it is. *)
Lemma universal_newlines_plain (s : str) :
  ~ In cr s -> universal_newlines s = s.
Proof.
  induction s as [|c s IH]; cbn [universal_newlines]; intros H;
    [reflexivity|].
  destruct (N.eqb_spec c cr) as [->|_].
  - exfalso. apply H. now left.
  - f_equal. apply IH. intros Hin. apply H. now right.
Qed.

Lemma encode_app (a b : str) :
  encode host (a ++ b)
  = match encode host a, encode host b with
    | Some x, Some y => Some (x ++ y)
    | _, _ => None
    end.
Proof.
  induction a as [|c a IH]; cbn [app encode].
  - now destruct (encode host b).
  - rewrite IH. destruct (encode_char host c), (encode host a),
      (encode host b); try reflexivity.
    now rewrite app_assoc.
Qed.

(** The bytes of a text are the bytes of its parts, one after the other:
    the codec works character by character. *)
Lemma to_bytes_app (a b : str) :
  to_bytes host (a ++ b)
  = match to_bytes host a, to_bytes host b with
    | Some x, Some y => Some (x ++ y)
    | _, _ => None
    end.
Proof.
  unfold to_bytes, to_linesep. rewrite flat_map_app. apply encode_app.
Qed.

Lemma to_bytes_app_inv (a b : str) (d : list N) :
  to_bytes host (a ++ b) = Some d ->
  exists x y, to_bytes host a = Some x /\ to_bytes host b = Some y /\
              d = x ++ y.
Proof.
  rewrite to_bytes_app.
  destruct (to_bytes host a) as [x|], (to_bytes host b) as [y|];
    try discriminate.
  intros [= <-]. now exists x, y.
Qed.

(** The file with the bytes [d] is the text [s] on this host: it is what
    writing [s] leaves, and it reads as [s]. *)
Definition stored_text (d : list N) (s : str) : Prop :=
  to_bytes host s = Some d /\ text_of host d = Some s.

(** The operating system lets the script open [p], whatever the tree. *)
Definition accessible (p : Fs.path) (x : X) : Prop :=
  forall op n, refused host op p (n, x) = None.

Lemma read_file_found (w : World X) (p : Fs.path) (d : list N) :
  Fs.lookup p (fs w) = Some (Fs.File d) ->
  refused host OpenRead p (fs w, ext w) = None ->
  read_file host p w = (Ret d, w).
Proof. intros H R. unfold read_file. now rewrite H, R. Qed.

Lemma read_text_found (w : World X) (p : Fs.path) (d : list N) (s : str) :
  Fs.lookup p (fs w) = Some (Fs.File d) ->
  refused host OpenRead p (fs w, ext w) = None ->
  text_of host d = Some s ->
  read_text host p w = (Ret s, w).
Proof.
  intros H R T. unfold read_text, bind.
  now rewrite (read_file_found w p H R), T.
Qed.

Lemma write_text_over (w : World X) (p : Fs.path) (old d : list N)
      (s : str) :
  Fs.lookup p (fs w) = Some (Fs.File old) ->
  refused host OpenWrite p (fs w, ext w) = None ->
  to_bytes host s = Some d ->
  exists n',
    Fs.put p (Fs.File d) (fs w) = Some n' /\
    write_text host p s w
    = (Ret tt, mkWorld n' (ext w) (printed w) (history w)).
Proof.
  intros H R T.
  destruct (put_over_existing p (Fs.File []) _ H) as [n1 Hn1].
  destruct (put_over_existing p (Fs.File d) _ H) as [n' Hn'].
  exists n'. split; [assumption|].
  unfold write_text, open_w, bind, write_file, put_text, set_fs.
  rewrite H, Hn1, R, T. cbn [fs ext printed history].
  now rewrite (put_twice _ _ _ _ Hn1), Hn'.
Qed.

(** The text before a line of a file and the text after it. *)
Definition lines_before (ls : list str) : str :=
  flat_map (fun l => l ++ [nl]) ls.

Definition lines_after (ls : list str) : str :=
  flat_map (fun l => nl :: l) ls.

Lemma join_first (x : str) (after : list str) :
  join [nl] (x :: after) = x ++ lines_after after.
Proof.
  revert x. induction after as [|a r IH]; intros x.
  - cbn. now rewrite app_nil_r.
  - change (join [nl] (x :: a :: r)) with (x ++ [nl] ++ join [nl] (a :: r)).
    now rewrite IH.
Qed.

Lemma join_middle (before : list str) (x : str) (after : list str) :
  join [nl] (before ++ x :: after)
  = lines_before before ++ x ++ lines_after after.
Proof.
  induction before as [|b bs IH].
  - apply join_first.
  - cbn [app].
    assert (E : join [nl] (b :: bs ++ x :: after)
                = b ++ [nl] ++ join [nl] (bs ++ x :: after))
      by (destruct bs; reflexivity).
    rewrite E, IH.
    change (lines_before (b :: bs)) with ((b ++ [nl]) ++ lines_before bs).
    now rewrite <- !app_assoc.
Qed.

End TextFiles.

Section VersionStore.

Import ReleaseScript.

Variable X : Type.
Variable host : Host X.

Lemma find_version_none (lines : list str) (w : World X) :
  existsb is_version_line lines = false ->
  find_version lines w = (Ret None, w).
Proof.
  induction lines as [|l ls IH]; simpl; intros H; [reflexivity|].
  apply orb_false_elim in H as [Hl Hls]. rewrite Hl. now apply IH.
Qed.

Lemma replace_version_none (version : str) (lines : list str) :
  existsb is_version_line lines = false ->
  replace_version version lines = lines.
Proof.
  induction lines as [|l ls IH]; simpl; intros H; [reflexivity|].
  apply orb_false_elim in H as [Hl Hls]. rewrite Hl. now rewrite IH.
Qed.

(** [replace_version] changes the first version line and nothing else. *)
Lemma replace_version_first (version : str) (lines : list str) :
  existsb is_version_line lines = true ->
  exists before old after,
    lines = before ++ old :: after /\
    replace_version version lines = before ++ version_line version :: after /\
    is_version_line old = true /\
    existsb is_version_line before = false.
Proof.
  induction lines as [|l ls IH]; simpl; intros H; [discriminate|].
  destruct (is_version_line l) eqn:Hl.
  - exists [], l, ls. repeat split; assumption.
  - destruct (IH H) as (b & o & a & -> & E & Ho & Hb).
    exists (l :: b), o, a. simpl. rewrite E, Hl. repeat split; assumption.
Qed.

Lemma find_version_written (version : str) (before after : list str)
      (w : World X) :
  version <> [] -> forallb version_char version = true ->
  existsb is_version_line before = false ->
  find_version (before ++ version_line version :: after) w
  = (Ret (Some version), w).
Proof.
  intros Hne Hv.
  destruct (version_line_read Hne Hv) as (Hline & _ & value & Hnth & Hval).
  induction before as [|l ls IH]; cbn [app find_version existsb]; intros H.
  - rewrite Hline, Hnth, Hval. reflexivity.
  - apply orb_false_elim in H as [Hl Hls]. rewrite Hl. now apply IH.
Qed.

(** [update_version] on a project file that reads as [content], when the
    new text can be encoded as [d']. *)
Lemma update_version_run (version content : str) (d d' : list N)
      (w : World X) :
  Fs.lookup pyproject (fs w) = Some (Fs.File d) ->
  text_of host d = Some content ->
  refused host OpenRead pyproject (fs w, ext w) = None ->
  refused host OpenWrite pyproject (fs w, ext w) = None ->
  to_bytes host (join [nl] (replace_version version (split nl content)))
  = Some d' ->
  exists n',
    Fs.put pyproject (Fs.File d') (fs w) = Some n' /\
    update_version host version w
    = (Ret true,
       mkWorld n' (ext w)
               ((lit "✅ Updated version to " ++ version) :: printed w)
               (history w)).
Proof.
  intros H T Rr Rw E.
  destruct (@write_text_over _ host w pyproject _ _ _ H Rw E)
    as (n' & Hput & Hw).
  exists n'. split; [assumption|].
  unfold update_version, try_except, bind.
  rewrite (@read_text_found _ host w pyproject _ _ H Rr T), Hw. reflexivity.
Qed.

Lemma find_version_raises (lines : list str) (w w' : World X) (e : exn) :
  find_version lines w = (Raise e, w') -> e = IndexError.
Proof.
  revert lines. induction lines as [|l ls IH]; cbn [find_version];
    [unfold ret; congruence|].
  destruct (is_version_line l); [|exact IH].
  destruct (nth_error (split eq_sign l) 1); unfold ret, raise; congruence.
Qed.

Lemma get_current_version_run (content : str) (d : list N) (w : World X) :
  Fs.lookup pyproject (fs w) = Some (Fs.File d) ->
  text_of host d = Some content ->
  refused host OpenRead pyproject (fs w, ext w) = None ->
  get_current_version host w
  = match find_version (split nl content) w with
    | (Ret (Some v), w') => (Ret v, w')
    | (_, w') => (Ret (lit "1.0.0"), w')
    end.
Proof.
  intros H T R. unfold get_current_version, try_except, bind at 1.
  unfold bind. rewrite (@read_text_found _ host w pyproject _ _ H R T).
  destruct (find_version (split nl content) w) as [[[v|]|e] w'] eqn:E;
    try reflexivity.
  apply find_version_raises in E. subst e. reflexivity.
Qed.

End VersionStore.

(* ================================================================== *)
(** ** The version store: writing, then reading *)

(** C10, as stated, fails: the project file is read and written as text.
    On a Linux host a file with Windows line ends and no version line is
    written back with its line ends changed, though [update_version]
    reports success. *)
Lemma update_version_rewrites_line_ends :
  let before := lit "name = 'gridapi'" ++ [cr; nl] in
  let w := Hosts.checkout before in
  let r := ReleaseScript.update_version Hosts.linux (lit "2.0.0") w in
  Fs.lookup ReleaseScript.pyproject (fs w) = Some (Fs.File before) /\
  option_map (fun text => existsb ReleaseScript.is_version_line (split nl text))
             (text_of Hosts.linux before) = Some false /\
  fst r = Ret true /\
  Fs.lookup ReleaseScript.pyproject (fs (snd r))
  = Some (Fs.File (lit "name = 'gridapi'" ++ [nl])) /\
  Fs.lookup ReleaseScript.pyproject (fs (snd r))
  <> Fs.lookup ReleaseScript.pyproject (fs w).
Proof.
  cbv zeta. repeat split; try (vm_compute; reflexivity).
  vm_compute. discriminate.
Qed.

(** C10, amended.  When [pyproject.toml] is text on the host (its bytes
    are what the host writes for the text it reads from them), the system
    lets the script open it, and no line of it is a version line (a line
    whose stripped form starts with [version =]), [update_version]
    reports success for every version, leaves the tree as it was, and
    [get_current_version] then returns the default ["1.0.0"]. *)
Theorem update_version_without_version_line
        (X : Type) (host : Host X) (version content : str) (d : list N)
        (w : World X) :
  Fs.lookup ReleaseScript.pyproject (fs w) = Some (Fs.File d) ->
  stored_text host d content ->
  accessible host ReleaseScript.pyproject (ext w) ->
  existsb ReleaseScript.is_version_line (split nl content) = false ->
  exists w',
    ReleaseScript.update_version host version w = (Ret true, w') /\
    fs w' = fs w /\
    fst (ReleaseScript.get_current_version host w') = Ret (lit "1.0.0").
Proof.
  intros Hfile [Hbytes Htext] Hopen Hnone.
  destruct (@update_version_run _ host version content d d w Hfile Htext
              (Hopen _ _) (Hopen _ _))
    as (n' & Hput & Hrun).
  { now rewrite (replace_version_none version _ Hnone), join_split. }
  rewrite (put_same_value _ _ Hfile) in Hput. injection Hput as <-.
  eexists. split; [exact Hrun|]. split; [reflexivity|].
  erewrite get_current_version_run
    by (cbn [fs ext]; first [exact Hfile | exact Htext | apply Hopen]).
  now rewrite find_version_none.
Qed.

Lemma update_version_without_version_line_witness :
  exists w',
    ReleaseScript.update_version Hosts.linux (lit "2.0.0")
                                 (Hosts.checkout (lit "name = 'gridapi'"))
    = (Ret true, w') /\
    fs w' = fs (Hosts.checkout (lit "name = 'gridapi'")) /\
    fst (ReleaseScript.get_current_version Hosts.linux w')
    = Ret (lit "1.0.0").
Proof.
  apply (@update_version_without_version_line
           _ Hosts.linux (lit "2.0.0") (lit "name = 'gridapi'")
           (lit "name = 'gridapi'")).
  - reflexivity.
  - split; vm_compute; reflexivity.
  - intros op n. reflexivity.
  - reflexivity.
Defined.

(** C2, as stated, fails, in three ways.  A project file without a version
    line is written back unchanged, and the version read afterwards is the
    default and not the version written.  A file with Windows line ends,
    on a Linux host, has the line ends of its other lines changed.  A file
    that is not text in the encoding of the host is not updated at all:
    [update_version] returns [False]. *)
Lemma version_round_trip_needs_version_line :
  let w := Hosts.checkout (lit "name = 'gridapi'") in
  let w' := snd (ReleaseScript.update_version Hosts.linux (lit "2.0.0") w) in
  let crlf :=
    Hosts.checkout (lit "name = 'gridapi'" ++ [cr; nl] ++ lit "version = '1'") in
  let binary := Hosts.checkout (255%N :: lit "version = '1'") in
  is_semver (lit "2.0.0") = true /\
  (fst (ReleaseScript.update_version Hosts.linux (lit "2.0.0") w) = Ret true /\
   fst (ReleaseScript.get_current_version Hosts.linux w')
   = Ret (lit "1.0.0") /\
   fst (ReleaseScript.get_current_version Hosts.linux w')
   <> Ret (lit "2.0.0")) /\
  Fs.lookup ReleaseScript.pyproject
            (fs (snd (ReleaseScript.update_version Hosts.linux (lit "2.0.0")
                                                   crlf)))
  = Some (Fs.File (lit "name = 'gridapi'" ++ [nl]
                       ++ version_line (lit "2.0.0"))) /\
  fst (ReleaseScript.update_version Hosts.linux (lit "2.0.0") binary)
  = Ret false.
Proof.
  cbv zeta. repeat split; try (vm_compute; reflexivity).
  vm_compute. discriminate.
Qed.

(** C2, amended.  For a version of the form X.Y.Z and a project file that
    is text on the host, that the system lets the script open and that has
    a version line, when the host can store the new text as well,
    [update_version] succeeds and [get_current_version] then returns the
    version written.  The lines of the file are the lines it had, in the
    same places, but for the first version line, which is now
    [version = "X.Y.Z"]; and the bytes of the file before this line and
    after it are the bytes that were there. *)
Theorem version_write_then_read
        (X : Type) (host : Host X) (version content : str)
        (d d' : list N) (w : World X) :
  is_semver version = true ->
  Fs.lookup ReleaseScript.pyproject (fs w) = Some (Fs.File d) ->
  stored_text host d content ->
  accessible host ReleaseScript.pyproject (ext w) ->
  existsb ReleaseScript.is_version_line (split nl content) = true ->
  stored_text host d'
    (join [nl] (ReleaseScript.replace_version version (split nl content))) ->
  exists w',
    ReleaseScript.update_version host version w = (Ret true, w') /\
    fst (ReleaseScript.get_current_version host w') = Ret version /\
    Fs.lookup ReleaseScript.pyproject (fs w') = Some (Fs.File d') /\
    exists before old after pre old_bytes new_bytes post,
      split nl content = before ++ old :: after /\
      ReleaseScript.is_version_line old = true /\
      existsb ReleaseScript.is_version_line before = false /\
      text_of host d' = Some (join [nl] (before ++ version_line version :: after)) /\
      to_bytes host (lines_before before) = Some pre /\
      to_bytes host old = Some old_bytes /\
      to_bytes host (version_line version) = Some new_bytes /\
      to_bytes host (lines_after after) = Some post /\
      d = pre ++ old_bytes ++ post /\
      d' = pre ++ new_bytes ++ post.
Proof.
  intros Hsem Hfile [Hbytes Htext] Hopen Hsome [Hbytes' Htext'].
  destruct (is_semver_chars _ Hsem) as [Hne Hchars].
  destruct (@update_version_run _ host version content d d' w Hfile Htext
              (Hopen _ _) (Hopen _ _) Hbytes')
    as (n' & Hput & Hrun).
  destruct (replace_version_first version _ Hsome)
    as (before & old & after & Hsplit & Hrep & Hold & Hbefore).
  assert (Hparts : split nl (join [nl] (before ++ version_line version :: after))
                   = before ++ version_line version :: after).
  { apply split_join; [now destruct before|].
    pose proof (split_parts_no_sep nl content) as Hall.
    rewrite Hsplit in Hall. rewrite Forall_app in *.
    destruct Hall as [Hb Ha]. split; [assumption|].
    inversion Ha; subst. constructor; [|assumption].
    now destruct (version_line_read Hne Hchars) as (_ & ? & _). }
  rewrite Hrep in *. apply lookup_put_same in Hput.
  eexists. split; [exact Hrun|]. split; [|split].
  - erewrite get_current_version_run
      by (cbn [fs ext]; first [exact Hput | exact Htext' | apply Hopen]).
    rewrite Hparts, find_version_written by assumption. reflexivity.
  - cbn [fs]. exact Hput.
  - pose proof (join_split nl content) as Hjoin.
    rewrite Hsplit, join_middle in Hjoin. rewrite <- Hjoin in Hbytes.
    rewrite join_middle in Hbytes'.
    apply to_bytes_app_inv in Hbytes as (pre & rest & Hpre & Hrest & ->).
    apply to_bytes_app_inv in Hrest as (ob & post & Hob & Hpost & ->).
    apply to_bytes_app_inv in Hbytes' as (pre' & rest' & Hpre' & Hrest' & ->).
    apply to_bytes_app_inv in Hrest' as (nb & post' & Hnb & Hpost' & ->).
    assert (pre' = pre) by congruence. assert (post' = post) by congruence.
    subst pre' post'.
    exists before, old, after, pre, ob, nb, post.
    repeat split; assumption.
Qed.

Lemma version_write_then_read_witness :
  exists w',
    ReleaseScript.update_version Hosts.linux (lit "2.3.4") Hosts.w0
    = (Ret true, w') /\
    fst (ReleaseScript.get_current_version Hosts.linux w')
    = Ret (lit "2.3.4") /\
    Fs.lookup ReleaseScript.pyproject (fs w')
    = Some (Fs.File (lit "[project]" ++ [nl] ++ lit "name = 'gridapi'" ++ [nl]
                         ++ version_line (lit "2.3.4") ++ [nl])) /\
    exists before old after pre old_bytes new_bytes post,
      split nl Hosts.project_file = before ++ old :: after /\
      ReleaseScript.is_version_line old = true /\
      existsb ReleaseScript.is_version_line before = false /\
      text_of Hosts.linux
              (lit "[project]" ++ [nl] ++ lit "name = 'gridapi'" ++ [nl]
                   ++ version_line (lit "2.3.4") ++ [nl])
      = Some (join [nl] (before ++ version_line (lit "2.3.4") :: after)) /\
      to_bytes Hosts.linux (lines_before before) = Some pre /\
      to_bytes Hosts.linux old = Some old_bytes /\
      to_bytes Hosts.linux (version_line (lit "2.3.4")) = Some new_bytes /\
      to_bytes Hosts.linux (lines_after after) = Some post /\
      Hosts.project_file = pre ++ old_bytes ++ post /\
      lit "[project]" ++ [nl] ++ lit "name = 'gridapi'" ++ [nl]
          ++ version_line (lit "2.3.4") ++ [nl]
      = pre ++ new_bytes ++ post.
Proof.
  apply (@version_write_then_read
           _ Hosts.linux (lit "2.3.4") Hosts.project_file
           Hosts.project_file
           (lit "[project]" ++ [nl] ++ lit "name = 'gridapi'" ++ [nl]
                ++ version_line (lit "2.3.4") ++ [nl])
           Hosts.w0).
  - reflexivity.
  - reflexivity.
  - split; vm_compute; reflexivity.
  - intros op n. reflexivity.
  - reflexivity.
  - split; vm_compute; reflexivity.
Defined.

(* ================================================================== *)
(** ** Running commands *)

(** [w'] is [w] after the command [c] has been started and has left the
    tree and the rest of the world as [s']; what was printed in between
    comes on top of what [w] had. *)
Definition after_command {X} (c : Cmd) (s' : Fs.node * X) (w w' : World X)
  : Prop :=
  fs w' = fst s' /\ ext w' = snd s' /\ history w' = c :: history w /\
  exists lines, printed w' = lines ++ printed w.

(** The answer of [run_command] by the outcome of the command. *)
Definition run_command_answer (o : outcome) : res bool :=
  match o with
  | Completed rc _ _ => Ret (rc =? 0)%Z
  | Undecodable _ => Raise UnicodeDecodeError
  | Failed why => Raise (exn_of_launch why)
  end.

Ltac printed_more :=
  first [ now exists []
        | now eexists [_]
        | now eexists [_; _]
        | now eexists [_; _; _]
        | now eexists [_; _; _; _]
        | now eexists [_; _; _; _; _]
        | now eexists [_; _; _; _; _; _] ].

Ltac run_command_cases host cmd w :=
  unfold bind, try_except, print, ret, subprocess_run; simpl;
  destruct (spawn host (Shell cmd) (fs w, ext w))
    as [[rc out err|rc|why] s'];
  simpl;
  [ destruct (rc =? 0)%Z; simpl; destruct out, err; simpl
  | idtac
  | destruct why; simpl ];
  (eexists; split; [reflexivity|]);
  repeat split; simpl; printed_more.

Section RunCommand.

Variable X : Type.
Variable host : Host X.

Lemma build_script_run_command_spec (cmd description : str) (w : World X) :
  exists w',
    BuildScript.run_command host cmd description w
    = (run_command_answer (fst (spawn host (Shell cmd) (fs w, ext w))), w') /\
    after_command (Shell cmd) (snd (spawn host (Shell cmd) (fs w, ext w))) w w'.
Proof.
  unfold BuildScript.run_command, after_command, run_command_answer.
  run_command_cases host cmd w.
Qed.

Lemma build_py_run_command_spec (cmd description : str) (w : World X) :
  exists w',
    BuildPy.run_command host cmd description w
    = (run_command_answer (fst (spawn host (Shell cmd) (fs w, ext w))), w') /\
    after_command (Shell cmd) (snd (spawn host (Shell cmd) (fs w, ext w))) w w'.
Proof.
  unfold BuildPy.run_command, after_command, run_command_answer.
  run_command_cases host cmd w.
Qed.

Lemma release_script_run_command_spec (cmd description : str) (w : World X) :
  exists w',
    ReleaseScript.run_command host cmd description w
    = (run_command_answer (fst (spawn host (Shell cmd) (fs w, ext w))), w') /\
    after_command (Shell cmd) (snd (spawn host (Shell cmd) (fs w, ext w))) w w'.
Proof.
  unfold ReleaseScript.run_command, after_command, run_command_answer.
  destruct description;
  run_command_cases host cmd w.
Qed.

End RunCommand.

(* ================================================================== *)
(** ** The command runner *)




(* ================================================================== *)
(** ** Tags *)

(** The repository has the tag: [git tag -l <tag>] runs and its output,
    read as text, holds the name. *)
Definition tag_exists {X} (host : Host X) (w : World X) (tag_name : str)
  : Prop :=
  match fst (spawn host (Shell (lit "git tag -l " ++ tag_name)) (fs w, ext w))
  with
  | Completed _ out _ => contains tag_name out = true
  | Undecodable _ => False
  | Failed _ => False
  end.

(** C5.  When the tag [v<version>] exists already, [create_git_tag] returns
    [True] and the only command it has started is the listing of the tag:
    it has not tried to create the tag, nor to push it. *)
Theorem create_git_tag_existing
        (X : Type) (host : Host X) (version : str) (w : World X) :
  tag_exists host w (lit "v" ++ version) ->
  exists w',
    ReleaseScript.create_git_tag host version w = (Ret true, w') /\
    history w' = Shell (lit "git tag -l " ++ lit "v" ++ version) :: history w.
Proof.
  unfold tag_exists. intros H.
  unfold ReleaseScript.create_git_tag, bind, try_except, print,
    subprocess_run.
  cbn [fs ext printed history andb].
  destruct (spawn host (Shell (lit "git tag -l " ++ lit "v" ++ version))
                  (fs w, ext w)) as [[rc out err|rc|why] s'];
    cbn [fst] in H; [|contradiction ..].
  cbn [stdout]. rewrite H. unfold ret. eexists. split; reflexivity.
Qed.

Lemma create_git_tag_existing_witness :
  exists w',
    ReleaseScript.create_git_tag Hosts.linux (lit "1.0.0") Hosts.w0
    = (Ret true, w') /\
    history w'
    = Shell (lit "git tag -l " ++ lit "v" ++ lit "1.0.0") :: history Hosts.w0.
Proof.
  apply (@create_git_tag_existing _ Hosts.linux (lit "1.0.0") Hosts.w0).
  reflexivity.
Defined.

(* ================================================================== *)
(** ** Computations that stay inside the script *)

Section Quiet.

Variable X : Type.

(** A computation is quiet when it returns, starts no command and leaves
    the world outside the tree as it is. *)
Definition quiet {A} (m : M X A) : Prop :=
  forall w, exists a w',
      m w = (Ret a, w') /\ history w' = history w /\ ext w' = ext w.

Lemma quiet_ret {A} (a : A) : quiet (ret a).
Proof. intros w. exists a, w. now repeat split. Qed.

Lemma quiet_print (s : str) : quiet (print s).
Proof. intros w. eexists. eexists. now repeat split. Qed.

Lemma quiet_get_fs : quiet get_fs.
Proof. intros w. eexists. eexists. now repeat split. Qed.

Lemma quiet_path_is_dir (p : Fs.path) : quiet (path_is_dir p).
Proof. intros w. eexists. eexists. now repeat split. Qed.

Lemma quiet_bind {A B} (m : M X A) (k : A -> M X B) :
  quiet m -> (forall a, quiet (k a)) -> quiet (bind m k).
Proof.
  intros Hm Hk w. destruct (Hm w) as (a & w1 & E1 & H1 & X1).
  destruct (Hk a w1) as (b & w2 & E2 & H2 & X2).
  exists b, w2. unfold bind. rewrite E1, E2. repeat split; congruence.
Qed.

Lemma quiet_for_each {A} (xs : list A) (body : A -> M X unit) :
  (forall x, quiet (body x)) -> quiet (for_each xs body).
Proof.
  intros Hb. induction xs as [|x xs IH]; simpl.
  - apply quiet_ret.
  - apply quiet_bind; [apply Hb|intros _; exact IH].
Qed.

Lemma quiet_banner (host : Host X) : quiet (BuildScript.banner (X := X)).
Proof.
  unfold BuildScript.banner.
  repeat first [ apply quiet_bind; [|intros ?] | apply quiet_print ].
Qed.

End Quiet.

Lemma bind_ret_eq {X A B} (m : M X A) (k : A -> M X B) (w w' : World X) (a : A) :
  m w = (Ret a, w') -> bind m k w = k a w'.
Proof. intros H. unfold bind. now rewrite H. Qed.
Arguments bind_ret_eq {X A B m} k {w w' a} _.

Lemma bind_raise_eq {X A B} (m : M X A) (k : A -> M X B) (w w' : World X)
      (e : exn) :
  m w = (Raise e, w') -> bind m k w = (Raise e, w').
Proof. intros H. unfold bind. now rewrite H. Qed.
Arguments bind_raise_eq {X A B m} k {w w' e} _.

(* ================================================================== *)
(** ** What a computation may start and raise *)

Section Effects.

Variable X : Type.

(** The commands that a computation may start satisfy [P] and the
    exceptions that it may raise satisfy [Q]. *)
Variable P : Cmd -> Prop.
Variable Q : exn -> Prop.
Hypothesis Q_Exception : forall e, is_Exception e = true -> Q e.

Definition effects {A} (m : M X A) : Prop :=
  forall w,
    (exists started,
        history (snd (m w)) = started ++ history w /\ Forall P started) /\
    (forall e, fst (m w) = Raise e -> Q e).

Lemma effects_pure {A} (m : M X A) :
  (forall w, history (snd (m w)) = history w) ->
  (forall w e, fst (m w) = Raise e -> is_Exception e = true) ->
  effects m.
Proof.
  intros Hh He w. split.
  - exists []. split; [apply Hh|constructor].
  - intros e H. eauto.
Qed.

Lemma effects_ret {A} (a : A) : effects (ret a).
Proof. apply effects_pure; [reflexivity|discriminate]. Qed.

Lemma effects_print (s : str) : effects (print s).
Proof. apply effects_pure; [reflexivity|discriminate]. Qed.

Lemma effects_get_fs : effects get_fs.
Proof. apply effects_pure; [reflexivity|discriminate]. Qed.

Lemma effects_path_exists (p : Fs.path) : effects (path_exists p).
Proof. apply effects_pure; [reflexivity|discriminate]. Qed.

Lemma effects_path_is_dir (p : Fs.path) : effects (path_is_dir p).
Proof. apply effects_pure; [reflexivity|discriminate]. Qed.

Lemma effects_raise {A} (e : exn) : Q e -> effects (raise (A := A) e).
Proof.
  intros He w. split.
  - exists []. split; [reflexivity|constructor].
  - intros e' [= <-]. exact He.
Qed.

Ltac fs_cases w p :=
  intros w; try intros e; simpl;
  destruct (Fs.lookup p (fs w)) as [[?|?]|]; simpl;
  repeat match goal with
         | |- context [match ?o with Some _ => _ | None => _ end] =>
           destruct o; simpl
         | |- context [if ?b then _ else _] => destruct b; simpl
         end;
  try reflexivity; try discriminate;
  try (intros [= <-]; reflexivity);
  try (intros [= <-];
       match goal with r : refusal |- _ => destruct r end; reflexivity).

Lemma effects_st_size (host : Host X) (p : Fs.path) :
  effects (st_size host p).
Proof. apply effects_pure; unfold st_size; fs_cases w p. Qed.

Lemma effects_rmtree (host : Host X) (p : Fs.path) :
  effects (rmtree host p).
Proof. apply effects_pure; unfold rmtree, set_fs; fs_cases w p. Qed.

Lemma effects_iterdir (p : Fs.path) : effects (iterdir p).
Proof. apply effects_pure; unfold iterdir; fs_cases w p. Qed.

Lemma effects_read_file (host : Host X) (p : Fs.path) :
  effects (read_file host p).
Proof. apply effects_pure; unfold read_file; fs_cases w p. Qed.

Lemma parent_error_Exception (p : Fs.path) (n : Fs.node) :
  is_Exception (parent_error p n) = true.
Proof. unfold parent_error. now destruct (Fs.exists_ _ _). Qed.

Lemma effects_mkdir (host : Host X) (p : Fs.path) (exist_ok : bool) :
  effects (mkdir host p exist_ok).
Proof.
  apply effects_pure; unfold mkdir, set_fs; fs_cases w p;
    intros [= <-]; apply parent_error_Exception.
Qed.

Lemma effects_write_file (host : Host X) (p : Fs.path) (d : list N) :
  effects (write_file host p d).
Proof.
  apply effects_pure; unfold write_file, set_fs; fs_cases w p;
    intros [= <-]; apply parent_error_Exception.
Qed.

Lemma effects_bind {A B} (m : M X A) (k : A -> M X B) :
  effects m -> (forall a, effects (k a)) -> effects (bind m k).
Proof.
  intros Hm Hk w. unfold bind.
  destruct (Hm w) as [(l1 & E1 & F1) R1].
  destruct (m w) as [[a|e] w1]; simpl in *.
  - destruct (Hk a w1) as [(l2 & E2 & F2) R2]. split.
    + exists (l2 ++ l1). rewrite E2, E1, app_assoc. split; [reflexivity|].
      apply Forall_app. now split.
    + exact R2.
  - split; [now exists l1|]. intros e' [= <-]. now apply R1.
Qed.

Lemma effects_try_except {A} (m : M X A) (catches : exn -> bool)
      (handler : exn -> M X A) :
  effects m -> (forall e, effects (handler e)) ->
  effects (try_except m catches handler).
Proof.
  intros Hm Hh w. unfold try_except.
  destruct (Hm w) as [(l1 & E1 & F1) R1].
  destruct (m w) as [[a|e] w1]; simpl in *.
  - split; [now exists l1|discriminate].
  - destruct (catches e).
    + destruct (Hh e w1) as [(l2 & E2 & F2) R2]. split.
      * exists (l2 ++ l1). rewrite E2, E1, app_assoc. split; [reflexivity|].
        apply Forall_app. now split.
      * exact R2.
    + split; [now exists l1|]. intros e' [= <-]. now apply R1.
Qed.

Lemma effects_try_finally {A} (m : M X A) (fin : M X unit) :
  effects m -> effects fin -> effects (try_finally m fin).
Proof.
  intros Hm Hf w. unfold try_finally.
  destruct (Hm w) as [(l1 & E1 & F1) R1].
  destruct (m w) as [r w1]; simpl in *.
  destruct (Hf w1) as [(l2 & E2 & F2) R2].
  destruct (fin w1) as [[[]|e] w2]; simpl in *.
  - split; [|exact R1].
    exists (l2 ++ l1). rewrite E2, E1, app_assoc. split; [reflexivity|].
    apply Forall_app. now split.
  - split; [|intros e' [= <-]; now apply R2].
    exists (l2 ++ l1). rewrite E2, E1, app_assoc. split; [reflexivity|].
    apply Forall_app. now split.
Qed.

Lemma effects_for_each {A} (xs : list A) (body : A -> M X unit) :
  (forall x, effects (body x)) -> effects (for_each xs body).
Proof.
  intros Hb. induction xs as [|x xs IH]; simpl.
  - apply effects_ret.
  - apply effects_bind; [apply Hb|intros _; exact IH].
Qed.

Lemma effects_copy2 (host : Host X) (src dst : Fs.path) :
  effects (copy2 host src dst).
Proof.
  unfold copy2. apply effects_bind; [apply effects_read_file|intros d].
  apply effects_bind; [apply effects_get_fs|intros n].
  apply effects_write_file.
Qed.

Lemma effects_read_text (host : Host X) (p : Fs.path) :
  effects (read_text host p).
Proof.
  unfold read_text. apply effects_bind; [apply effects_read_file|intros d].
  destruct (text_of host d); [apply effects_ret|].
  apply effects_raise. now apply Q_Exception.
Qed.

Lemma effects_open_w (host : Host X) (p : Fs.path) :
  effects (open_w host p).
Proof. apply effects_write_file. Qed.

Lemma effects_put_text (host : Host X) (p : Fs.path) (s : str) :
  effects (put_text host p s).
Proof.
  unfold put_text. destruct (to_bytes host s) as [d|].
  - apply effects_pure; unfold set_fs; intros w; try intros e;
      destruct (Fs.put p (Fs.File d) (fs w)); try reflexivity;
        try discriminate.
    intros [= <-]. apply parent_error_Exception.
  - apply effects_raise. now apply Q_Exception.
Qed.

Lemma effects_write_text (host : Host X) (p : Fs.path) (s : str) :
  effects (write_text host p s).
Proof.
  unfold write_text. apply effects_bind; [apply effects_open_w|intros _].
  apply effects_put_text.
Qed.

(** A started command is recorded, whatever becomes of it, and what
    [subprocess.run] raises is never [SystemExit]. *)
Lemma effects_subprocess_run (host : Host X) (c : Cmd) (check text : bool)
      (timeout : option N) :
  P c -> effects (subprocess_run host c check text timeout).
Proof.
  intros Hc w. unfold subprocess_run.
  destruct (match timeout with
            | Some t => expires host c t (fs w, ext w)
            | None => None
            end) as [s'|].
  - simpl. split.
    + exists [c]. split; [reflexivity|now constructor].
    + intros e [= <-]. now apply Q_Exception.
  - destruct (spawn host c (fs w, ext w)) as [[rc out err|rc|why] s'].
    + destruct (check && negb (rc =? 0)%Z); simpl; split;
        try (exists [c]; split; [reflexivity|now constructor]);
        try discriminate.
      intros e [= <-]. now apply Q_Exception.
    + destruct text, (check && negb (rc =? 0)%Z); simpl; split;
        try (exists [c]; split; [reflexivity|now constructor]);
        try discriminate;
        intros e [= <-]; now apply Q_Exception.
    + simpl. split.
      * exists [c]. split; [reflexivity|now constructor].
      * intros e [= <-]. apply Q_Exception. now destruct why.
Qed.

End Effects.

Lemma effects_weaken {X A} (P P' : Cmd -> Prop) (Q Q' : exn -> Prop)
      (m : M X A) :
  (forall c, P c -> P' c) -> (forall e, Q e -> Q' e) ->
  effects P Q m -> effects P' Q' m.
Proof.
  intros HP HQ H w. destruct (H w) as [(l & E & F) R]. split.
  - exists l. split; [assumption|].
    eapply Forall_impl; [|exact F]. exact HP.
  - intros e He. apply HQ. now apply R.
Qed.

(** One step of the proof that a script has the effects claimed: the
    lemma of the outermost construct. *)
Ltac effects_step :=
  lazymatch goal with
  | |- effects _ _ (ret _) => eapply effects_ret; eassumption
  | |- effects _ _ (print _) => eapply effects_print; eassumption
  | |- effects _ _ get_fs => eapply effects_get_fs; eassumption
  | |- effects _ _ (path_exists _) => eapply effects_path_exists; eassumption
  | |- effects _ _ (path_is_dir _) => eapply effects_path_is_dir; eassumption
  | |- effects _ _ (st_size _ _) => eapply effects_st_size; eassumption
  | |- effects _ _ (rmtree _ _) => eapply effects_rmtree; eassumption
  | |- effects _ _ (iterdir _) => eapply effects_iterdir; eassumption
  | |- effects _ _ (read_file _ _) => eapply effects_read_file; eassumption
  | |- effects _ _ (read_text _ _) => eapply effects_read_text; eassumption
  | |- effects _ _ (mkdir _ _ _) => eapply effects_mkdir; eassumption
  | |- effects _ _ (write_file _ _ _) =>
    eapply effects_write_file; eassumption
  | |- effects _ _ (open_w _ _) => eapply effects_open_w; eassumption
  | |- effects _ _ (put_text _ _ _) => eapply effects_put_text; eassumption
  | |- effects _ _ (write_text _ _ _) =>
    eapply effects_write_text; eassumption
  | |- effects _ _ (copy2 _ _ _) => eapply effects_copy2; eassumption
  | |- effects _ _ (for_each _ _) =>
    eapply effects_for_each; [eassumption|intros ?]
  | |- effects _ _ (try_except _ _ _) =>
    eapply effects_try_except; [|intros ?]
  | |- effects _ _ (try_finally _ _) => eapply effects_try_finally
  | |- effects _ _ (subprocess_run _ _ _ _ _) =>
    eapply effects_subprocess_run; [eassumption|]
  | |- effects _ _ (bind _ _) => eapply effects_bind; [|intros ?]
  | |- effects _ _ (if ?b then _ else _) => destruct b
  | |- effects _ _ (match ?x with _ => _ end) => destruct x
  | |- effects _ _ ((fun _ => _) _) => cbv beta
  end.

(** The exceptions of ordinary failures: all but [SystemExit]. *)
Definition ordinary (e : exn) : Prop := is_Exception e = true.

Lemma ordinary_Exception (e : exn) : is_Exception e = true -> ordinary e.
Proof. exact (fun H => H). Qed.

Section BuildScriptEffects.

Variable X : Type.
Variable host : Host X.

Let HQ := ordinary_Exception.

Definition probe (tool : str) : Cmd := Argv [tool; lit "--version"].

Lemma effects_build_script_run_command (cmd description : str) :
  effects (fun c => c = Shell cmd) ordinary
          (BuildScript.run_command host cmd description).
Proof.
  unfold BuildScript.run_command. pose proof HQ.
  repeat effects_step; reflexivity.
Qed.

(** [clean_build] starts no command and raises nothing but the errors of
    file operations. *)
Lemma effects_clean_build :
  effects (fun _ => False) ordinary (BuildScript.clean_build host).
Proof.
  unfold BuildScript.clean_build, BuildScript.remove_if_dir. pose proof HQ.
  repeat effects_step.
Qed.

Lemma effects_probe_tools (tools : list str) (msg : str -> str) :
  effects (fun c => In c (map probe tools)) ordinary
          (BuildScript.probe_tools host tools msg).
Proof.
  pose proof HQ.
  induction tools as [|tool rest IH]; cbn [BuildScript.probe_tools].
  - repeat effects_step.
  - eapply effects_bind; [|intros ?].
    + eapply effects_weaken with (P := fun c => c = probe tool);
        [intros c ->; now left|exact (fun e H => H)|].
      repeat effects_step. reflexivity.
    + eapply effects_bind; [|intros ?].
      * eapply effects_weaken; [|exact (fun e H => H)|exact IH].
        intros c Hc. now right.
      * repeat effects_step.
Qed.

Ltac in_list := solve [repeat first [left; reflexivity | right]].

Ltac build_script_step :=
  lazymatch goal with
  | |- effects _ _ (BuildScript.run_command _ _ _) =>
    eapply effects_weaken;
    [| |eapply effects_build_script_run_command];
    [cbv beta; intros ? ->|exact (fun e H => H)]
  | |- effects _ _ (BuildScript.probe_tools _ _ _) =>
    eapply effects_weaken;
    [| |eapply effects_probe_tools]; [|exact (fun e H => H)]
  | _ => effects_step
  end.

(** The commands of each step. *)
Definition check_commands : list Cmd :=
  map probe [lit "python"; lit "pip"; lit "twine"; lit "pyinstaller"].

Definition build_commands : list Cmd :=
  [Shell (lit "python -m build"); Shell (lit "twine check dist/*")].

Definition pip_cmd : str :=
  if PyStr.eqb (os_name host) (lit "nt")
  then path_str host [lit "test_install"] ++ lit "/venv/Scripts/pip"
  else path_str host [lit "test_install"] ++ lit "/venv/bin/pip".

Definition test_commands : list Cmd :=
  [Shell (lit "cd " ++ path_str host [lit "test_install"]
              ++ lit " && python -m venv venv");
   Shell (pip_cmd ++ lit " install ../dist/*.whl");
   Shell (pip_cmd ++ lit " run python -c "
            ++ [34%N] ++ lit "import gridapi; print('GridAPI imported successfully')"
            ++ [34%N])].

Definition package_commands : list Cmd :=
  let '(platform_name, ext) := BuildScript.get_platform_info host in
  [probe (lit "pyinstaller");
   Shell (lit "pyinstaller " ++ (lit "gridapi-" ++ platform_name ++ lit ".spec")
              ++ lit " --clean");
   Shell (lit "pyinstaller " ++ lit "gridapi.spec" ++ lit " --clean");
   Argv [path_str host (BuildScript.exe_path_of ext); lit "--help"]].

Definition publish_command (test_pypi : bool) : Cmd :=
  Shell (if test_pypi then lit "twine upload --repository testpypi dist/*"
         else lit "twine upload dist/*").

Lemma effects_check_requirements :
  effects (fun c => In c check_commands) ordinary
          (BuildScript.check_requirements host).
Proof.
  unfold BuildScript.check_requirements. pose proof HQ.
  repeat build_script_step.
  - cbv beta. intros c Hc. unfold check_commands.
    cbn [map In] in *. tauto.
  - cbv beta. intros c Hc. unfold check_commands.
    cbn [map In] in *. tauto.
Qed.

Lemma effects_build_package :
  effects (fun c => In c build_commands) ordinary
          (BuildScript.build_package host).
Proof.
  unfold BuildScript.build_package. pose proof HQ.
  repeat build_script_step; in_list.
Qed.

Lemma effects_test_package :
  effects (fun c => In c test_commands) ordinary
          (BuildScript.test_package host).
Proof.
  unfold BuildScript.test_package. pose proof HQ.
  fold pip_cmd.
  repeat build_script_step; in_list.
Qed.

Lemma effects_build_executable :
  effects (fun c => In c package_commands) ordinary
          (BuildScript.build_executable host).
Proof.
  unfold BuildScript.build_executable, package_commands. pose proof HQ.
  destruct (BuildScript.get_platform_info host) as [platform_name ext].
  repeat build_script_step; try in_list.
  match goal with |- context [if ?b then _ else _] => destruct b end; in_list.
Qed.

Lemma effects_build_all_platforms :
  effects (fun c => In c package_commands) ordinary
          (BuildScript.build_all_platforms host).
Proof.
  unfold BuildScript.build_all_platforms. pose proof HQ.
  repeat lazymatch goal with
         | |- effects _ _ (BuildScript.build_executable _) =>
           apply effects_build_executable
         | _ => build_script_step
         end.
Qed.

Lemma effects_seal_release_assets (platform_name ext : str) :
  effects (fun _ => False) ordinary
          (BuildScript.seal_release_assets host platform_name ext).
Proof.
  unfold BuildScript.seal_release_assets. pose proof HQ.
  repeat build_script_step.
Qed.

Lemma effects_prepare_release_assets :
  effects (fun c => In c package_commands) ordinary
          (BuildScript.prepare_release_assets host).
Proof.
  unfold BuildScript.prepare_release_assets. pose proof HQ.
  destruct (BuildScript.get_platform_info host) as [platform_name ext] eqn:E.
  repeat lazymatch goal with
         | |- effects _ _ (BuildScript.build_executable _) =>
           apply effects_build_executable
         | |- effects _ _ (BuildScript.seal_release_assets _ _ _) =>
           eapply effects_weaken;
           [| |apply effects_seal_release_assets];
           [intros ? []|exact (fun e H => H)]
         | _ => build_script_step
         end.
Qed.

Lemma effects_publish_package (test_pypi : bool) :
  effects (fun c => c = publish_command test_pypi) ordinary
          (BuildScript.publish_package host test_pypi).
Proof.
  unfold BuildScript.publish_package, publish_command. pose proof HQ.
  repeat build_script_step; reflexivity.
Qed.

End BuildScriptEffects.

(** The arguments ask for the executable and for nothing else. *)
Definition exe_only (argv : list str) : bool :=
  mem (lit "--exe") argv &&
  forallb (fun flag => negb (mem flag argv))
          [lit "--clean"; lit "--build"; lit "--all-platforms";
           lit "--prepare-release"; lit "--test"; lit "--test-pypi";
           lit "--publish"].

(** C3, as stated, fails: a run with [--exe] alone does not skip the
    package build.  On a host where every step succeeds it starts
    [python -m build] and [twine check dist/*] before the packager, and
    ends with status 0. *)
Lemma exe_run_builds_the_package :
  let argv := [lit "build_script.py"; lit "--exe"] in
  let w' := snd (BuildScript.run Hosts.linux argv Hosts.w0) in
  exe_only argv = true /\
  fst (BuildScript.run Hosts.linux argv Hosts.w0) = 0%Z /\
  existsb (Cmd_eqb (Shell (lit "python -m build"))) (history w') = true /\
  existsb (Cmd_eqb (Shell (lit "twine check dist/*"))) (history w') = true /\
  mem (nl :: lit "[BUILD] Building package...") (printed w') = true.
Proof. vm_compute. repeat split; reflexivity. Qed.

Lemma effects_raises {X A} (P : Cmd -> Prop) (Q : exn -> Prop) (m : M X A)
      (w w' : World X) (e : exn) :
  effects P Q m -> m w = (Raise e, w') -> Q e.
Proof. intros H E. apply (proj2 (H w)). now rewrite E. Qed.

Lemma exit_status_ordinary {A} (e : exn) :
  ordinary e -> exit_status (Raise (A := A) e) = 1%Z.
Proof. unfold ordinary. now destruct e. Qed.

(** C3, amended.  With [--exe] and no other step flag, [main] runs
    [clean_build], then [check_requirements], then [build_package] (the
    package build is not skipped), then [build_executable], each in the
    world the one before left, and stops at the first that fails: the
    world at the end of the run is then the world this step left, nothing
    was started or printed after it, and the status is 1.  The status of
    the process is 0 exactly when [clean_build] returns and the three
    others return [True], the last being the packaging of the executable;
    the run then ends with one more line printed. *)
Theorem exe_flag_run
        (X : Type) (host : Host X) (argv : list str) (w : World X) :
  exe_only argv = true ->
  let clean := BuildScript.clean_build host (snd (BuildScript.banner w)) in
  let check := BuildScript.check_requirements host (snd clean) in
  let build := BuildScript.build_package host (snd check) in
  let pack := BuildScript.build_executable host (snd build) in
  BuildScript.run host argv w
  = match fst clean with
    | Ret _ =>
      match fst check with
      | Ret true =>
        match fst build with
        | Ret true =>
          match fst pack with
          | Ret true =>
            (0%Z,
             snd (print (nl :: lit "[SUCCESS] Executable build completed. Exiting.")
                        (snd pack)))
          | _ => (1%Z, snd pack)
          end
        | _ => (1%Z, snd build)
        end
      | _ => (1%Z, snd check)
      end
    | Raise _ => (1%Z, snd clean)
    end /\
  (fst (BuildScript.run host argv w) = 0%Z <->
   (exists u, fst clean = Ret u) /\ fst check = Ret true /\
   fst build = Ret true /\ fst pack = Ret true).
Proof.
  unfold exe_only. intros Hflags. cbv zeta.
  apply andb_prop in Hflags as [Hexe Hothers].
  cbn [forallb] in Hothers.
  repeat (apply andb_prop in Hothers as [?H Hothers]).
  repeat match goal with
         | H : negb _ = true |- _ => apply negb_true_iff in H
         end.
  destruct (quiet_banner host w) as ([] & w0 & Eb & _).
  unfold BuildScript.run, BuildScript.main.
  rewrite (bind_ret_eq _ Eb). rewrite Eb. cbn [snd].
  assert (R1 : forall e w', BuildScript.clean_build host w0 = (Raise e, w')
                            -> ordinary e)
    by (intros; eapply effects_raises; [apply effects_clean_build|eassumption]).
  destruct (BuildScript.clean_build host w0) as [[[]|e1] w1] eqn:E1;
    cbn [fst snd].
  2: { rewrite (bind_raise_eq _ E1).
       rewrite (exit_status_ordinary (A := unit) (R1 _ _ eq_refl)).
       split; [reflexivity|].
       split; [discriminate|intros [[u ?] _]; discriminate]. }
  rewrite (bind_ret_eq _ E1).
  repeat match goal with
         | H : mem _ argv = _ |- _ => rewrite H
         end.
  cbn [orb negb].
  unfold BuildScript.or_exit, bind, sys_exit, raise, ret.
  assert (R2 : forall e w', BuildScript.check_requirements host w1 = (Raise e, w')
                          -> ordinary e)
    by (intros; eapply effects_raises; [apply effects_check_requirements|eassumption]).
  destruct (BuildScript.check_requirements host w1) as [[[|]|e2] w2] eqn:E2;
    cbn [negb fst snd].
  2: { split; [reflexivity|].
       split; [cbn [exit_status]; discriminate
              |intros (_ & ? & _); discriminate]. }
  2: { rewrite (exit_status_ordinary (A := unit) (R2 _ _ eq_refl)).
       split; [reflexivity|].
       split; [discriminate|intros (_ & ? & _); discriminate]. }
  assert (R3 : forall e w', BuildScript.build_package host w2 = (Raise e, w')
                          -> ordinary e)
    by (intros; eapply effects_raises; [apply effects_build_package|eassumption]).
  destruct (BuildScript.build_package host w2) as [[[|]|e3] w3] eqn:E3;
    cbn [negb fst snd].
  2: { split; [reflexivity|].
       split; [cbn [exit_status]; discriminate
              |intros (_ & _ & ? & _); discriminate]. }
  2: { rewrite (exit_status_ordinary (A := unit) (R3 _ _ eq_refl)).
       split; [reflexivity|].
       split; [discriminate|intros (_ & _ & ? & _); discriminate]. }
  assert (R4 : forall e w', BuildScript.build_executable host w3 = (Raise e, w')
                          -> ordinary e)
    by (intros; eapply effects_raises; [apply effects_build_executable|eassumption]).
  destruct (BuildScript.build_executable host w3) as [[[|]|e4] w4] eqn:E4;
    cbn [negb fst snd print].
  - split; [reflexivity|]. split; [intros _|reflexivity].
    repeat split. now exists tt.
  - split; [reflexivity|].
    split; [cbn [exit_status]; discriminate
           |intros (_ & _ & _ & ?); discriminate].
  - rewrite (exit_status_ordinary (A := unit) (R4 _ _ eq_refl)).
    split; [reflexivity|].
    split; [discriminate|intros (_ & _ & _ & ?); discriminate].
Qed.

Lemma exe_flag_run_witness :
  fst (BuildScript.run Hosts.linux [lit "build_script.py"; lit "--exe"]
                       Hosts.w0) = 0%Z.
Proof.
  apply (proj2 (@exe_flag_run _ Hosts.linux
                              [lit "build_script.py"; lit "--exe"] Hosts.w0
                              eq_refl)).
  vm_compute. repeat split. now exists tt.
Defined.

(* ================================================================== *)
(** ** Packaging the executable *)

Section Packaging.

Variable X : Type.
Variable host : Host X.

(** The spec file that [build_executable] gives to the packager in the
    tree [n]. *)
Definition spec_file_in (n : Fs.node) : str :=
  let platform_spec :=
    lit "gridapi-" ++ fst (BuildScript.get_platform_info host) ++ lit ".spec" in
  if Fs.exists_ [platform_spec] n then platform_spec else lit "gridapi.spec".

Definition packager_command (n : Fs.node) : Cmd :=
  Shell (lit "pyinstaller " ++ spec_file_in n ++ lit " --clean").

Definition exe_path : Fs.path :=
  BuildScript.exe_path_of (snd (BuildScript.get_platform_info host)).

Definition smoke_test : Cmd := Argv [path_str host exe_path; lit "--help"].

(** The line that reports the test of the executable started in [s]. *)
Definition smoke_report (s : Fs.node * X) : str :=
  match expires host smoke_test 10 s with
  | Some _ => lit "   [WARNING]  Executable test timed out"
  | None =>
    match fst (spawn host smoke_test s) with
    | Completed rc _ _ =>
      if (rc =? 0)%Z then lit "   [SUCCESS] Executable test passed"
      else lit "   [WARNING]  Executable test failed (return code: "
           ++ of_Z rc ++ lit ")"
    | Undecodable _ =>
      lit "   [WARNING]  Executable test error: "
      ++ str_exn host UnicodeDecodeError
    | Failed why =>
      lit "   [WARNING]  Executable test error: "
      ++ str_exn host (exn_of_launch why)
    end
  end.

Lemma exists_in_dir (a b : str) (n : Fs.node) :
  Fs.exists_ [a; b] n = true ->
  exists es, Fs.lookup [a] n = Some (Fs.Dir es).
Proof.
  unfold Fs.exists_. simpl. destruct n as [d|es]; [discriminate|].
  destruct (Fs.assoc a es) as [[d|es']|]; try discriminate.
  intros _. now exists es'.
Qed.

Lemma for_each_print (names : list str) (f : str -> str) (w : World X) :
  exists lines,
    for_each names (fun name => print (f name)) w
    = (Ret tt, mkWorld (fs w) (ext w) (lines ++ printed w) (history w)).
Proof.
  revert w. induction names as [|a names IH]; intros w; simpl.
  - exists []. now destruct w.
  - unfold bind, print at 1. 
    destruct (IH (mkWorld (fs w) (ext w) (f a :: printed w) (history w)))
      as (lines & E).
    rewrite E. exists (lines ++ [f a]). simpl. now rewrite <- app_assoc.
Qed.

Lemma bind_print {A} (s : str) (k : unit -> M X A) (w : World X) :
  bind (print s) k w
  = k tt (mkWorld (fs w) (ext w) (s :: printed w) (history w)).
Proof. reflexivity. Qed.

Lemma bind_path_exists {A} (p : Fs.path) (k : bool -> M X A) (w : World X) :
  bind (path_exists p) k w = k (Fs.exists_ p (fs w)) w.
Proof. reflexivity. Qed.

Lemma bind_ret {A B} (a : A) (k : A -> M X B) (w : World X) :
  bind (ret a) k w = k a w.
Proof. reflexivity. Qed.

Lemma bind_assoc {A B C} (m : M X A) (f : A -> M X B) (k : B -> M X C)
      (w : World X) :
  bind (bind m f) k w = bind m (fun a => bind (f a) k) w.
Proof. unfold bind. now destruct (m w) as [[a|e] w']. Qed.

Lemma bind_iterdir {A} (p : Fs.path) (es : list (str * Fs.node))
      (k : list str -> M X A) (w : World X) :
  Fs.lookup p (fs w) = Some (Fs.Dir es) ->
  bind (iterdir p) k w = k (map fst es) w.
Proof. intros H. unfold bind, iterdir. now rewrite H. Qed.

Lemma bind_for_each_print {A} (names : list str) (f : str -> str)
      (k : unit -> M X A) (w : World X) :
  exists lines,
    bind (for_each names (fun name => print (f name))) k w
    = k tt (mkWorld (fs w) (ext w) (lines ++ printed w) (history w)).
Proof.
  destruct (for_each_print names f w) as (lines & E).
  exists lines. unfold bind. now rewrite E.
Qed.

Lemma bind_st_size {A} (p : Fs.path) (k : N -> M X A) (w : World X) :
  Fs.exists_ p (fs w) = true ->
  exists size, bind (st_size host p) k w = k size w.
Proof.
  unfold Fs.exists_, bind, st_size.
  destruct (Fs.lookup p (fs w)) as [[d|es]|]; [eauto|eauto|discriminate].
Qed.

Ltac msimpl :=
  repeat (first [ rewrite bind_print | rewrite bind_path_exists
                | rewrite bind_ret ];
          cbv beta; cbn [fs ext printed history]).

(** C8.  When PyInstaller is there, the packager command succeeds and the
    executable exists after it, [build_executable] returns [True] whatever
    the test of the executable gives: a status that is not zero, a timeout
    after ten seconds and an error are each reported in the last line
    printed, as a warning, and change nothing else. *)
Theorem smoke_test_outcome_is_a_warning (w : World X) :
  forall o1 e1 s1 o2 e2 s2,
  spawn host (Argv [lit "pyinstaller"; lit "--version"]) (fs w, ext w)
  = (Completed 0 o1 e1, s1) ->
  spawn host (packager_command (fst s1)) s1 = (Completed 0 o2 e2, s2) ->
  Fs.exists_ exe_path (fst s2) = true ->
  exists w',
    BuildScript.build_executable host w = (Ret true, w') /\
    hd [] (printed w') = smoke_report s2.
Proof.
  intros o1 e1 [n1 x1] o2 e2 [n2 x2] Hprobe Hpack Hexe.
  unfold BuildScript.build_executable, exe_path, packager_command, spec_file_in,
    smoke_report, smoke_test, exe_path in *.
  destruct (BuildScript.get_platform_info host) as [platform_name suffix].
  cbn [fst snd] in *.
  msimpl.
  unfold bind at 1. unfold try_except at 1. unfold bind at 1.
  unfold subprocess_run at 1. cbn [fs ext printed history].
  rewrite Hprobe. cbn [andb negb Z.eqb ret fst snd].
  msimpl.
  remember (Fs.exists_ [lit "gridapi-" ++ platform_name ++ lit ".spec"] n1)
    as has_spec eqn:Hspec in *.
  assert (Hrun : forall p h,
             exists p2,
               BuildScript.run_command host
                 (lit "pyinstaller "
                  ++ (if has_spec
                      then lit "gridapi-" ++ platform_name ++ lit ".spec"
                      else lit "gridapi.spec") ++ lit " --clean")
                 (lit "Building standalone executable")
                 (mkWorld n1 x1 p h)
               = (Ret true,
                  mkWorld n2 x2 p2
                          (Shell (lit "pyinstaller "
                                  ++ (if has_spec
                                      then lit "gridapi-" ++ platform_name
                                           ++ lit ".spec"
                                      else lit "gridapi.spec")
                                  ++ lit " --clean") :: h))).
  { intros p h.
    match goal with
    | |- context [BuildScript.run_command host ?c ?d ?wx] =>
      destruct (build_script_run_command_spec host c d wx)
        as ([f2 y2 p2 h2] & E & Hfs & Hext & Hhist & _)
    end.
    cbn [fs ext printed history] in *.
    match type of E with
    | context [spawn host ?c' ?s'] =>
      pose proof (Hpack : spawn host c' s' = (Completed 0 o2 e2, (n2, x2)))
        as Hp
    end.
    rewrite Hp in E, Hfs, Hext.
    cbn [fst snd run_command_answer Z.eqb] in *. subst.
    exists p2. exact E. }
  destruct (exists_in_dir _ _ _ Hexe) as (es & Hdist).
  assert (Hdist' : Fs.exists_ [lit "dist"] n2 = true)
    by (unfold Fs.exists_; now rewrite Hdist).
  destruct has_spec.
  all: msimpl; unfold bind at 1;
    match goal with
    | |- context [BuildScript.run_command host ?c ?d (mkWorld ?a ?b ?p ?h)] =>
      destruct (Hrun p h) as (p2 & E);
      replace (BuildScript.run_command host c d (mkWorld a b p h))
        with (Ret (A := bool) true, mkWorld n2 x2 p2 (Shell c :: h))
        by (symmetry; exact E)
    end;
    cbn [negb]; msimpl; rewrite Hdist', bind_assoc;
    erewrite bind_iterdir by exact Hdist;
    match goal with
    | |- context [bind (for_each ?names (fun name => print (@?f name))) ?k ?wx] =>
      destruct (bind_for_each_print names f k wx) as (lines & ->)
    end;
    msimpl; rewrite Hexe; msimpl;
    match goal with
    | |- context [bind (st_size host ?p) ?k ?wx] =>
      destruct (bind_st_size p k wx Hexe) as (size & ->)
    end;
    msimpl;
    unfold bind, try_except, subprocess_run; cbn [fs ext printed history];
    destruct (expires host _ 10%N (n2, x2)) as [s3|];
    [|destruct (spawn host _ (n2, x2)) as [[rc out err|rc|why] s3]];
    cbn [andb is_Exception is_TimeoutExpired fst returncode];
    try destruct (rc =? 0)%Z; try destruct why;
    cbn [exn_of_launch is_Exception is_TimeoutExpired print ret];
    (eexists; split; reflexivity).
Qed.

(** The name of the asset of this host in the release directory. *)
Definition asset_name : str :=
  BuildScript.platform_exe_name_of (fst (BuildScript.get_platform_info host))
                                   (snd (BuildScript.get_platform_info host)).

(** C7, amended.  When the executable is not there,
    [prepare_release_assets] says so, says that it builds it first, and
    runs [build_executable] before anything else.  When that build returns
    [False] the step returns [False], after one more line, with the tree
    and the commands as the build left them.  When the build returns
    [True] the step goes on, from the state the build left, to copy and
    seal the asset, and its result is the result of that part: the step
    returns [True] only when the build and the sealing both do, and it
    returns [False] only when the build does or, after a good build, the
    sealing does. *)
Theorem prepare_builds_missing_executable (w : World X) :
  Fs.exists_ exe_path (fs w) = false ->
  let announced :=
    mkWorld (fs w) (ext w)
            ([lit "   Building executable first...";
              lit "   Executable not found: " ++ path_str host exe_path;
              nl :: lit "[BUILD] Preparing release assets..."]
               ++ printed w)
            (history w) in
  let build := BuildScript.build_executable host announced in
  let seal :=
    BuildScript.seal_release_assets
      host (fst (BuildScript.get_platform_info host))
      (snd (BuildScript.get_platform_info host)) (snd build) in
  let prepare := BuildScript.prepare_release_assets host w in
  prepare
  = match fst build with
    | Ret true => seal
    | Ret false =>
      (Ret false,
       mkWorld (fs (snd build)) (ext (snd build))
               (lit "[ERROR] Failed to build executable"
                    :: printed (snd build))
               (history (snd build)))
    | Raise e => (Raise e, snd build)
    end /\
  (fst prepare = Ret true -> fst build = Ret true /\ fst seal = Ret true) /\
  (fst prepare = Ret false ->
   fst build = Ret false \/ fst build = Ret true /\ fst seal = Ret false).
Proof.
  intros H announced build seal prepare.
  assert (E : prepare
              = match fst build with
                | Ret true => seal
                | Ret false =>
                  (Ret false,
                   mkWorld (fs (snd build)) (ext (snd build))
                           (lit "[ERROR] Failed to build executable"
                                :: printed (snd build))
                           (history (snd build)))
                | Raise e => (Raise e, snd build)
                end).
  { subst prepare seal build announced.
    unfold exe_path, BuildScript.prepare_release_assets in *.
    destruct (BuildScript.get_platform_info host) as [platform_name suffix].
    cbn [fst snd] in *. msimpl. rewrite H. cbn [negb app].
    repeat (rewrite bind_assoc; msimpl). unfold bind at 1.
    destruct (BuildScript.build_executable host _) as [[[|]|e] w1];
      cbn [negb fst snd]; repeat (rewrite ?bind_assoc; msimpl); reflexivity. }
  split; [exact E|]. rewrite E. clear E.
  destruct (fst build) as [[|]|e]; cbn [fst]; split; intros R;
    try discriminate R; auto.
Qed.

End Packaging.

(* ================================================================== *)
(** ** Sealing the release asset *)

(** Reading the file chunk by chunk feeds the whole file to the digest, in
    order; a unit of fuel per byte and one more is enough. *)
Lemma hash_chunks_feeds_all (fuel : nat) :
  forall (data : list N) (h : BuildScript.sha256_object),
    length data < fuel ->
    BuildScript.hash_chunks fuel data h
    = BuildScript.mkSha (BuildScript.fed h ++ data).
Proof.
  induction fuel as [|fuel IH]; intros data h Hlen; [lia|].
  cbn [BuildScript.hash_chunks].
  destruct data as [|b data].
  - rewrite firstn_nil, app_nil_r. now destruct h.
  - change 4096 with (S 4095).
    rewrite firstn_cons.
    change (S 4095) with 4096.
    rewrite IH.
    + unfold BuildScript.sha256_update. cbn [BuildScript.fed].
      rewrite <- app_assoc.
      change (b :: firstn 4095 data) with (firstn 4096 (b :: data)).
      now rewrite firstn_skipn.
    + change 4096 with (S 4095). rewrite skipn_cons.
      rewrite length_skipn. simpl in Hlen. lia.
Qed.

Lemma streamed_digest (data : list N) :
  BuildScript.sha256_hexdigest
    (BuildScript.hash_chunks (S (length data)) data BuildScript.sha256_new)
  = Sha256.hexdigest data.
Proof.
  rewrite hash_chunks_feeds_all by lia. reflexivity.
Qed.

Lemma hex_digit_is_hex (d : N) :
  (d < 16)%N -> Sha256.is_hex (Sha256.hex_digit d) = true.
Proof.
  intros H. unfold Sha256.is_hex, Sha256.hex_digit.
  destruct (N.ltb_spec d 10).
  - apply orb_true_iff. left. apply andb_true_iff.
    split; apply N.leb_le; lia.
  - apply orb_true_iff. right. apply andb_true_iff.
    split; apply N.leb_le; lia.
Qed.

Lemma hex32_form (w : N) :
  length (Sha256.hex32 w) = 8 /\ forallb Sha256.is_hex (Sha256.hex32 w) = true.
Proof.
  unfold Sha256.hex32. split; [reflexivity|].
  rewrite forallb_forall. intros c Hc. apply in_map_iff in Hc as (i & <- & _).
  apply hex_digit_is_hex.
  change 15%N with (N.ones 4). rewrite N.land_ones.
  apply N.mod_lt. discriminate.
Qed.

(** A digest is sixty-four hexadecimal digits. *)
Lemma hexdigest_form (data : list N) :
  length (Sha256.hexdigest data) = 64 /\
  forallb Sha256.is_hex (Sha256.hexdigest data) = true.
Proof.
  unfold Sha256.hexdigest.
  generalize (Sha256.digest_state data). intros s.
  repeat rewrite ?length_app, ?forallb_app.
  repeat match goal with
         | |- context [Sha256.hex32 ?w] =>
           let L := fresh "L" in let F := fresh "F" in
           destruct (hex32_form w) as [L F];
           rewrite ?L, ?F; clear L F;
           generalize dependent (Sha256.hex32 w); intros
         end.
  split; reflexivity.
Qed.

Section Sealing.

Variable X : Type.
Variable host : Host X.

Lemma bind_inv {A B} (m : M X A) (k : A -> M X B) (w w' : World X) (b : B) :
  bind m k w = (Ret b, w') ->
  exists a w1, m w = (Ret a, w1) /\ k a w1 = (Ret b, w').
Proof.
  unfold bind. destruct (m w) as [[a|e] w1]; [eauto|discriminate].
Qed.

Lemma read_file_inv (p : Fs.path) (w w' : World X) (d : list N) :
  read_file host p w = (Ret d, w') ->
  w' = w /\ Fs.lookup p (fs w) = Some (Fs.File d).
Proof.
  unfold read_file.
  destruct (Fs.lookup p (fs w)) as [[d'|es]|]; try discriminate.
  destruct (refused host OpenRead p (fs w, ext w)); [discriminate|].
  now intros [= -> <-].
Qed.

Lemma read_text_inv (p : Fs.path) (w w' : World X) (s : str) :
  read_text host p w = (Ret s, w') ->
  w' = w /\
  exists d, Fs.lookup p (fs w) = Some (Fs.File d) /\ text_of host d = Some s.
Proof.
  unfold read_text. intros H.
  apply bind_inv in H as (d & w1 & R & H).
  apply read_file_inv in R as [-> R].
  destruct (text_of host d) as [t|] eqn:T; [|discriminate H].
  injection H as <- <-. split; [reflexivity|]. now exists d.
Qed.

Lemma write_file_inv (p : Fs.path) (d : list N) (w w' : World X) (u : unit) :
  write_file host p d w = (Ret u, w') ->
  Fs.put p (Fs.File d) (fs w) = Some (fs w').
Proof.
  unfold write_file, set_fs.
  destruct (Fs.lookup p (fs w)) as [[d'|es]|]; try discriminate;
    destruct (Fs.put p (Fs.File d) (fs w)); try discriminate;
    destruct (refused host OpenWrite p (fs w, ext w)); try discriminate;
    now intros [= _ <-].
Qed.

Lemma put_text_inv (p : Fs.path) (s : str) (w w' : World X) (u : unit) :
  put_text host p s w = (Ret u, w') ->
  exists d, to_bytes host s = Some d /\
            Fs.put p (Fs.File d) (fs w) = Some (fs w').
Proof.
  unfold put_text, set_fs.
  destruct (to_bytes host s) as [d|]; [|discriminate].
  destruct (Fs.put p (Fs.File d) (fs w)) eqn:E; [|discriminate].
  intros [= _ <-]. now exists d.
Qed.

Lemma write_text_inv (p : Fs.path) (s : str) (w w' : World X) (u : unit) :
  write_text host p s w = (Ret u, w') ->
  exists d, to_bytes host s = Some d /\
            Fs.lookup p (fs w') = Some (Fs.File d).
Proof.
  unfold write_text, open_w. intros H.
  apply bind_inv in H as (? & w1 & _ & H).
  apply put_text_inv in H as (d & T & H).
  exists d. split; [assumption|]. exact (lookup_put_same _ _ _ H).
Qed.

Lemma print_inv (s : str) (w w' : World X) (u : unit) :
  print s w = (Ret u, w') -> fs w' = fs w.
Proof. now intros [= _ <-]. Qed.

Lemma asset_is_not_the_manifest (platform_name suffix : str) :
  BuildScript.platform_exe_name_of platform_name suffix
  <> lit "checksums.txt".
Proof.
  unfold BuildScript.platform_exe_name_of.
  destruct (truthy suffix); eval_lits; discriminate.
Qed.

(** When the second half of [prepare_release_assets] returns [True], the
    manifest holds one line, as the host writes it: the digest of the
    asset as it is in the release directory, two spaces, and the name of
    the asset. *)
Lemma seal_release_assets_manifest (platform_name suffix : str)
      (w w' : World X) :
  BuildScript.seal_release_assets host platform_name suffix w = (Ret true, w') ->
  let name := BuildScript.platform_exe_name_of platform_name suffix in
  exists data content,
    Fs.lookup [lit "release-assets"; name] (fs w') = Some (Fs.File data) /\
    Fs.lookup [lit "release-assets"; lit "checksums.txt"] (fs w')
    = Some (Fs.File content) /\
    to_bytes host (Sha256.hexdigest data ++ lit "  " ++ name ++ [nl])
    = Some content.
Proof.
  unfold BuildScript.seal_release_assets. intros H. cbv zeta.
  cbn [app] in H.
  apply bind_inv in H as (? & w1 & _ & H).
  apply bind_inv in H as (? & w2 & _ & H).
  apply bind_inv in H as (? & w3 & _ & H).
  apply bind_inv in H as (size & w4 & _ & H).
  apply bind_inv in H as (? & w5 & _ & H).
  apply bind_inv in H as (sealed & w6 & T & H).
  destruct sealed; [|discriminate H]. cbn [negb] in H.
  apply bind_inv in H as (? & w7 & P1 & H).
  apply bind_inv in H as (? & w8 & P2 & H).
  apply bind_inv in H as (? & w9 & P3 & H).
  injection H as <-.
  apply print_inv in P1, P2, P3. rewrite P3, P2, P1. clear P1 P2 P3 w7 w8 w9.
  unfold try_except in T.
  match type of T with
  | match ?m w5 with _ => _ end = _ =>
    destruct (m w5) as [[b|e] w6'] eqn:B
  end.
  2: { destruct (is_Exception e); [discriminate T|discriminate T]. }
  injection T as -> ->.
  apply bind_inv in B as (? & v1 & W1 & B).
  apply bind_inv in B as (data & v2 & R1 & B).
  apply bind_inv in B as (? & v3 & W2 & B).
  apply bind_inv in B as (? & v4 & P1 & B).
  apply bind_inv in B as (text & v5 & R2 & B).
  apply bind_inv in B as (? & v6 & P2 & B).
  injection B as <-.
  apply print_inv in P1, P2. apply read_file_inv in R1 as [-> R1].
  apply read_text_inv in R2 as [-> _].
  apply put_text_inv in W2 as (content & T & W2).
  rewrite P2, P1. exists data, content. split; [|split].
  - rewrite <- R1.
    eapply (lookup_put_sibling [lit "release-assets"]
                               (a := lit "checksums.txt")); [|exact W2].
    intros E. symmetry in E. now apply asset_is_not_the_manifest in E.
  - apply (lookup_put_same _ _ _ W2).
  - now rewrite streamed_digest in T.
Qed.

End Sealing.

(* ================================================================== *)
(** ** The manifest *)

(** The text [content] is the one line [line]. *)
Definition one_line (content line : str) : Prop :=
  content = line ++ [nl] /\ ~ In nl line.

(** The file with the bytes [d] holds the one line [line], written as the
    host writes text: encoded, and ended by the line end of the host. *)
Definition one_line_file {X} (host : Host X) (d : list N) (line : str)
  : Prop :=
  exists content, to_bytes host content = Some d /\ one_line content line.

Lemma not_in_by_existsb (c : char) (s : str) :
  existsb (N.eqb c) s = false -> ~ In c s.
Proof.
  intros H Hin. assert (existsb (N.eqb c) s = true); [|congruence].
  apply existsb_exists. exists c. split; [assumption|apply N.eqb_refl].
Qed.

Lemma asset_name_form (X : Type) (host : Host X) :
  asset_name host
  = lit "gridapi-" ++ fst (BuildScript.get_platform_info host)
        ++ snd (BuildScript.get_platform_info host) /\
  ~ In nl (asset_name host).
Proof.
  unfold asset_name, BuildScript.get_platform_info.
  repeat match goal with
         | |- context [if PyStr.eqb ?a ?b then _ else _] =>
           destruct (PyStr.eqb a b)
         end;
    (split; [reflexivity|apply not_in_by_existsb; reflexivity]).
Qed.

Lemma hex_is_not_newline (s : str) :
  forallb Sha256.is_hex s = true -> ~ In nl s.
Proof.
  intros H Hin. rewrite forallb_forall in H. now specialize (H nl Hin).
Qed.

(** What C6 says of the manifest: one line, a digest of sixty-four
    characters, two spaces, and [gridapi-] followed by the name of the
    platform. *)
Definition manifest_as_claimed {X} (host : Host X) (content : str) : Prop :=
  exists digest,
    length digest = 64 /\
    one_line content
             (digest ++ lit "  gridapi-"
                     ++ fst (BuildScript.get_platform_info host)).

(** C6, as stated, fails on Windows: the asset keeps the extension of the
    executable, and the line of the manifest ends in
    [gridapi-windows.exe]. *)
Lemma windows_manifest_names_the_exe :
  let w' := snd (BuildScript.prepare_release_assets Hosts.windows Hosts.w0) in
  fst (BuildScript.prepare_release_assets Hosts.windows Hosts.w0) = Ret true /\
  exists d content,
    Fs.lookup [lit "release-assets"; lit "checksums.txt"] (fs w')
    = Some (Fs.File d) /\
    text_of Hosts.windows d = Some content /\
    content = Sha256.hexdigest (lit "binary") ++ lit "  gridapi-windows.exe"
                               ++ [nl] /\
    ~ manifest_as_claimed Hosts.windows content.
Proof.
  cbv zeta. split; [vm_compute; reflexivity|].
  eexists. eexists. split; [vm_compute; reflexivity|].
  split; [vm_compute; reflexivity|]. split; [vm_compute; reflexivity|].
  intros (digest & L & E & _).
  apply (f_equal (@length N)) in E.
  rewrite !length_app, L in E. vm_compute in E. discriminate.
Qed.

(** C6, amended.  When [prepare_release_assets] returns [True], the asset
    in the release directory is [gridapi-<platform><ext>], where [ext] is
    [.exe] on Windows and empty elsewhere, and the manifest, whatever it
    held before, is one line, written as the host writes text: the
    SHA-256 digest of the bytes of the asset, sixty-four hexadecimal
    digits computed by reading the file in chunks of 4096 bytes, then two
    spaces, then the name of the asset. *)
Theorem prepared_manifest
        (X : Type) (host : Host X) (w w' : World X) :
  BuildScript.prepare_release_assets host w = (Ret true, w') ->
  exists data,
    Fs.lookup [lit "release-assets"; asset_name host] (fs w')
    = Some (Fs.File data) /\
    (exists d,
        Fs.lookup [lit "release-assets"; lit "checksums.txt"] (fs w')
        = Some (Fs.File d) /\
        one_line_file host d
                 (Sha256.hexdigest data ++ lit "  " ++ asset_name host)) /\
    BuildScript.sha256_hexdigest
      (BuildScript.hash_chunks (S (length data)) data BuildScript.sha256_new)
    = Sha256.hexdigest data /\
    length (Sha256.hexdigest data) = 64 /\
    forallb Sha256.is_hex (Sha256.hexdigest data) = true /\
    asset_name host
    = lit "gridapi-" ++ fst (BuildScript.get_platform_info host)
          ++ snd (BuildScript.get_platform_info host).
Proof.
  intros H.
  destruct (asset_name_form host) as [Hname Hnl].
  unfold BuildScript.prepare_release_assets in H. unfold asset_name in *.
  destruct (BuildScript.get_platform_info host) as [platform_name suffix].
  cbn [fst snd] in *.
  apply bind_inv in H as (? & w1 & _ & H).
  apply bind_inv in H as (present & w2 & _ & H).
  apply bind_inv in H as (built & w3 & _ & H).
  destruct built; [|discriminate H]. cbn [negb] in H.
  destruct (seal_release_assets_manifest _ _ _ _ H)
    as (data & d & Ha & Hm & Hd).
  destruct (hexdigest_form data) as [L F].
  exists data. split; [exact Ha|]. split; [|repeat split; try assumption].
  - exists d. split; [exact Hm|]. eexists. split; [exact Hd|]. split.
    + now rewrite <- !app_assoc.
    + rewrite !in_app_iff. intros [Hin|[Hin|Hin]].
      * now apply (hex_is_not_newline _ F).
      * revert Hin. apply not_in_by_existsb. reflexivity.
      * now apply Hnl.
  - apply streamed_digest.
Qed.

Lemma prepared_manifest_witness :
  exists data,
    Fs.lookup [lit "release-assets"; asset_name Hosts.linux]
              (fs (snd (BuildScript.prepare_release_assets Hosts.linux Hosts.w0)))
    = Some (Fs.File data) /\
    (exists d,
        Fs.lookup [lit "release-assets"; lit "checksums.txt"]
                  (fs (snd (BuildScript.prepare_release_assets
                              Hosts.linux Hosts.w0)))
        = Some (Fs.File d) /\
        one_line_file Hosts.linux d
                 (Sha256.hexdigest data ++ lit "  " ++ asset_name Hosts.linux)) /\
    BuildScript.sha256_hexdigest
      (BuildScript.hash_chunks (S (length data)) data BuildScript.sha256_new)
    = Sha256.hexdigest data /\
    length (Sha256.hexdigest data) = 64 /\
    forallb Sha256.is_hex (Sha256.hexdigest data) = true /\
    asset_name Hosts.linux
    = lit "gridapi-" ++ fst (BuildScript.get_platform_info Hosts.linux)
          ++ snd (BuildScript.get_platform_info Hosts.linux).
Proof.
  apply (@prepared_manifest _ Hosts.linux Hosts.w0).
  vm_compute. reflexivity.
Defined.

(* ================================================================== *)
(** ** The run without flags *)

Definition production_upload : Cmd := Shell (lit "twine upload dist/*").

(** C1.  The code does not do what the claim, and its own usage text
    ([# Full build, test, and publish]), say.  On a host where every step
    succeeds, a run of [build_script.py] without flags ends with status 0
    after the clean, check, build and test steps: it has not started the
    upload and has not printed the heading of the publish step.  The same
    holds of [build.py]. *)
Theorem flagless_run_does_not_publish :
  let run1 := BuildScript.run Hosts.linux [lit "build_script.py"] Hosts.w0 in
  let run2 := BuildPy.run Hosts.linux [lit "build.py"] Hosts.w0 in
  fst run1 = 0%Z /\
  existsb (Cmd_eqb production_upload) (history (snd run1)) = false /\
  mem (nl :: lit "[RELEASE] Publishing package...") (printed (snd run1)) = false /\
  mem (nl :: lit "🧪 Testing package installation...") (printed (snd run1)) = true /\
  fst run2 = 0%Z /\
  existsb (Cmd_eqb production_upload) (history (snd run2)) = false /\
  mem (nl :: lit "🚀 Publishing package...") (printed (snd run2)) = false.
Proof. vm_compute. repeat split; reflexivity. Qed.

Lemma smoke_test_outcome_is_a_warning_witness :
  exists w',
    BuildScript.build_executable Hosts.hanging_exe Hosts.w0 = (Ret true, w') /\
    hd [] (printed w')
    = smoke_report Hosts.hanging_exe
                   (snd (spawn Hosts.hanging_exe
                               (packager_command Hosts.hanging_exe
                                                 (fs Hosts.w0))
                               (fs Hosts.w0, ext Hosts.w0))).
Proof.
  apply (@smoke_test_outcome_is_a_warning
           _ Hosts.hanging_exe Hosts.w0 [] [] (fs Hosts.w0, ext Hosts.w0) [] []);
    reflexivity.
Defined.

Example hanging_executable_is_reported :
  smoke_report Hosts.hanging_exe
               (snd (spawn Hosts.hanging_exe
                           (packager_command Hosts.hanging_exe (fs Hosts.w0))
                           (fs Hosts.w0, ext Hosts.w0)))
  = lit "   [WARNING]  Executable test timed out".
Proof. reflexivity. Qed.

(** C7, as stated, fails: the step can fail after a build that succeeded.
    In a checkout without the executable, where a directory is in the
    place of the manifest, the build that the step starts returns [True],
    and the step returns [False]: the manifest cannot be opened, and the
    handler around the checksum reports it and gives [False]. *)
Lemma prepare_fails_after_a_good_build :
  let w := Hosts.manifest_taken in
  let announced :=
    mkWorld (fs w) (ext w)
            ([lit "   Building executable first...";
              lit "   Executable not found: "
                  ++ path_str Hosts.linux (exe_path Hosts.linux);
              nl :: lit "[BUILD] Preparing release assets..."]
               ++ printed w)
            (history w) in
  Fs.exists_ (exe_path Hosts.linux) (fs w) = false /\
  fst (BuildScript.build_executable Hosts.linux announced) = Ret true /\
  fst (BuildScript.prepare_release_assets Hosts.linux w) = Ret false /\
  hd [] (printed (snd (BuildScript.prepare_release_assets Hosts.linux w)))
  = lit "[ERROR] Failed to create checksums: Is a directory".
Proof. vm_compute. repeat split; reflexivity. Qed.

Lemma prepare_builds_missing_executable_witness :
  let w := Hosts.w0 in
  let announced :=
    mkWorld (fs w) (ext w)
            ([lit "   Building executable first...";
              lit "   Executable not found: "
                  ++ path_str Hosts.linux (exe_path Hosts.linux);
              nl :: lit "[BUILD] Preparing release assets..."]
               ++ printed w)
            (history w) in
  let build := BuildScript.build_executable Hosts.linux announced in
  let seal :=
    BuildScript.seal_release_assets
      Hosts.linux (fst (BuildScript.get_platform_info Hosts.linux))
      (snd (BuildScript.get_platform_info Hosts.linux)) (snd build) in
  let prepare := BuildScript.prepare_release_assets Hosts.linux w in
  prepare
  = match fst build with
    | Ret true => seal
    | Ret false =>
      (Ret false,
       mkWorld (fs (snd build)) (ext (snd build))
               (lit "[ERROR] Failed to build executable"
                    :: printed (snd build))
               (history (snd build)))
    | Raise e => (Raise e, snd build)
    end /\
  (fst prepare = Ret true -> fst build = Ret true /\ fst seal = Ret true) /\
  (fst prepare = Ret false ->
   fst build = Ret false \/ fst build = Ret true /\ fst seal = Ret false).
Proof.
  exact (@prepare_builds_missing_executable
           _ Hosts.linux Hosts.w0 (eq_refl false)).
Defined.

(* ================================================================== *)
(** ** The plan of build_script.py

    The commands that a run of [main] may start, by its flags. *)

Section BuildScriptPlan.

Variable X : Type.
Variable host : Host X.

(** What [main] raises: [sys.exit(1)], or the error of a failure. *)
Definition exit_1_or_ordinary (e : exn) : Prop :=
  e = SystemExit 1 \/ ordinary e.

Lemma exit_1_or_ordinary_Exception (e : exn) :
  is_Exception e = true -> exit_1_or_ordinary e.
Proof. intros H. now right. Qed.

Lemma effects_or_exit (P : Cmd -> Prop) (step : M X bool) :
  effects P ordinary step ->
  effects P exit_1_or_ordinary (BuildScript.or_exit step).
Proof.
  intros H. unfold BuildScript.or_exit.
  apply effects_bind.
  - eapply effects_weaken; [exact (fun c Hc => Hc)| |exact H].
    intros e He. now right.
  - intros [|]; cbn [negb].
    + apply effects_ret. exact exit_1_or_ordinary_Exception.
    + apply effects_raise. now left.
Qed.

Lemma effects_banner :
  effects (fun _ => False) ordinary (BuildScript.banner (X := X)).
Proof.
  unfold BuildScript.banner. pose proof ordinary_Exception.
  repeat effects_step.
Qed.

Definition flag (name : string) (argv : list str) : bool := mem (lit name) argv.

(** The commands of the steps that [main] reaches with the flags of
    [argv], in the order of the steps. *)
Definition plan (argv : list str) : list Cmd :=
  if flag "--clean" argv then [] else
  check_commands ++
  (if flag "--build" argv
      || negb (flag "--test" argv || flag "--test-pypi" argv
               || flag "--publish" argv)
   then build_commands else []) ++
  (if flag "--build" argv then []
   else if flag "--exe" argv || flag "--all-platforms" argv
           || flag "--prepare-release" argv
   then package_commands host
   else
     (if flag "--test" argv
         || negb (flag "--test-pypi" argv || flag "--publish" argv)
      then test_commands host else []) ++
     (if flag "--test" argv then []
      else if flag "--test-pypi" argv then [publish_command true]
      else if flag "--publish" argv then [publish_command false]
      else [])).

Ltac plan_member :=
  cbv beta; intros ? ?;
  repeat (rewrite in_app_iff || cbn [In]); tauto.

Ltac plan_step :=
  lazymatch goal with
  | |- effects _ _ (BuildScript.or_exit _) =>
    apply effects_or_exit
  | |- effects _ _ (@BuildScript.banner _) =>
    eapply effects_weaken; [| |apply effects_banner];
    [cbv beta; intros ? []|intros ? H; right; exact H]
  | |- effects _ ordinary (BuildScript.check_requirements _) =>
    eapply effects_weaken;
    [|exact (fun e H => H)|apply effects_check_requirements]; plan_member
  | |- effects _ ordinary (BuildScript.build_package _) =>
    eapply effects_weaken;
    [|exact (fun e H => H)|apply effects_build_package]; plan_member
  | |- effects _ ordinary (BuildScript.test_package _) =>
    eapply effects_weaken;
    [|exact (fun e H => H)|apply effects_test_package]; plan_member
  | |- effects _ ordinary (BuildScript.build_executable _) =>
    eapply effects_weaken;
    [|exact (fun e H => H)|apply effects_build_executable]; plan_member
  | |- effects _ ordinary (BuildScript.build_all_platforms _) =>
    eapply effects_weaken;
    [|exact (fun e H => H)|apply effects_build_all_platforms]; plan_member
  | |- effects _ ordinary (BuildScript.prepare_release_assets _) =>
    eapply effects_weaken;
    [|exact (fun e H => H)|apply effects_prepare_release_assets]; plan_member
  | |- effects _ ordinary (BuildScript.publish_package _ _) =>
    eapply effects_weaken;
    [|exact (fun e H => H)|apply effects_publish_package];
    cbv beta; intros ? ->; repeat (rewrite in_app_iff || cbn [In]); tauto
  | |- effects _ _ (BuildScript.clean_build _) =>
    eapply effects_weaken; [| |apply effects_clean_build];
    [cbv beta; intros ? []|intros ? H; right; exact H]
  | _ => effects_step
  end.

(** Whatever the flags and the host, [main] starts only commands of its
    plan, and what it raises is [sys.exit(1)] or the error of a
    failure. *)
Theorem main_follows_its_plan (argv : list str) :
  effects (fun c => In c (plan argv)) exit_1_or_ordinary
          (BuildScript.main host argv).
Proof.
  unfold BuildScript.main, plan, flag.
  pose proof exit_1_or_ordinary_Exception as HQ.
  destruct (mem (lit "--clean") argv), (mem (lit "--build") argv),
    (mem (lit "--exe") argv), (mem (lit "--all-platforms") argv),
    (mem (lit "--prepare-release") argv), (mem (lit "--test") argv),
    (mem (lit "--test-pypi") argv), (mem (lit "--publish") argv);
    cbn [orb negb andb];
    repeat plan_step.
Qed.

Lemma history_within (P : Cmd -> Prop) (Q : exn -> Prop) {A} (m : M X A)
      (w : World X) (c : Cmd) :
  effects P Q m -> In c (history (snd (m w))) -> In c (history w) \/ P c.
Proof.
  intros H Hin. destruct (H w) as [(l & E & F) _].
  rewrite E in Hin. apply in_app_or in Hin as [Hin|Hin]; [|now left].
  right. rewrite Forall_forall in F. now apply F.
Qed.

Lemma main_history_within_plan (argv : list str) (w : World X) (c : Cmd) :
  In c (history (snd (BuildScript.main host argv w))) ->
  In c (history w) \/ In c (plan argv).
Proof. apply history_within with (1 := main_follows_its_plan argv). Qed.

(** A command that a run of [main] has started, and that was not started
    before, is a command of its plan. *)
Theorem main_starts_planned_commands (argv : list str) (w : World X)
        (c : Cmd) :
  In c (history (snd (BuildScript.main host argv w))) ->
  In c (history w) \/ In c (plan argv).
Proof. apply main_history_within_plan. Qed.

Lemma Cmd_eqb_refl (c : Cmd) : Cmd_eqb c c = true.
Proof.
  destruct c as [l|a]; simpl; [apply PyStr.eqb_refl|].
  now destruct (list_eq_dec (list_eq_dec N.eq_dec) a a).
Qed.

Lemma Cmd_eqb_eq (a b : Cmd) : Cmd_eqb a b = true -> a = b.
Proof.
  destruct a as [x|x], b as [y|y]; simpl; try discriminate.
  - intros H. apply PyStr.eqb_eq in H. now subst.
  - destruct (list_eq_dec (list_eq_dec N.eq_dec) x y); [now subst|discriminate].
Qed.

Lemma not_in_by_Cmd_eqb (c : Cmd) (l : list Cmd) :
  existsb (Cmd_eqb c) l = false -> ~ In c l.
Proof.
  intros H Hin. assert (existsb (Cmd_eqb c) l = true); [|congruence].
  apply existsb_exists. exists c. split; [assumption|apply Cmd_eqb_refl].
Qed.

Lemma in_by_Cmd_eqb (c : Cmd) (l : list Cmd) :
  existsb (Cmd_eqb c) l = true -> In c l.
Proof.
  intros H. apply existsb_exists in H as (x & Hx & E).
  apply Cmd_eqb_eq in E. now subst.
Qed.

(** No step but the publish step starts an upload. *)
Lemma steps_do_not_upload (test_pypi : bool) :
  ~ In (publish_command test_pypi)
       (check_commands ++ build_commands ++ test_commands host
                       ++ package_commands host).
Proof.
  apply not_in_by_Cmd_eqb.
  unfold test_commands, package_commands, pip_cmd, BuildScript.get_platform_info,
    path_str, is_windows.
  repeat match goal with
         | |- context [if PyStr.eqb ?a ?b then _ else _] =>
           destruct (PyStr.eqb a b)
         end;
    destruct test_pypi; vm_compute; reflexivity.
Qed.

(** The flags with which [main] reaches the publish step: none of those
    that end the run earlier. *)
Definition reaches_publish (argv : list str) : bool :=
  negb (flag "--clean" argv || flag "--build" argv || flag "--exe" argv
        || flag "--all-platforms" argv || flag "--prepare-release" argv
        || flag "--test" argv).

Lemma publish_command_inj (a b : bool) :
  publish_command a = publish_command b -> a = b.
Proof. destruct a, b; vm_compute; congruence. Qed.

Lemma upload_in_plan (argv : list str) (test_pypi : bool) :
  In (publish_command test_pypi) (plan argv) ->
  reaches_publish argv = true /\
  flag "--test-pypi" argv = test_pypi /\
  (test_pypi = false -> flag "--publish" argv = true).
Proof.
  pose proof (@steps_do_not_upload test_pypi) as Hno.
  rewrite !in_app_iff in Hno.
  unfold plan, reaches_publish.
  destruct (flag "--clean" argv), (flag "--build" argv),
    (flag "--exe" argv), (flag "--all-platforms" argv),
    (flag "--prepare-release" argv), (flag "--test" argv),
    (flag "--test-pypi" argv), (flag "--publish" argv);
    cbn [orb negb andb]; intros Hin;
    repeat (rewrite in_app_iff in Hin || cbn [In] in Hin);
    repeat match type of Hin with
           | _ \/ _ => destruct Hin as [Hin|Hin]
           end;
    try tauto;
    apply publish_command_inj in Hin; subst test_pypi;
    repeat split; try reflexivity; discriminate.
Qed.

(** [main] uploads to PyPI only when it is asked to: with [--publish],
    without [--test-pypi], and without any of the flags that end the run
    before the publish step. *)
Theorem production_upload_only_on_request (argv : list str) (w : World X) :
  In (publish_command false)
     (history (snd (BuildScript.main host argv w))) ->
  ~ In (publish_command false) (history w) ->
  flag "--publish" argv = true /\ flag "--test-pypi" argv = false /\
  reaches_publish argv = true.
Proof.
  intros Hin Hnew.
  apply main_history_within_plan in Hin as [Hin|Hin]; [contradiction|].
  apply upload_in_plan in Hin as (Hr & Ht & Hp). auto.
Qed.

(** [main] uploads to Test PyPI only with [--test-pypi], and without any
    of the flags that end the run before the publish step. *)
Theorem test_upload_only_on_request (argv : list str) (w : World X) :
  In (publish_command true)
     (history (snd (BuildScript.main host argv w))) ->
  ~ In (publish_command true) (history w) ->
  flag "--test-pypi" argv = true /\ reaches_publish argv = true.
Proof.
  intros Hin Hnew.
  apply main_history_within_plan in Hin as [Hin|Hin]; [contradiction|].
  apply upload_in_plan in Hin as (Hr & Ht & Hp). auto.
Qed.

(** The process ends with status 0 or with status 1. *)
Theorem exit_status_is_0_or_1 (argv : list str) (w : World X) :
  fst (BuildScript.run host argv w) = 0%Z \/
  fst (BuildScript.run host argv w) = 1%Z.
Proof.
  unfold BuildScript.run.
  pose proof (proj2 (main_follows_its_plan argv w)) as R.
  destruct (BuildScript.main host argv w) as [[[]|e] w']; cbn [fst] in *.
  - now left.
  - right. destruct (R e eq_refl) as [->|He]; [reflexivity|].
    now apply exit_status_ordinary.
Qed.

End BuildScriptPlan.

Lemma production_upload_only_on_request_witness :
  flag "--publish" [lit "build_script.py"; lit "--publish"] = true /\
  flag "--test-pypi" [lit "build_script.py"; lit "--publish"] = false /\
  reaches_publish [lit "build_script.py"; lit "--publish"] = true.
Proof.
  apply (@production_upload_only_on_request
           _ Hosts.linux [lit "build_script.py"; lit "--publish"] Hosts.w0).
  - apply in_by_Cmd_eqb. vm_compute. reflexivity.
  - simpl. tauto.
Defined.

Lemma test_upload_only_on_request_witness :
  flag "--test-pypi" [lit "build_script.py"; lit "--publish"; lit "--test-pypi"]
  = true /\
  reaches_publish [lit "build_script.py"; lit "--publish"; lit "--test-pypi"]
  = true.
Proof.
  apply (@test_upload_only_on_request
           _ Hosts.linux
           [lit "build_script.py"; lit "--publish"; lit "--test-pypi"]
           Hosts.w0).
  - apply in_by_Cmd_eqb. vm_compute. reflexivity.
  - simpl. tauto.
Defined.

Lemma main_starts_planned_commands_witness :
  In (Shell (lit "python -m build")) (history Hosts.w0) \/
  In (Shell (lit "python -m build"))
     (plan Hosts.linux [lit "build_script.py"; lit "--build"]).
Proof.
  apply (@main_starts_planned_commands
           _ Hosts.linux [lit "build_script.py"; lit "--build"] Hosts.w0).
  apply in_by_Cmd_eqb. vm_compute. reflexivity.
Defined.

(* ================================================================== *)
(** ** What the clean step leaves *)

Section CleanTree.

Import Fs.

Lemma assoc_del_entry_same (c : str) (es : list (str * node)) :
  assoc c (del_entry c es) = None.
Proof.
  induction es as [|[k v] r IH]; simpl; [reflexivity|].
  destruct (PyStr.eqb k c) eqn:E; simpl; [assumption|].
  now rewrite E.
Qed.



















End CleanTree.

Section CleanBuild.

Variable X : Type.
Variable host : Host X.













End CleanBuild.


(* ================================================================== *)
(** ** The run with --clean *)





(* ================================================================== *)
(** ** The requirement check *)

Section Requirements.

Variable X : Type.
Variable host : Host X.

(** The tool answers its probe, in the state [s], with status 0.  The
    probe keeps the output as bytes: what the tool writes does not
    matter. *)
Definition available (s : Fs.node * X) (tool : str) : bool :=
  match fst (spawn host (probe tool) s) with
  | Completed 0 _ _ | Undecodable 0 => true
  | _ => false
  end.

(** The probe of the tool, in the state [s], leaves the state as it is,
    and it runs or is not found: it does not fail in another way. *)
Definition probe_is_clean (s : Fs.node * X) (tool : str) : Prop :=
  snd (spawn host (probe tool) s) = s /\
  match fst (spawn host (probe tool) s) with
  | Failed Denied | Failed OtherFailure => False
  | _ => True
  end.

Lemma probe_tools_run (msg : str -> str) (s : Fs.node * X)
      (tools : list str) :
  (forall tool, In tool tools -> probe_is_clean s tool) ->
  forall w, (fs w, ext w) = s ->
  exists w',
    BuildScript.probe_tools host tools msg w
    = (Ret (filter (fun tool => negb (available s tool)) tools), w') /\
    (fs w', ext w') = s /\
    history w' = rev (map probe tools) ++ history w.
Proof.
  induction tools as [|tool rest IH]; intros Hclean w Hs.
  - exists w. now repeat split.
  - destruct (Hclean tool (or_introl eq_refl)) as [Hsame Hkind].
    assert (Hrest : forall t, In t rest -> probe_is_clean s t)
      by (intros t Ht; apply Hclean; now right).
    cbn [BuildScript.probe_tools filter map rev].
    unfold available at 1.
    unfold bind at 1, try_except at 1, bind at 1, subprocess_run at 1.
    fold (probe tool). rewrite Hs.
    destruct (spawn host (probe tool) s) as [[rc out err|rc|why] s'] eqn:E.
    + cbn [fst snd] in *. subst s'.
      destruct rc as [|p|p];
        cbn [andb negb Z.eqb is_CalledProcessError orb];
        unfold bind at 1, print at 1; cbn [fs ext printed history ret];
        match goal with
        | |- context [bind (BuildScript.probe_tools host rest msg) _ ?wx] =>
          destruct (IH Hrest wx) as (w' & E' & Hs' & Hh');
            [cbn [fs ext]; now destruct s|]
        end;
        rewrite (bind_ret_eq _ E'); exists w'; unfold ret;
        (repeat split; try assumption);
        rewrite Hh'; cbn [history]; now rewrite <- app_assoc.
    + cbn [fst snd] in *. subst s'.
      destruct rc as [|p|p];
        cbn [andb negb Z.eqb is_CalledProcessError orb];
        unfold bind at 1, print at 1; cbn [fs ext printed history ret];
        match goal with
        | |- context [bind (BuildScript.probe_tools host rest msg) _ ?wx] =>
          destruct (IH Hrest wx) as (w' & E' & Hs' & Hh');
            [cbn [fs ext]; now destruct s|]
        end;
        rewrite (bind_ret_eq _ E'); exists w'; unfold ret;
        (repeat split; try assumption);
        rewrite Hh'; cbn [history]; now rewrite <- app_assoc.
    + cbn [fst snd] in *. subst s'.
      destruct why; try contradiction.
      cbn [exn_of_launch is_CalledProcessError is_FileNotFoundError orb].
      unfold bind at 1, print at 1. cbn [fs ext printed history ret].
      match goal with
      | |- context [bind (BuildScript.probe_tools host rest msg) _ ?wx] =>
        destruct (IH Hrest wx) as (w' & E' & Hs' & Hh');
          [cbn [fs ext]; now destruct s|]
      end.
      rewrite (bind_ret_eq _ E'). exists w'. unfold ret. cbn [negb].
      repeat split; try assumption.
      rewrite Hh'. cbn [history]. now rewrite <- app_assoc.
Qed.

Definition required_tools : list str := [lit "python"; lit "pip"; lit "twine"].
Definition optional_tools : list str := [lit "pyinstaller"].

(** When the probes are clean, [check_requirements] probes the three
    required tools and the optional one, all of them and in this order,
    whatever is missing; it returns [True] exactly when the three required
    tools are available.  A missing [pyinstaller] does not make it
    fail. *)
Theorem check_requirements_probes_every_tool (w : World X) :
  (forall tool, In tool (required_tools ++ optional_tools) ->
                probe_is_clean (fs w, ext w) tool) ->
  exists w',
    BuildScript.check_requirements host w
    = (Ret (forallb (available (fs w, ext w)) required_tools), w') /\
    history w'
    = rev (map probe (required_tools ++ optional_tools)) ++ history w /\
    fs w' = fs w /\ ext w' = ext w.
Proof.
  intros Hclean. unfold BuildScript.check_requirements.
  rewrite bind_print.
  match goal with
  | |- context [bind (BuildScript.probe_tools host ?ts ?msg) _ ?wx] =>
    destruct (@probe_tools_run msg (fs w, ext w) ts) with (w := wx)
      as (w1 & E1 & S1 & H1);
      [intros t Ht; apply Hclean, in_or_app; now left|reflexivity|]
  end.
  rewrite (bind_ret_eq _ E1). cbv beta.
  match goal with
  | |- context [bind (BuildScript.probe_tools host ?ts ?msg) _ ?wx] =>
    destruct (@probe_tools_run msg (fs w, ext w) ts) with (w := wx)
      as (w2 & E2 & S2 & H2);
      [intros t Ht; apply Hclean, in_or_app; now right|exact S1|]
  end.
  rewrite (bind_ret_eq _ E2). cbv beta.
  injection S2 as F2 X2.
  assert (Hh : history w2
               = rev (map probe (required_tools ++ optional_tools))
                     ++ history w).
  { rewrite H2, H1. cbn [history]. rewrite map_app, rev_app_distr.
    now rewrite <- app_assoc. }
  fold required_tools.
  assert (Hres : forallb (available (fs w, ext w)) required_tools
                 = match filter (fun tool => negb (available (fs w, ext w) tool))
                                required_tools with
                   | [] => true
                   | _ => false
                   end).
  { generalize required_tools. induction l as [|t l IH]; [reflexivity|].
    cbn [forallb filter]. destruct (available (fs w, ext w) t); cbn [negb andb].
    - exact IH.
    - reflexivity. }
  rewrite Hres.
  destruct (filter (fun tool => negb (available (fs w, ext w) tool))
                   required_tools) as [|m ms].
  - destruct (filter _ [lit "pyinstaller"]);
      repeat (rewrite ?bind_assoc, ?bind_print, ?bind_ret; cbv beta);
      unfold ret; eexists; (split; [reflexivity|]);
      cbn [fs ext history]; auto.
  - repeat (rewrite ?bind_assoc, ?bind_print, ?bind_ret; cbv beta).
    unfold ret. eexists. split; [reflexivity|].
    cbn [fs ext history]. auto.
Qed.

End Requirements.

Lemma check_requirements_probes_every_tool_witness :
  exists w',
    BuildScript.check_requirements Hosts.linux Hosts.w0
    = (Ret (forallb (available Hosts.linux (fs Hosts.w0, ext Hosts.w0))
                    required_tools), w') /\
    history w'
    = rev (map probe (required_tools ++ optional_tools)) ++ history Hosts.w0 /\
    fs w' = fs Hosts.w0 /\ ext w' = ext Hosts.w0.
Proof.
  apply (@check_requirements_probes_every_tool _ Hosts.linux Hosts.w0).
  intros tool Hin. split.
  - simpl in Hin. decompose [or] Hin; subst; try contradiction; reflexivity.
  - simpl in Hin. decompose [or] Hin; subst; try contradiction; exact I.
Defined.

(* ================================================================== *)
(** ** The package steps *)

Section PackageSteps.

Variable X : Type.
Variable host : Host X.

(** The command ran, wrote output that is text, and exited with status
    0. *)
Definition succeeded (o : outcome) : bool :=
  match o with
  | Completed 0 _ _ => true
  | _ => false
  end.

(** The command ran and exited with status 0, whatever it wrote: what a
    call that keeps the output as bytes looks at. *)
Definition exited_ok (o : outcome) : bool :=
  match o with
  | Completed 0 _ _ | Undecodable 0 => true
  | _ => false
  end.

Lemma run_command_answer_true (o : outcome) :
  run_command_answer o = Ret true <-> succeeded o = true.
Proof.
  destruct o as [[|p|p] out err|rc|why]; cbn; split; congruence.
Qed.

(** The three ways [run_command] can end, by the outcome of its
    command. *)
Lemma run_command_answer_cases (o : outcome) :
  (succeeded o = true /\ run_command_answer o = Ret true) \/
  (succeeded o = false /\
   (run_command_answer o = Ret false \/
    exists e, run_command_answer o = Raise e)).
Proof.
  destruct o as [[|p|p] out err|rc|why]; cbn; eauto.
Qed.

(** The answer of a call with [check=True] that keeps the output as
    bytes, by the outcome of the command. *)
Definition check_answer (o : outcome) : res bool :=
  match o with
  | Completed rc _ _ | Undecodable rc => Ret (rc =? 0)%Z
  | Failed why => Raise (exn_of_launch why)
  end.

Lemma check_answer_cases (o : outcome) :
  (exited_ok o = true /\ check_answer o = Ret true) \/
  (exited_ok o = false /\
   (check_answer o = Ret false \/ exists e, check_answer o = Raise e)).
Proof.
  destruct o as [[|p|p] out err|[|p|p]|why]; cbn; eauto.
Qed.

Lemma run_command_answer_not_true (o : outcome) :
  succeeded o = false -> run_command_answer o <> Ret true.
Proof.
  intros H E. apply run_command_answer_true in E. congruence.
Qed.

Definition build_cmd : Cmd := Shell (lit "python -m build").
Definition check_cmd : Cmd := Shell (lit "twine check dist/*").

(** [build_package] starts [twine check dist/*] exactly when
    [python -m build] has written output that is text and exited with
    status 0: a failed build is not checked.  It returns [True] exactly
    when both commands did so. *)
Theorem build_package_outcome (w : World X) :
  let o1 := fst (spawn host build_cmd (fs w, ext w)) in
  let s1 := snd (spawn host build_cmd (fs w, ext w)) in
  let o2 := fst (spawn host check_cmd s1) in
  let r := BuildScript.build_package host w in
  history (snd r)
  = (if succeeded o1 then [check_cmd; build_cmd] else [build_cmd])
      ++ history w /\
  (fst r = Ret true <-> succeeded o1 = true /\ succeeded o2 = true).
Proof.
  cbv zeta. unfold BuildScript.build_package. rewrite bind_print.
  match goal with
  | |- context [bind (BuildScript.run_command host ?c ?d) _ ?wx] =>
    destruct (build_script_run_command_spec host c d wx)
      as (w1 & E1 & F1 & X1 & H1 & _)
  end.
  cbn [fs ext history] in *. fold build_cmd in *.
  destruct (spawn host build_cmd (fs w, ext w)) as [o1 s1] eqn:S1.
  cbn [fst snd] in *.
  destruct o1 as [rc out err|rc|why]; cbn [run_command_answer] in E1.
  - rewrite (bind_ret_eq _ E1). cbv beta.
    destruct rc as [|p|p]; cbn [Z.eqb negb succeeded].
    + match goal with
      | |- context [bind (BuildScript.run_command host ?c ?d) _ ?wx] =>
        destruct (build_script_run_command_spec host c d wx)
          as (w2 & E2 & F2 & X2 & H2 & _)
      end.
      fold check_cmd in *.
      assert (Es : (fs w1, ext w1) = s1) by (destruct s1; cbn in *; congruence).
      rewrite Es in *.
      destruct (spawn host check_cmd s1) as [o2 s2] eqn:S2.
      cbn [fst snd] in *.
      destruct o2 as [rc2 out2 err2|rc2|why2]; cbn [run_command_answer] in E2.
      * rewrite (bind_ret_eq _ E2). cbv beta.
        destruct rc2 as [|p|p]; cbn [Z.eqb negb succeeded ret fst snd];
          (split; [now rewrite H2, H1|]); split; try tauto;
            try discriminate; intros [_ ?]; discriminate.
      * rewrite (bind_raise_eq _ E2). cbn [fst snd succeeded].
        split; [now rewrite H2, H1|]. split; [discriminate|].
        intros [_ ?]; discriminate.
      * rewrite (bind_raise_eq _ E2). cbn [fst snd succeeded].
        split; [now rewrite H2, H1|]. split; [discriminate|].
        intros [_ ?]; discriminate.
    + cbn [ret fst snd]. split; [exact H1|].
      split; [discriminate|]. intros [? _]; discriminate.
    + cbn [ret fst snd]. split; [exact H1|].
      split; [discriminate|]. intros [? _]; discriminate.
  - rewrite (bind_raise_eq _ E1). cbn [fst snd succeeded].
    split; [exact H1|]. split; [discriminate|]. intros [? _]; discriminate.
  - rewrite (bind_raise_eq _ E1). cbn [fst snd succeeded].
    split; [exact H1|]. split; [discriminate|]. intros [? _]; discriminate.
Qed.

(** *** The test installation *)

Definition test_dir : Fs.path := [lit "test_install"].

Lemma exists_remove_same (c : str) (n : Fs.node) :
  Fs.exists_ [c] (Fs.remove [c] n) = false.
Proof.
  unfold Fs.exists_. destruct n as [d|es]; cbn [Fs.remove Fs.lookup].
  - reflexivity.
  - now rewrite assoc_del_entry_same.
Qed.

Lemma try_finally_cleanup {A} (m : M X A) (c : str) (w w' : World X) (a : A) :
  try_finally m (e <- path_exists [c] ;; when e do rmtree host [c]) w
  = (Ret a, w') ->
  Fs.exists_ [c] (fs w') = false.
Proof.
  unfold try_finally. destruct (m w) as [r w1].
  unfold bind at 1, path_exists at 1.
  destruct (Fs.exists_ [c] (fs w1)) eqn:E.
  - unfold rmtree, set_fs.
    destruct (Fs.lookup [c] (fs w1)) as [[d|es]|]; try (destruct r; discriminate).
    destruct (refused host RemoveTree [c] (fs w1, ext w1));
      [destruct r; discriminate|].
    destruct r; try discriminate.
    intros [= _ <-]. cbn [fs]. apply exists_remove_same.
  - unfold ret. intros [= _ <-]. exact E.
Qed.

(** When [test_package] returns, with either answer, the directory
    [test_install] that it works in is gone. *)
Theorem test_package_leaves_no_test_dir (w : World X) (b : bool) :
  fst (BuildScript.test_package host w) = Ret b ->
  Fs.exists_ test_dir (fs (snd (BuildScript.test_package host w))) = false.
Proof.
  destruct (BuildScript.test_package host w) as [r w'] eqn:E.
  cbn [fst snd]. intros ->.
  unfold BuildScript.test_package in E.
  apply bind_inv in E. destruct E as (u0 & w0 & _ & E).
  apply bind_inv in E. destruct E as (e & w1 & _ & E).
  apply bind_inv in E. destruct E as (u1 & w2 & _ & E).
  apply bind_inv in E. destruct E as (u2 & w3 & _ & E).
  now apply try_finally_cleanup in E.
Qed.

End PackageSteps.

Lemma test_package_leaves_no_test_dir_witness :
  Fs.exists_ test_dir
    (fs (snd (BuildScript.test_package Hosts.linux Hosts.w0))) = false.
Proof.
  apply (@test_package_leaves_no_test_dir _ Hosts.linux Hosts.w0 true).
  vm_compute. reflexivity.
Defined.

(* ================================================================== *)
(** ** What a built executable means *)

Section Keeps.

Variable X : Type.

(** A computation keeps the world when, however it ends, the tree, the
    rest of the world and the commands started are what they were: it may
    only print. *)
Definition keeps {A} (m : M X A) : Prop :=
  forall w r w',
    m w = (r, w') ->
    fs w' = fs w /\ ext w' = ext w /\ history w' = history w.

Lemma keeps_ret {A} (a : A) : keeps (ret a).
Proof. intros w r w' [= _ <-]. now repeat split. Qed.

Lemma keeps_print (s : str) : keeps (print s).
Proof. intros w r w' [= _ <-]. now repeat split. Qed.

Lemma keeps_path_exists (p : Fs.path) : keeps (path_exists p).
Proof. intros w r w' [= _ <-]. now repeat split. Qed.

Lemma keeps_iterdir (p : Fs.path) : keeps (iterdir p).
Proof.
  intros w r w'. unfold iterdir.
  destruct (Fs.lookup p (fs w)) as [[d|es]|]; intros [= _ <-];
    now repeat split.
Qed.

Lemma keeps_bind {A B} (m : M X A) (k : A -> M X B) :
  keeps m -> (forall a, keeps (k a)) -> keeps (bind m k).
Proof.
  intros Hm Hk w r w'. unfold bind.
  destruct (m w) as [[a|e] w1] eqn:E1.
  - intros E2. destruct (Hm _ _ _ E1) as (F1 & X1 & H1).
    destruct (Hk a _ _ _ E2) as (F2 & X2 & H2).
    repeat split; congruence.
  - intros [= _ <-]. exact (Hm _ _ _ E1).
Qed.

Lemma keeps_for_each {A} (xs : list A) (body : A -> M X unit) :
  (forall x, keeps (body x)) -> keeps (for_each xs body).
Proof.
  intros Hb. induction xs as [|x xs IH]; cbn [for_each].
  - apply keeps_ret.
  - apply keeps_bind; [apply Hb|intros _; exact IH].
Qed.

Lemma keeps_if {A} (b : bool) (m1 m2 : M X A) :
  keeps m1 -> keeps m2 -> keeps (if b then m1 else m2).
Proof. now destruct b. Qed.

(** A step that keeps the world, followed by [k]: when the whole returns,
    [k] has returned from a world with the same tree, rest and history. *)
Lemma bind_keeps_inv {A B} (m : M X A) (k : A -> M X B) (w w' : World X)
      (b : B) :
  keeps m ->
  bind m k w = (Ret b, w') ->
  exists a w1,
    m w = (Ret a, w1) /\ k a w1 = (Ret b, w') /\
    fs w1 = fs w /\ ext w1 = ext w /\ history w1 = history w.
Proof.
  intros Hm. unfold bind. destruct (m w) as [[a|e] w1] eqn:E1;
    [|discriminate].
  intros E2. exists a, w1. destruct (Hm _ _ _ E1) as (F1 & X1 & H1).
  now repeat split.
Qed.

End Keeps.

Section Built.

Variable X : Type.
Variable host : Host X.

Definition pyinstaller_probe : Cmd := probe (lit "pyinstaller").

(** The probe of PyInstaller in [build_executable], with the message [msg]
    of its handler: it answers [True] only when the probe exited with
    status 0. *)
Lemma pyinstaller_probe_found (msg : str) (w w1 : World X) :
  try_except
    (subprocess_run host pyinstaller_probe true false None ;; ret true)
    (fun e => is_CalledProcessError e || is_FileNotFoundError e)
    (fun _ => print msg ;; ret false) w
  = (Ret true, w1) ->
  exited_ok (fst (spawn host pyinstaller_probe (fs w, ext w))) = true /\
  (fs w1, ext w1) = snd (spawn host pyinstaller_probe (fs w, ext w)) /\
  history w1 = pyinstaller_probe :: history w.
Proof.
  unfold try_except, bind, subprocess_run.
  destruct (spawn host pyinstaller_probe (fs w, ext w))
    as [[rc out err|rc|why] [n1 x1]].
  - destruct rc as [|p|p]; cbn [andb negb Z.eqb fst snd exited_ok].
    + unfold ret. intros [= <-]. now repeat split.
    + cbn [is_CalledProcessError orb]. unfold print, ret. discriminate.
    + cbn [is_CalledProcessError orb]. unfold print, ret. discriminate.
  - destruct rc as [|p|p]; cbn [andb negb Z.eqb fst snd exited_ok].
    + unfold ret. intros [= <-]. now repeat split.
    + cbn [is_CalledProcessError orb]. unfold print, ret. discriminate.
    + cbn [is_CalledProcessError orb]. unfold print, ret. discriminate.
  - destruct why;
      cbn [exn_of_launch is_CalledProcessError is_FileNotFoundError orb];
      unfold print, ret; discriminate.
Qed.

(** [build_executable] returns [True] only when the probe of PyInstaller
    exited with status 0, the packager command, started in the state the
    probe left, wrote output that is text and exited with status 0, and
    the executable exists in the tree the packager left. *)
Theorem build_executable_true_means_packaged (w : World X) :
  fst (BuildScript.build_executable host w) = Ret true ->
  let s1 := snd (spawn host pyinstaller_probe (fs w, ext w)) in
  let s2 := snd (spawn host (packager_command host (fst s1)) s1) in
  exited_ok (fst (spawn host pyinstaller_probe (fs w, ext w))) = true /\
  succeeded (fst (spawn host (packager_command host (fst s1)) s1)) = true /\
  Fs.exists_ (exe_path host) (fst s2) = true.
Proof.
  cbv zeta.
  destruct (BuildScript.build_executable host w) as [r w'] eqn:E.
  cbn [fst]. intros ->.
  unfold BuildScript.build_executable in E.
  unfold exe_path, packager_command, spec_file_in.
  destruct (BuildScript.get_platform_info host) as [platform_name suffix].
  cbn [fst snd].
  apply bind_keeps_inv in E; [|apply keeps_print].
  destruct E as (u0 & w0 & _ & E & F0 & X0 & H0).
  apply bind_keeps_inv in E; [|apply keeps_print].
  destruct E as (u1 & w1 & _ & E & F1 & X1 & H1).
  apply bind_inv in E. destruct E as (found & w2 & Eprobe & E).
  destruct found; cbn [negb] in E; [|unfold ret in E; discriminate E].
  fold pyinstaller_probe in Eprobe.
  apply pyinstaller_probe_found in Eprobe.
  destruct Eprobe as (Hprobe & S2 & H2).
  assert (Sw : (fs w1, ext w1) = (fs w, ext w)) by congruence.
  rewrite Sw in *. clear Sw.
  split; [exact Hprobe|].
  destruct (spawn host pyinstaller_probe (fs w, ext w)) as [o1 [n1 x1]].
  cbn [fst snd] in *. injection S2 as F2 X2.
  apply bind_keeps_inv in E; [|apply keeps_path_exists].
  destruct E as (has_spec & w3 & Espec & E & F3 & X3 & H3).
  injection Espec as Espec _. rewrite F2 in Espec.
  apply bind_keeps_inv in E; [|apply keeps_if; apply keeps_print].
  destruct E as (u4 & w4 & _ & E & F4 & X4 & H4).
  apply bind_inv in E. destruct E as (ok & w5 & Erun & E).
  destruct ok; cbn [negb] in E; [|unfold ret in E; discriminate E].
  match type of Erun with
  | BuildScript.run_command host ?c ?d ?wx = _ =>
    destruct (build_script_run_command_spec host c d wx)
      as (w5' & Erun' & F5 & X5 & _)
  end.
  rewrite Erun in Erun'. injection Erun' as Eans <-.
  assert (S4 : (fs w4, ext w4) = (n1, x1)) by congruence.
  rewrite S4 in *. clear S4. rewrite <- Espec in *.
  symmetry in Eans. apply run_command_answer_true in Eans.
  split; [exact Eans|].
  destruct (spawn host _ (n1, x1)) as [o2 [n2 x2]].
  cbn [fst snd] in *.
  apply bind_keeps_inv in E; [|apply keeps_print].
  destruct E as (u6 & w6 & _ & E & F6 & X6 & H6).
  apply bind_keeps_inv in E; [|apply keeps_path_exists].
  destruct E as (has_dist & w7 & _ & E & F7 & X7 & H7).
  apply bind_keeps_inv in E;
    [|apply keeps_if;
      [apply keeps_bind; [apply keeps_iterdir|];
       intros names; apply keeps_for_each; intros name
      |]; apply keeps_print].
  destruct E as (u8 & w8 & _ & E & F8 & X8 & H8).
  apply bind_keeps_inv in E; [|apply keeps_print].
  destruct E as (u9 & w9 & _ & E & F9 & X9 & H9).
  apply bind_keeps_inv in E; [|apply keeps_path_exists].
  destruct E as (created & w10 & Ecreated & E & F10 & X10 & H10).
  injection Ecreated as Ecreated _.
  destruct created.
  - rewrite <- Ecreated. f_equal. congruence.
  - apply bind_inv in E. destruct E as (u11 & w11 & _ & E).
    unfold ret in E. discriminate E.
Qed.

End Built.

Lemma build_executable_true_means_packaged_witness :
  exited_ok (fst (spawn Hosts.linux pyinstaller_probe
                        (fs Hosts.w0, ext Hosts.w0))) = true /\
  succeeded
    (fst (spawn Hosts.linux
                (packager_command Hosts.linux
                   (fst (snd (spawn Hosts.linux pyinstaller_probe
                                    (fs Hosts.w0, ext Hosts.w0)))))
                (snd (spawn Hosts.linux pyinstaller_probe
                            (fs Hosts.w0, ext Hosts.w0))))) = true /\
  Fs.exists_ (exe_path Hosts.linux)
    (fst (snd (spawn Hosts.linux
                (packager_command Hosts.linux
                   (fst (snd (spawn Hosts.linux pyinstaller_probe
                                    (fs Hosts.w0, ext Hosts.w0)))))
                (snd (spawn Hosts.linux pyinstaller_probe
                            (fs Hosts.w0, ext Hosts.w0)))))) = true.
Proof.
  apply (@build_executable_true_means_packaged _ Hosts.linux Hosts.w0).
  vm_compute. reflexivity.
Defined.

(** Without PyInstaller, that is when its probe exits with a status that
    is not zero, whatever it writes, or the program is not found,
    [build_executable] returns [False] and has started the probe only:
    the packager is not run. *)
Theorem build_executable_without_pyinstaller
        (X : Type) (host : Host X) (w : World X) :
  (match fst (spawn host pyinstaller_probe (fs w, ext w)) with
   | Completed rc _ _ => rc <> 0%Z
   | Undecodable rc => rc <> 0%Z
   | Failed why => why = NoSuchFile
   end) ->
  exists w',
    BuildScript.build_executable host w = (Ret false, w') /\
    history w' = pyinstaller_probe :: history w /\
    (fs w', ext w') = snd (spawn host pyinstaller_probe (fs w, ext w)) /\
    hd [] (printed w')
    = lit "[ERROR] PyInstaller not found. Install it with: pip install pyinstaller".
Proof.
  intros H. unfold BuildScript.build_executable.
  destruct (BuildScript.get_platform_info host) as [platform_name suffix].
  rewrite !bind_print.
  unfold bind at 1, try_except at 1, bind at 1, subprocess_run at 1.
  cbn [fs ext printed history]. fold pyinstaller_probe.
  unfold pyinstaller_probe, probe in *.
  destruct (spawn host (Argv [lit "pyinstaller"; lit "--version"])
                  (fs w, ext w)) as [[rc out err|rc|why] [n1 x1]];
    cbn [fst snd] in *.
  - destruct rc as [|p|p]; [contradiction| |];
      cbn [andb negb Z.eqb is_CalledProcessError orb];
      unfold bind, print, ret; cbn [negb fs ext printed history];
      eexists; repeat split.
  - destruct rc as [|p|p]; [contradiction| |];
      cbn [andb negb Z.eqb is_CalledProcessError orb];
      unfold bind, print, ret; cbn [negb fs ext printed history];
      eexists; repeat split.
  - subst why.
    cbn [exn_of_launch is_CalledProcessError is_FileNotFoundError orb].
    unfold bind, print, ret; cbn [negb fs ext printed history].
    eexists; repeat split.
Qed.

Lemma build_executable_without_pyinstaller_witness :
  exists w',
    BuildScript.build_executable Hosts.no_shell Hosts.w0 = (Ret false, w') /\
    history w' = pyinstaller_probe :: history Hosts.w0 /\
    (fs w', ext w')
    = snd (spawn Hosts.no_shell pyinstaller_probe
                 (fs Hosts.w0, ext Hosts.w0)) /\
    hd [] (printed w')
    = lit "[ERROR] PyInstaller not found. Install it with: pip install pyinstaller".
Proof.
  apply (@build_executable_without_pyinstaller _ Hosts.no_shell Hosts.w0).
  reflexivity.
Defined.

(* ================================================================== *)
(** ** Steps that stay on the machine *)

Section Offline.

Variable X : Type.
Variable host : Host X.

(** A computation is offline when, however it ends, it has started no
    command and has left the world outside the tree as it was. *)
Definition offline {A} (m : M X A) : Prop :=
  forall w, history (snd (m w)) = history w /\ ext (snd (m w)) = ext w.

Lemma offline_ret {A} (a : A) : offline (ret a).
Proof. now intros w. Qed.

Lemma offline_print (s : str) : offline (print s).
Proof. now intros w. Qed.

Lemma offline_path_exists (p : Fs.path) : offline (path_exists p).
Proof. now intros w. Qed.

Lemma offline_get_fs : offline (get_fs (X := X)).
Proof. now intros w. Qed.

Lemma offline_st_size (p : Fs.path) : offline (st_size host p).
Proof.
  intros w. unfold st_size.
  now destruct (Fs.lookup p (fs w)) as [[d|es]|].
Qed.

Lemma offline_read_file (p : Fs.path) : offline (read_file host p).
Proof.
  intros w. unfold read_file.
  destruct (Fs.lookup p (fs w)) as [[d|es]|];
    try destruct (refused host OpenRead p (fs w, ext w)); now cbn.
Qed.

Lemma offline_write_file (p : Fs.path) (d : list N) :
  offline (write_file host p d).
Proof.
  intros w. unfold write_file, set_fs.
  destruct (Fs.lookup p (fs w)) as [[d'|es]|];
    try destruct (Fs.put p (Fs.File d) (fs w));
    try destruct (refused host OpenWrite p (fs w, ext w)); now cbn.
Qed.

Lemma offline_mkdir (p : Fs.path) (exist_ok : bool) :
  offline (mkdir host p exist_ok).
Proof.
  intros w. unfold mkdir, set_fs.
  destruct (Fs.lookup p (fs w)) as [[d'|es]|];
    try destruct exist_ok;
    try destruct (Fs.put p (Fs.Dir []) (fs w));
    try destruct (refused host MakeDir p (fs w, ext w)); now cbn.
Qed.

Lemma offline_open_w (p : Fs.path) : offline (open_w host p).
Proof. apply offline_write_file. Qed.

Lemma offline_put_text (p : Fs.path) (s : str) : offline (put_text host p s).
Proof.
  intros w. unfold put_text, set_fs, raise.
  destruct (to_bytes host s) as [d|]; [|now cbn].
  destruct (Fs.put p (Fs.File d) (fs w)); now cbn.
Qed.

Lemma offline_bind {A B} (m : M X A) (k : A -> M X B) :
  offline m -> (forall a, offline (k a)) -> offline (bind m k).
Proof.
  intros Hm Hk w. unfold bind. destruct (Hm w) as [H1 X1].
  destruct (m w) as [[a|e] w1]; cbn [snd] in *.
  - destruct (Hk a w1) as [H2 X2]. split; congruence.
  - now split.
Qed.

Lemma offline_try_except {A} (m : M X A) (catches : exn -> bool)
      (handler : exn -> M X A) :
  offline m -> (forall e, offline (handler e)) ->
  offline (try_except m catches handler).
Proof.
  intros Hm Hh w. unfold try_except. destruct (Hm w) as [H1 X1].
  destruct (m w) as [[a|e] w1]; cbn [snd] in *.
  - now split.
  - destruct (catches e); [|now split].
    destruct (Hh e w1) as [H2 X2]. split; congruence.
Qed.

Lemma offline_copy2 (src dst : Fs.path) : offline (copy2 host src dst).
Proof.
  unfold copy2. apply offline_bind; [apply offline_read_file|intros d].
  apply offline_bind; [apply offline_get_fs|intros n].
  apply offline_write_file.
Qed.

Lemma offline_read_text (p : Fs.path) : offline (read_text host p).
Proof.
  unfold read_text. apply offline_bind; [apply offline_read_file|intros d].
  destruct (text_of host d); now intros w.
Qed.

Lemma offline_if {A} (b : bool) (m1 m2 : M X A) :
  offline m1 -> offline m2 -> offline (if b then m1 else m2).
Proof. now destruct b. Qed.

Ltac offline_step :=
  lazymatch goal with
  | |- offline (bind _ _) => apply offline_bind; [|intros ?]
  | |- offline (try_except _ _ _) => apply offline_try_except; [|intros ?]
  | |- offline (if _ then _ else _) => apply offline_if
  | |- offline (print _) => apply offline_print
  | |- offline (ret _) => apply offline_ret
  | |- offline (mkdir _ _ _) => apply offline_mkdir
  | |- offline (copy2 _ _ _) => apply offline_copy2
  | |- offline (st_size _ _) => apply offline_st_size
  | |- offline (read_file _ _) => apply offline_read_file
  | |- offline (read_text _ _) => apply offline_read_text
  | |- offline (write_file _ _ _) => apply offline_write_file
  | |- offline (open_w _ _) => apply offline_open_w
  | |- offline (put_text _ _ _) => apply offline_put_text
  | |- offline (path_exists _) => apply offline_path_exists
  end.

Lemma offline_seal_release_assets (platform_name suffix : str) :
  offline (BuildScript.seal_release_assets host platform_name suffix).
Proof.
  unfold BuildScript.seal_release_assets. repeat offline_step.
Qed.

(** With the executable in place, [prepare_release_assets] works on the
    tree only: it builds nothing and starts no command, and it leaves the
    world outside the tree as it was. *)
Theorem prepare_with_executable_is_offline (w : World X) :
  Fs.exists_ (exe_path host) (fs w) = true ->
  history (snd (BuildScript.prepare_release_assets host w)) = history w /\
  ext (snd (BuildScript.prepare_release_assets host w)) = ext w.
Proof.
  unfold exe_path, BuildScript.prepare_release_assets. intros H.
  destruct (BuildScript.get_platform_info host) as [platform_name suffix].
  cbn [snd] in H.
  rewrite bind_print, bind_path_exists. cbn [fs]. rewrite H. cbn [negb].
  rewrite bind_ret. cbn [negb].
  match goal with
  | |- context [BuildScript.seal_release_assets host ?a ?b ?wx] =>
    exact (offline_seal_release_assets a b wx)
  end.
Qed.

End Offline.

(** [publish_package] starts one command, the upload to the repository
    that its argument selects, and returns [True] exactly when the upload
    wrote output that is text and exited with status 0. *)
Theorem publish_package_outcome
        (X : Type) (host : Host X) (test_pypi : bool) (w : World X) :
  let r := BuildScript.publish_package host test_pypi w in
  history (snd r) = publish_command test_pypi :: history w /\
  (fst r = Ret true <->
   succeeded (fst (spawn host (publish_command test_pypi) (fs w, ext w)))
   = true).
Proof.
  cbv zeta. unfold BuildScript.publish_package, publish_command.
  rewrite bind_print.
  assert (Hp : forall A (k : unit -> M X A) wx,
             exists line,
               bind (if test_pypi
                     then print (lit "  Publishing to Test PyPI...")
                     else print (lit "  Publishing to PyPI...")) k wx
               = k tt (mkWorld (fs wx) (ext wx) (line :: printed wx)
                               (history wx)))
    by (intros; destruct test_pypi; eexists; reflexivity).
  match goal with
  | |- context [bind _ ?k ?wx] => destruct (Hp _ k wx) as (line & ->)
  end.
  match goal with
  | |- context [bind (BuildScript.run_command host ?c ?d) _ ?wx] =>
    destruct (build_script_run_command_spec host c d wx)
      as (w1 & E1 & F1 & X1 & H1 & _)
  end.
  cbn [fs ext history] in *.
  destruct (spawn host _ (fs w, ext w)) as [[rc out err|rc|why] s1];
    cbn [fst snd run_command_answer] in *.
  - rewrite (bind_ret_eq _ E1).
    destruct rc as [|p|p]; cbn [Z.eqb negb succeeded];
      rewrite ?bind_print; unfold ret; cbn [fst snd history];
      (split; [exact H1|]); split; congruence.
  - rewrite (bind_raise_eq _ E1). cbn [fst snd succeeded].
    split; [exact H1|]. split; congruence.
  - rewrite (bind_raise_eq _ E1). cbn [fst snd succeeded].
    split; [exact H1|]. split; congruence.
Qed.

(** A checkout in which the executable has been built. *)
Definition packaged_checkout : World (list str) :=
  mkWorld (Hosts.install (lit "dist") (lit "gridapi") (lit "binary")
                         (fs Hosts.w0))
          (ext Hosts.w0) [] [].

Lemma prepare_with_executable_is_offline_witness :
  history (snd (BuildScript.prepare_release_assets Hosts.linux
                                                   packaged_checkout))
  = history packaged_checkout /\
  ext (snd (BuildScript.prepare_release_assets Hosts.linux packaged_checkout))
  = ext packaged_checkout.
Proof.
  apply (@prepare_with_executable_is_offline _ Hosts.linux packaged_checkout).
  vm_compute. reflexivity.
Defined.

(* ================================================================== *)
(** ** The commands of release_script.py *)

Section ReleaseEffects.

Variable X : Type.
Variable host : Host X.

Lemma effects_release_run_command (cmd description : str) :
  effects (fun c => c = Shell cmd) ordinary
          (ReleaseScript.run_command host cmd description).
Proof.
  unfold ReleaseScript.run_command. pose proof ordinary_Exception.
  repeat effects_step; reflexivity.
Qed.

Lemma effects_gh_check (cmd msg : str) :
  effects (fun c => c = Shell cmd) ordinary
          (ReleaseScript.gh_check host cmd msg).
Proof.
  unfold ReleaseScript.gh_check. pose proof ordinary_Exception.
  repeat effects_step; reflexivity.
Qed.

Lemma effects_find_version (lines : list str) :
  effects (fun _ => False) ordinary
          (ReleaseScript.find_version (X := X) lines).
Proof.
  pose proof ordinary_Exception.
  induction lines as [|line rest IH]; cbn [ReleaseScript.find_version].
  - effects_step.
  - destruct (ReleaseScript.is_version_line line); [|exact IH].
    destruct (nth_error (split eq_sign line) 1).
    + effects_step.
    + apply effects_raise. reflexivity.
Qed.

Lemma effects_get_current_version :
  effects (fun _ => False) ordinary
          (ReleaseScript.get_current_version host).
Proof.
  unfold ReleaseScript.get_current_version. pose proof ordinary_Exception.
  repeat lazymatch goal with
         | |- effects _ _ (ReleaseScript.find_version _) =>
           apply effects_find_version
         | _ => effects_step
         end.
Qed.

Lemma effects_update_version (version : str) :
  effects (fun _ => False) ordinary
          (ReleaseScript.update_version host version).
Proof.
  unfold ReleaseScript.update_version. pose proof ordinary_Exception.
  repeat effects_step.
Qed.

Lemma effects_create_release_notes (version : str) :
  effects (fun _ => False) ordinary
          (ReleaseScript.create_release_notes host version).
Proof.
  unfold ReleaseScript.create_release_notes. pose proof ordinary_Exception.
  repeat effects_step.
Qed.

End ReleaseEffects.

Ltac listed := solve [repeat first [left; reflexivity | right]].

Ltac release_step :=
  lazymatch goal with
  | |- effects _ _ (ReleaseScript.run_command _ _ _) =>
    eapply effects_weaken;
    [| |eapply effects_release_run_command];
    [cbv beta; intros ? ->|exact (fun e H => H)]
  | |- effects _ _ (ReleaseScript.gh_check _ _ _) =>
    eapply effects_weaken;
    [| |eapply effects_gh_check];
    [cbv beta; intros ? ->|exact (fun e H => H)]
  | _ => effects_step
  end.

Section ReleasePlan.

Variable X : Type.
Variable host : Host X.

(** The commands of [build_all_platforms]: the build of the executable
    through [build_script.py] and the test of the executable. *)
Definition exe_build_cmd : Cmd := Shell (lit "python build_script.py --exe").

Definition exe_test_cmd : Cmd :=
  Shell (if PyStr.eqb (lower (platform_system host)) (lit "windows")
         then lit "dist\" ++ lit "gridapi.exe" ++ lit " --help"
         else lit "./dist/" ++ lit "gridapi" ++ lit " --help").

Definition local_build_commands : list Cmd := [exe_build_cmd; exe_test_cmd].

(** The commands of [create_git_tag]. *)
Definition tag_list_cmd (version : str) : Cmd :=
  Shell (lit "git tag -l " ++ (lit "v" ++ version)).

Definition tag_create_cmd (version : str) : Cmd :=
  Shell (lit "git tag -a " ++ (lit "v" ++ version) ++ lit " -m 'Release "
             ++ (lit "v" ++ version) ++ lit "'").

Definition tag_push_cmd (version : str) : Cmd :=
  Shell (lit "git push origin " ++ (lit "v" ++ version)).

Definition tag_commands (version : str) : list Cmd :=
  [tag_list_cmd version; tag_create_cmd version; tag_push_cmd version].

(** The commands of [create_github_release]. *)
Definition gh_version_cmd : Cmd := Shell (lit "gh --version").
Definition gh_auth_cmd : Cmd := Shell (lit "gh auth status").

Definition gh_release_cmd (version : str) (draft : bool) : Cmd :=
  Shell (lit "gh release create " ++ (lit "v" ++ version) ++ lit " "
             ++ (if draft then lit "--draft" else [])
             ++ lit " --title 'GridAPI CLI " ++ (lit "v" ++ version)
             ++ lit "' --notes-file RELEASE_NOTES.md").

Definition github_commands (version : str) (draft : bool) : list Cmd :=
  [gh_version_cmd; gh_auth_cmd; gh_release_cmd version draft].

Definition gh_list_cmd : Cmd := Shell (lit "gh release list").

Lemma effects_release_build_all_platforms :
  effects (fun c => In c local_build_commands) ordinary
          (ReleaseScript.build_all_platforms host).
Proof.
  unfold ReleaseScript.build_all_platforms, local_build_commands,
    exe_build_cmd, exe_test_cmd.
  pose proof ordinary_Exception.
  destruct (PyStr.eqb (lower (platform_system host)) (lit "windows"));
    repeat release_step; listed.
Qed.

Lemma effects_create_git_tag (version : str) :
  effects (fun c => In c (tag_commands version)) ordinary
          (ReleaseScript.create_git_tag host version).
Proof.
  unfold ReleaseScript.create_git_tag, tag_commands, tag_list_cmd,
    tag_create_cmd, tag_push_cmd.
  pose proof ordinary_Exception.
  repeat release_step; listed.
Qed.

Lemma effects_create_github_release (version : str) (draft : bool) :
  effects (fun c => In c (github_commands version draft)) ordinary
          (ReleaseScript.create_github_release host version draft).
Proof.
  unfold ReleaseScript.create_github_release, github_commands,
    gh_version_cmd, gh_auth_cmd, gh_release_cmd.
  pose proof ordinary_Exception.
  repeat release_step; listed.
Qed.

Lemma effects_list_releases :
  effects (fun c => c = gh_list_cmd) ordinary
          (ReleaseScript.list_releases host).
Proof.
  unfold ReleaseScript.list_releases, gh_list_cmd.
  pose proof ordinary_Exception.
  repeat release_step; reflexivity.
Qed.

(** The version that a run works on: the argument of [--version], unless
    it is missing or empty. *)
Definition release_version (args : ReleaseScript.Args) : option str :=
  match ReleaseScript.arg_version args with
  | Some ((_ :: _) as version) => Some version
  | _ => None
  end.

(** The commands of the steps that [main] reaches with the arguments
    [args], in the order of the steps. *)
Definition release_plan (args : ReleaseScript.Args) : list Cmd :=
  if ReleaseScript.arg_list_releases args then [gh_list_cmd] else
  match release_version args with
  | None => []
  | Some version =>
    local_build_commands ++
    (if ReleaseScript.arg_build_only args then [] else
       (if ReleaseScript.arg_create_tag args
           || ReleaseScript.arg_create_release args
        then tag_commands version else []) ++
       (if ReleaseScript.arg_create_release args
        then github_commands version (ReleaseScript.arg_draft args)
        else []))
  end.

Ltac release_member :=
  cbv beta; intros ? ?;
  repeat (rewrite in_app_iff || cbn [In]); tauto.

Ltac release_plan_step :=
  lazymatch goal with
  | |- effects _ _ (ReleaseScript.update_version _ _) =>
    eapply effects_weaken; [| |apply effects_update_version];
    [cbv beta; intros ? []|exact (fun e H => H)]
  | |- effects _ _ (ReleaseScript.create_release_notes _ _) =>
    eapply effects_weaken; [| |apply effects_create_release_notes];
    [cbv beta; intros ? []|exact (fun e H => H)]
  | |- effects _ _ (ReleaseScript.get_current_version _) =>
    eapply effects_weaken; [| |apply effects_get_current_version];
    [cbv beta; intros ? []|exact (fun e H => H)]
  | |- effects _ _ (ReleaseScript.build_all_platforms _) =>
    eapply effects_weaken;
    [|exact (fun e H => H)|apply effects_release_build_all_platforms];
    release_member
  | |- effects _ _ (ReleaseScript.create_git_tag _ _) =>
    eapply effects_weaken;
    [|exact (fun e H => H)|apply effects_create_git_tag];
    release_member
  | |- effects _ _ (ReleaseScript.create_github_release _ _ _) =>
    eapply effects_weaken;
    [|exact (fun e H => H)|apply effects_create_github_release];
    release_member
  | |- effects _ _ (ReleaseScript.list_releases _) =>
    eapply effects_weaken;
    [|exact (fun e H => H)|apply effects_list_releases];
    cbv beta; intros ? ->; now left
  | _ => effects_step
  end.

(** Whatever the arguments and the host, [main] of [release_script.py],
    once the parser has returned the arguments, starts only commands of
    its plan, and it raises nothing but the error of a failure: it does
    not leave through [sys.exit]. *)
Theorem release_main_follows_its_plan (args : ReleaseScript.Args) :
  effects (fun c => In c (release_plan args)) ordinary
          (ReleaseScript.main_parsed host args).
Proof.
  unfold ReleaseScript.main_parsed, release_plan, release_version.
  pose proof ordinary_Exception as HQ.
  destruct args as [[[|c version]|] build_only create_release create_tag
                    list_releases draft];
    cbn [ReleaseScript.arg_version ReleaseScript.arg_build_only
         ReleaseScript.arg_create_release ReleaseScript.arg_create_tag
         ReleaseScript.arg_list_releases ReleaseScript.arg_draft];
    destruct list_releases, build_only, create_release, create_tag;
    cbn [orb negb andb];
    repeat release_plan_step.
Qed.

(** The parser of the command line. *)
Variable parse_args : list str -> ReleaseScript.parsed.

(** When the parser stops the run, for [--help] or for a command line
    that it does not accept, [main] prints what the parser prints and
    leaves through [sys.exit], with the code of the parser: the tree and
    the commands started are what they were. *)
Lemma release_main_stopped (argv : list str) (code : Z) (out : list str)
      (w : World X) :
  parse_args argv = ReleaseScript.Stopped code out ->
  exists lines,
    ReleaseScript.main host parse_args argv w
    = (Raise (SystemExit code),
       mkWorld (fs w) (ext w) (lines ++ printed w) (history w)).
Proof.
  intros E. unfold ReleaseScript.main. rewrite E.
  destruct (for_each_print out (fun line => line) w) as (lines & F).
  exists lines.
  assert (F' : for_each out print w
               = (Ret tt,
                  mkWorld (fs w) (ext w) (lines ++ printed w) (history w)))
    by exact F.
  unfold bind. now rewrite F'.
Qed.

Lemma release_history_within_plan
      (argv : list str) (w : World X) (c : Cmd) :
  In c (history (snd (ReleaseScript.main host parse_args argv w))) ->
  In c (history w) \/
  exists args,
    parse_args argv = ReleaseScript.Parsed args /\ In c (release_plan args).
Proof.
  destruct (parse_args argv) as [args|code out] eqn:E.
  - unfold ReleaseScript.main. rewrite E. intros Hin.
    apply history_within with (1 := release_main_follows_its_plan args)
      in Hin.
    destruct Hin as [Hin|Hin]; [now left|right]. now exists args.
  - destruct (release_main_stopped w E) as (lines & ->).
    cbn [snd history]. now left.
Qed.

(** A command that a run of [main] has started, and that was not started
    before, is a command of the plan of the arguments that the parser
    has returned; when the parser stops the run, no command is
    started. *)
Theorem release_main_starts_planned_commands
        (argv : list str) (w : World X) (c : Cmd) :
  In c (history (snd (ReleaseScript.main host parse_args argv w))) ->
  In c (history w) \/
  exists args,
    parse_args argv = ReleaseScript.Parsed args /\ In c (release_plan args).
Proof. apply release_history_within_plan. Qed.

End ReleasePlan.

Section ReleaseRequests.

Variable X : Type.
Variable host : Host X.
Variable parse_args : list str -> ReleaseScript.parsed.

(** The command pushes to the remote repository. *)
Definition is_push (c : Cmd) : bool :=
  match c with
  | Shell line => startswith (lit "git push") line
  | Argv _ => false
  end.

(** The command publishes a release on GitHub. *)
Definition is_release_create (c : Cmd) : bool :=
  match c with
  | Shell line => startswith (lit "gh release create") line
  | Argv _ => false
  end.

Lemma local_build_is_local (c : Cmd) :
  In c (local_build_commands host) ->
  is_push c = false /\ is_release_create c = false.
Proof.
  unfold local_build_commands, exe_build_cmd, exe_test_cmd.
  destruct (PyStr.eqb (lower (platform_system host)) (lit "windows"));
    cbn [In]; intros [<-|[<-|[]]]; now vm_compute.
Qed.

Lemma tag_commands_push (version : str) (c : Cmd) :
  In c (tag_commands version) ->
  is_release_create c = false /\
  (is_push c = true -> c = tag_push_cmd version).
Proof.
  unfold tag_commands, tag_list_cmd, tag_create_cmd, tag_push_cmd.
  cbn [In]. intros [<-|[<-|[<-|[]]]]; split;
    try (now vm_compute); try reflexivity; vm_compute; discriminate.
Qed.

Lemma github_commands_release (version : str) (draft : bool) (c : Cmd) :
  In c (github_commands version draft) ->
  is_push c = false /\
  (is_release_create c = true -> c = gh_release_cmd version draft).
Proof.
  unfold github_commands, gh_version_cmd, gh_auth_cmd, gh_release_cmd.
  cbn [In]. intros [<-|[<-|[<-|[]]]]; split;
    try (now vm_compute); try reflexivity; vm_compute; discriminate.
Qed.

(** [main] pushes to the remote repository only when it is asked for a
    tag or for a release: a push that a run has started, and that was not
    started before, is the push of the tag of the version given, and then
    the parser has returned arguments in which [--create-tag] or
    [--create-release] is given, and neither [--list-releases] nor
    [--build-only]. *)
Theorem release_pushes_only_on_request
        (argv : list str) (w : World X) (c : Cmd) :
  In c (history (snd (ReleaseScript.main host parse_args argv w))) ->
  is_push c = true ->
  In c (history w) \/
  exists args version,
    parse_args argv = ReleaseScript.Parsed args /\
    release_version args = Some version /\
    c = tag_push_cmd version /\
    ReleaseScript.arg_create_tag args || ReleaseScript.arg_create_release args
    = true /\
    ReleaseScript.arg_list_releases args = false /\
    ReleaseScript.arg_build_only args = false.
Proof.
  intros Hin Hpush.
  apply release_history_within_plan in Hin.
  destruct Hin as [Hin|(args & Hparse & Hin)]; [now left|right].
  exists args. cut (exists version,
    release_version args = Some version /\
    c = tag_push_cmd version /\
    ReleaseScript.arg_create_tag args || ReleaseScript.arg_create_release args
    = true /\
    ReleaseScript.arg_list_releases args = false /\
    ReleaseScript.arg_build_only args = false).
  { intros (version & H). exists version. now split. }
  unfold release_plan in Hin.
  destruct (ReleaseScript.arg_list_releases args).
  - destruct Hin as [<-|[]]. vm_compute in Hpush. discriminate.
  - destruct (release_version args) as [version|]; [|destruct Hin].
    exists version. apply in_app_or in Hin. destruct Hin as [Hin|Hin].
    + apply local_build_is_local in Hin. destruct Hin; congruence.
    + destruct (ReleaseScript.arg_build_only args); [destruct Hin|].
      apply in_app_or in Hin. destruct Hin as [Hin|Hin].
      * destruct (ReleaseScript.arg_create_tag args
                  || ReleaseScript.arg_create_release args);
          [|destruct Hin].
        apply tag_commands_push in Hin. destruct Hin as [_ Hc].
        now rewrite (Hc Hpush).
      * destruct (ReleaseScript.arg_create_release args); [|destruct Hin].
        apply github_commands_release in Hin. destruct Hin; congruence.
Qed.

(** [main] publishes a release on GitHub only with [--create-release]: a
    [gh release create] that a run has started, and that was not started
    before, is the one for the tag of the version given, a draft exactly
    when [--draft] is given, and then the parser has returned arguments
    in which [--create-release] is given and neither [--list-releases]
    nor [--build-only]. *)
Theorem release_created_only_on_request
        (argv : list str) (w : World X) (c : Cmd) :
  In c (history (snd (ReleaseScript.main host parse_args argv w))) ->
  is_release_create c = true ->
  In c (history w) \/
  exists args version,
    parse_args argv = ReleaseScript.Parsed args /\
    release_version args = Some version /\
    c = gh_release_cmd version (ReleaseScript.arg_draft args) /\
    ReleaseScript.arg_create_release args = true /\
    ReleaseScript.arg_list_releases args = false /\
    ReleaseScript.arg_build_only args = false.
Proof.
  intros Hin Hcreate.
  apply release_history_within_plan in Hin.
  destruct Hin as [Hin|(args & Hparse & Hin)]; [now left|right].
  exists args. cut (exists version,
    release_version args = Some version /\
    c = gh_release_cmd version (ReleaseScript.arg_draft args) /\
    ReleaseScript.arg_create_release args = true /\
    ReleaseScript.arg_list_releases args = false /\
    ReleaseScript.arg_build_only args = false).
  { intros (version & H). exists version. now split. }
  unfold release_plan in Hin.
  destruct (ReleaseScript.arg_list_releases args).
  - destruct Hin as [<-|[]]. vm_compute in Hcreate. discriminate.
  - destruct (release_version args) as [version|]; [|destruct Hin].
    exists version. apply in_app_or in Hin. destruct Hin as [Hin|Hin].
    + apply local_build_is_local in Hin. destruct Hin; congruence.
    + destruct (ReleaseScript.arg_build_only args); [destruct Hin|].
      apply in_app_or in Hin. destruct Hin as [Hin|Hin].
      * destruct (ReleaseScript.arg_create_tag args
                  || ReleaseScript.arg_create_release args);
          [|destruct Hin].
        apply tag_commands_push in Hin. destruct Hin; congruence.
      * destruct (ReleaseScript.arg_create_release args); [|destruct Hin].
        apply github_commands_release in Hin. destruct Hin as [_ Hc].
        now rewrite (Hc Hcreate).
Qed.

(** The status of the process.  When the parser stops the run, for
    [--help] or for a command line that it does not accept, the status
    is the code that the parser leaves with.  When the parser returns
    the arguments, the status is 0 when the rest of [main] returns
    [True] and 1 otherwise, whether it returns [False] or stops on an
    error. *)
Theorem release_exit_status (argv : list str) (w : World X) :
  fst (ReleaseScript.run host parse_args argv w)
  = match parse_args argv with
    | ReleaseScript.Stopped code _ => code
    | ReleaseScript.Parsed args =>
      match fst (ReleaseScript.main_parsed host args w) with
      | Ret true => 0%Z
      | _ => 1%Z
      end
    end.
Proof.
  unfold ReleaseScript.run.
  destruct (parse_args argv) as [args|code out] eqn:E.
  - unfold ReleaseScript.main. rewrite E.
    destruct (release_main_follows_its_plan host args w) as [_ Hraise].
    destruct (ReleaseScript.main_parsed host args w) as [[[|]|e] w'];
      cbn [fst]; try reflexivity.
    specialize (Hraise e eq_refl). unfold ordinary in Hraise.
    destruct e; cbn in *; try reflexivity; discriminate.
  - destruct (@release_main_stopped _ host parse_args argv code out w E)
      as (lines & ->).
    reflexivity.
Qed.

End ReleaseRequests.

(** The command line of [python release_script.py --version 1.2.0
    --create-release --draft], and what the parser makes of it. *)
Definition draft_release_argv : list str :=
  [lit "--version"; lit "1.2.0"; lit "--create-release"; lit "--draft"].

Definition draft_release_args : ReleaseScript.Args :=
  ReleaseScript.mkArgs (Some (lit "1.2.0")) false true false false true.

Example draft_release_parsed :
  Hosts.parse_args draft_release_argv = ReleaseScript.Parsed draft_release_args.
Proof. reflexivity. Qed.

Lemma release_main_starts_planned_commands_witness :
  In (tag_push_cmd (lit "1.2.0")) (history packaged_checkout) \/
  exists args,
    Hosts.parse_args draft_release_argv = ReleaseScript.Parsed args /\
    In (tag_push_cmd (lit "1.2.0")) (release_plan Hosts.linux args).
Proof.
  apply (@release_main_starts_planned_commands
           _ Hosts.linux Hosts.parse_args draft_release_argv
           packaged_checkout).
  vm_compute. listed.
Defined.

Lemma release_pushes_only_on_request_witness :
  In (tag_push_cmd (lit "1.2.0")) (history packaged_checkout) \/
  exists args version,
    Hosts.parse_args draft_release_argv = ReleaseScript.Parsed args /\
    release_version args = Some version /\
    tag_push_cmd (lit "1.2.0") = tag_push_cmd version /\
    ReleaseScript.arg_create_tag args
    || ReleaseScript.arg_create_release args = true /\
    ReleaseScript.arg_list_releases args = false /\
    ReleaseScript.arg_build_only args = false.
Proof.
  apply (@release_pushes_only_on_request
           _ Hosts.linux Hosts.parse_args draft_release_argv
           packaged_checkout).
  - vm_compute. listed.
  - vm_compute. reflexivity.
Defined.

Lemma release_created_only_on_request_witness :
  In (gh_release_cmd (lit "1.2.0") true) (history packaged_checkout) \/
  exists args version,
    Hosts.parse_args draft_release_argv = ReleaseScript.Parsed args /\
    release_version args = Some version /\
    gh_release_cmd (lit "1.2.0") true
    = gh_release_cmd version (ReleaseScript.arg_draft args) /\
    ReleaseScript.arg_create_release args = true /\
    ReleaseScript.arg_list_releases args = false /\
    ReleaseScript.arg_build_only args = false.
Proof.
  apply (@release_created_only_on_request
           _ Hosts.linux Hosts.parse_args draft_release_argv
           packaged_checkout).
  - vm_compute. listed.
  - vm_compute. reflexivity.
Defined.

Example help_stops_the_release_script :
  fst (ReleaseScript.run Hosts.linux Hosts.parse_args [lit "--help"] Hosts.w0)
  = 0%Z /\
  fst (ReleaseScript.run Hosts.linux Hosts.parse_args [lit "--publish"]
                         Hosts.w0)
  = 2%Z.
Proof. split; reflexivity. Qed.

(* ================================================================== *)
(** ** The version in the project file, continued *)

Section VersionFile.

Variable X : Type.
Variable host : Host X.
Variable parse_args : list str -> ReleaseScript.parsed.

Lemma find_version_keeps (lines : list str) (w : World X) :
  snd (ReleaseScript.find_version lines w) = w.
Proof.
  induction lines as [|l ls IH]; cbn [ReleaseScript.find_version];
    [reflexivity|].
  destruct (ReleaseScript.is_version_line l); [|exact IH].
  now destruct (nth_error (split eq_sign l) 1).
Qed.

(** [get_current_version] cannot fail and changes nothing: it returns a
    version from every state, and the default ["1.0.0"] when
    [pyproject.toml] is not a file that can be read. *)
Theorem get_current_version_never_fails (w : World X) :
  exists v,
    ReleaseScript.get_current_version host w = (Ret v, w) /\
    match Fs.lookup ReleaseScript.pyproject (fs w) with
    | Some (Fs.File _) => True
    | _ => v = lit "1.0.0"
    end.
Proof.
  unfold ReleaseScript.get_current_version, try_except, bind at 1.
  unfold bind at 1, read_text, bind at 1, read_file.
  destruct (Fs.lookup ReleaseScript.pyproject (fs w)) as [[d|es]|] eqn:E;
    [| eexists; split; reflexivity | eexists; split; reflexivity].
  destruct (refused host OpenRead ReleaseScript.pyproject (fs w, ext w))
    as [[|]|]; [eexists; split; [reflexivity|exact I]..|].
  destruct (text_of host d) as [content|];
    [|eexists; split; [reflexivity|exact I]].
  cbn [ret].
  pose proof (find_version_keeps (split nl content) w) as Hw.
  destruct (ReleaseScript.find_version (split nl content) w)
    as [[[v|]|e] w'] eqn:F; cbn [snd] in Hw; subst w'.
  - eexists; split; [reflexivity|exact I].
  - eexists; split; [reflexivity|exact I].
  - apply find_version_raises in F. subst e.
    eexists; split; [reflexivity|exact I].
Qed.

Lemma update_version_unreadable (version : str) (w : World X) :
  (forall content,
      Fs.lookup ReleaseScript.pyproject (fs w) <> Some (Fs.File content)) ->
  exists line,
    ReleaseScript.update_version host version w
    = (Ret false, mkWorld (fs w) (ext w) (line :: printed w) (history w)).
Proof.
  intros H.
  unfold ReleaseScript.update_version, try_except, bind at 1.
  unfold read_text, bind at 1, read_file.
  destruct (Fs.lookup ReleaseScript.pyproject (fs w)) as [[content|es]|];
    [now destruct (H content)| |];
    cbn [is_Exception]; rewrite bind_print; unfold ret; eauto.
Qed.

(** A release needs the project file: with a version and without a
    [pyproject.toml] that can be read, [main] returns [False] after
    [update_version], and it has started no command and has changed
    nothing in the tree. *)
Theorem release_needs_project_file
        (argv : list str) (args : ReleaseScript.Args) (version : str)
        (w : World X) :
  parse_args argv = ReleaseScript.Parsed args ->
  ReleaseScript.arg_list_releases args = false ->
  release_version args = Some version ->
  (forall content,
      Fs.lookup ReleaseScript.pyproject (fs w) <> Some (Fs.File content)) ->
  exists w',
    ReleaseScript.main host parse_args argv w = (Ret false, w') /\
    history w' = history w /\ fs w' = fs w /\ ext w' = ext w.
Proof.
  intros Hparse Hlist Hversion Hfile.
  unfold ReleaseScript.main. rewrite Hparse.
  unfold ReleaseScript.main_parsed, release_version in *. rewrite Hlist.
  destruct (ReleaseScript.arg_version args) as [[|c v]|]; try discriminate.
  rewrite !bind_print.
  match goal with
  | |- context [bind (ReleaseScript.update_version host ?v) _ ?wx] =>
    destruct (@update_version_unreadable v wx) as (line & E);
      [exact Hfile|]
  end.
  rewrite (bind_ret_eq _ E). cbn [negb]. unfold ret.
  eexists. split; [reflexivity|]. now repeat split.
Qed.

End VersionFile.


Section LastWrite.

Variable X : Type.
Variable host : Host X.

(** The line that [update_version] writes is a version line, whatever the
    version is. *)
Lemma version_line_is_version_line (version : str) :
  ReleaseScript.is_version_line (version_line version) = true.
Proof.
  unfold ReleaseScript.is_version_line, strip, strip_by.
  change (lstrip_by isspace (version_line version))
    with (version_line version).
  unfold version_line.
  replace (lit "version = " ++ [34%N] ++ version ++ [34%N])
    with ((lit "version = " ++ [34%N] ++ version) ++ [34%N])
    by (now rewrite <- !app_assoc).
  rewrite rstrip_by_keeps by reflexivity.
  reflexivity.
Qed.

Lemma replace_version_twice (v1 v2 : str) (lines : list str) :
  ReleaseScript.replace_version v2 (ReleaseScript.replace_version v1 lines)
  = ReleaseScript.replace_version v2 lines.
Proof.
  induction lines as [|l ls IH]; cbn [ReleaseScript.replace_version];
    [reflexivity|].
  destruct (ReleaseScript.is_version_line l) eqn:E;
    cbn [ReleaseScript.replace_version].
  - fold (version_line v1). now rewrite version_line_is_version_line.
  - now rewrite E, IH.
Qed.

Lemma replace_version_lines (version : str) (lines : list str) :
  ~ In nl version ->
  lines <> [] -> Forall (fun l => ~ In nl l) lines ->
  ReleaseScript.replace_version version lines <> [] /\
  Forall (fun l => ~ In nl l) (ReleaseScript.replace_version version lines).
Proof.
  intros Hv Hne Hall. split.
  - destruct lines as [|l ls]; [contradiction|].
    cbn [ReleaseScript.replace_version].
    destruct (ReleaseScript.is_version_line l); discriminate.
  - clear Hne. induction Hall as [|l ls Hl Hls IH];
      cbn [ReleaseScript.replace_version]; [constructor|].
    destruct (ReleaseScript.is_version_line l).
    + constructor; [|assumption]. fold (version_line version).
      unfold version_line. rewrite !in_app_iff.
      intros [H|[H|[H|H]]]; try contradiction.
      * vm_compute in H. intuition discriminate.
      * cbn in H. intuition discriminate.
      * cbn in H. intuition discriminate.
    + now constructor.
Qed.

(** [update_version] with a text that cannot be encoded: the project
    file has been opened for writing, and is left empty. *)
Lemma update_version_unencodable (version content : str) (d : list N)
      (w : World X) :
  Fs.lookup ReleaseScript.pyproject (fs w) = Some (Fs.File d) ->
  text_of host d = Some content ->
  refused host OpenRead ReleaseScript.pyproject (fs w, ext w) = None ->
  refused host OpenWrite ReleaseScript.pyproject (fs w, ext w) = None ->
  to_bytes host (join [nl] (ReleaseScript.replace_version
                              version (split nl content))) = None ->
  exists n' line,
    Fs.put ReleaseScript.pyproject (Fs.File []) (fs w) = Some n' /\
    ReleaseScript.update_version host version w
    = (Ret false, mkWorld n' (ext w) (line :: printed w) (history w)).
Proof.
  intros H T Rr Rw E.
  destruct (put_over_existing ReleaseScript.pyproject (Fs.File []) _ H)
    as [n' Hn'].
  exists n'. eexists. split; [assumption|].
  unfold ReleaseScript.update_version, try_except, bind at 1.
  rewrite (@read_text_found _ host w ReleaseScript.pyproject _ _ H Rr T).
  unfold bind at 1, write_text, bind at 1, open_w, write_file, put_text.
  rewrite H, Hn', Rw, E. unfold set_fs, raise. cbn [is_Exception].
  rewrite bind_print. reflexivity.
Qed.

(** The last write wins: after two updates of the version the project
    file, and the tree, are what the second update alone would have left.
    This holds when the project file is text that the script may open,
    the first version has no line end in it, and the text that the first
    update writes is stored as [d1] on the host: it can be encoded, and
    reads back as it was written. *)
Theorem update_version_last_write_wins
        (v1 v2 content : str) (d d1 : list N) (w : World X) :
  ~ In nl v1 ->
  Fs.lookup ReleaseScript.pyproject (fs w) = Some (Fs.File d) ->
  text_of host d = Some content ->
  accessible host ReleaseScript.pyproject (ext w) ->
  stored_text host d1
              (join [nl] (ReleaseScript.replace_version
                            v1 (split nl content))) ->
  fs (snd (ReleaseScript.update_version host v2
             (snd (ReleaseScript.update_version host v1 w))))
  = fs (snd (ReleaseScript.update_version host v2 w)).
Proof.
  intros Hv Hfile Htext Hacc [Hwrite Hread].
  destruct (update_version_run host v1 w Hfile Htext
                               (Hacc OpenRead (fs w)) (Hacc OpenWrite (fs w))
                               Hwrite) as (n1 & Hput1 & ->).
  cbn [snd].
  pose proof (lookup_put_same _ _ _ Hput1) as Hfile1.
  destruct (@replace_version_lines v1 (split nl content) Hv)
    as [Hne Hall];
    [apply split_nonempty|apply split_parts_no_sep|].
  assert (Hsame : ReleaseScript.replace_version
                    v2 (split nl (join [nl] (ReleaseScript.replace_version
                                               v1 (split nl content))))
                  = ReleaseScript.replace_version v2 (split nl content)).
  { rewrite (split_join nl Hne Hall). apply replace_version_twice. }
  destruct (to_bytes host (join [nl] (ReleaseScript.replace_version
                                        v2 (split nl content))))
    as [d2|] eqn:Hwrite2.
  - destruct (update_version_run host v2 w Hfile Htext
                                 (Hacc OpenRead (fs w))
                                 (Hacc OpenWrite (fs w)) Hwrite2)
      as (n2 & Hput2 & ->).
    match goal with
    | |- context [ReleaseScript.update_version host v2 ?w1] =>
      destruct (@update_version_run _ host v2 _ d1 d2 w1 Hfile1 Hread
                  (Hacc OpenRead n1) (Hacc OpenWrite n1))
        as (n3 & Hput3 & ->);
        [now rewrite Hsame|]
    end.
    cbn [snd fs] in *.
    rewrite (put_twice _ _ _ _ Hput1) in Hput3. congruence.
  - destruct (update_version_unencodable v2 w Hfile Htext
                (Hacc OpenRead (fs w)) (Hacc OpenWrite (fs w)) Hwrite2)
      as (n2 & line2 & Hput2 & ->).
    match goal with
    | |- context [ReleaseScript.update_version host v2 ?w1] =>
      destruct (@update_version_unencodable v2 _ d1 w1 Hfile1 Hread
                  (Hacc OpenRead n1) (Hacc OpenWrite n1))
        as (n3 & line3 & Hput3 & ->);
        [now rewrite Hsame|]
    end.
    cbn [snd fs] in *.
    rewrite (put_twice _ _ _ _ Hput1) in Hput3. congruence.
Qed.

End LastWrite.

Lemma release_needs_project_file_witness :
  exists w',
    ReleaseScript.main Hosts.linux Hosts.parse_args draft_release_argv
                       (mkWorld (Fs.Dir []) [] [] [])
    = (Ret false, w') /\
    history w' = [] /\ fs w' = Fs.Dir [] /\ ext w' = [].
Proof.
  apply (@release_needs_project_file
           _ Hosts.linux Hosts.parse_args draft_release_argv
           draft_release_args (lit "1.2.0")
           (mkWorld (Fs.Dir []) [] [] [])).
  - reflexivity.
  - reflexivity.
  - reflexivity.
  - intros content. discriminate.
Defined.

(** The project file of the example checkout after an update to 2.0.0. *)
Definition project_file_2 : str :=
  lit "[project]" ++ [nl] ++ lit "name = 'gridapi'" ++ [nl]
  ++ lit "version = " ++ [34%N] ++ lit "2.0.0" ++ [34%N] ++ [nl].

Lemma update_version_last_write_wins_witness :
  fs (snd (ReleaseScript.update_version Hosts.linux (lit "3.0.0")
             (snd (ReleaseScript.update_version Hosts.linux (lit "2.0.0")
                                                Hosts.w0))))
  = fs (snd (ReleaseScript.update_version Hosts.linux (lit "3.0.0")
                                          Hosts.w0)).
Proof.
  apply (@update_version_last_write_wins
           _ Hosts.linux (lit "2.0.0") (lit "3.0.0") Hosts.project_file
           Hosts.project_file project_file_2 Hosts.w0).
  - vm_compute. intuition discriminate.
  - reflexivity.
  - vm_compute. reflexivity.
  - intros op n. reflexivity.
  - split; vm_compute; reflexivity.
Defined.

(* ================================================================== *)
(** ** The steps of a release *)

Section ReleaseSteps.

Variable X : Type.
Variable host : Host X.

(** The answer of [gh_check] by the outcome of the command: the output
    stays bytes, and only the status counts. *)
Lemma gh_check_spec (cmd msg : str) (w : World X) :
  exists w',
    ReleaseScript.gh_check host cmd msg w
    = (check_answer (fst (spawn host (Shell cmd) (fs w, ext w))), w') /\
    after_command (Shell cmd) (snd (spawn host (Shell cmd) (fs w, ext w))) w w'.
Proof.
  unfold ReleaseScript.gh_check, after_command, check_answer.
  unfold bind, try_except, print, ret, subprocess_run; simpl.
  destruct (spawn host (Shell cmd) (fs w, ext w))
    as [[rc out err|rc|why] s'];
    simpl; [destruct (rc =? 0)%Z|destruct (rc =? 0)%Z|destruct why]; simpl;
    (eexists; split; [reflexivity|]);
    repeat split; simpl; printed_more.
Qed.

Lemma release_run_command_as (c : Cmd) (cmd description : str)
      (w : World X) :
  c = Shell cmd ->
  exists w',
    ReleaseScript.run_command host cmd description w
    = (run_command_answer (fst (spawn host c (fs w, ext w))), w') /\
    after_command c (snd (spawn host c (fs w, ext w))) w w'.
Proof. intros ->. apply release_script_run_command_spec. Qed.

(** The listing of the tag, read as text, shows the tag. *)
Definition tag_listed (version : str) (s : Fs.node * X) : bool :=
  match fst (spawn host (tag_list_cmd version) s) with
  | Completed _ out _ => contains (lit "v" ++ version) out
  | Undecodable _ => false
  | Failed _ => false
  end.

Lemma tag_listing_absent (version : str) (w : World X) :
  tag_listed version (fs w, ext w) = false ->
  try_except
    (result <- subprocess_run host (tag_list_cmd version) false true None ;;
     if contains (lit "v" ++ version) (stdout result)
     then print (lit "⚠️  Tag " ++ (lit "v" ++ version)
                     ++ lit " already exists") ;;
          ret true
     else ret false)
    is_Exception
    (fun _ => ret false) w
  = (Ret false,
     mkWorld (fst (snd (spawn host (tag_list_cmd version) (fs w, ext w))))
             (snd (snd (spawn host (tag_list_cmd version) (fs w, ext w))))
             (printed w) (tag_list_cmd version :: history w)).
Proof.
  unfold tag_listed, try_except, bind, subprocess_run.
  cbn [andb]. intros H.
  destruct (spawn host (tag_list_cmd version) (fs w, ext w))
    as [[rc out err|rc|why] s0]; cbn [fst snd stdout] in *.
  - now rewrite H.
  - reflexivity.
  - now destruct why.
Qed.

(** When the listing does not show the tag, or cannot be run or read,
    [create_git_tag] goes on to create the tag, and it pushes the tag
    exactly when the creation has written output that is text and exited
    with status 0.  It returns [True] exactly when both the creation and
    the push did so. *)
Theorem create_git_tag_outcome (version : str) (w : World X) :
  tag_listed version (fs w, ext w) = false ->
  let s0 := snd (spawn host (tag_list_cmd version) (fs w, ext w)) in
  let o1 := fst (spawn host (tag_create_cmd version) s0) in
  let s1 := snd (spawn host (tag_create_cmd version) s0) in
  let o2 := fst (spawn host (tag_push_cmd version) s1) in
  let r := ReleaseScript.create_git_tag host version w in
  history (snd r)
  = (if succeeded o1
     then [tag_push_cmd version; tag_create_cmd version; tag_list_cmd version]
     else [tag_create_cmd version; tag_list_cmd version]) ++ history w /\
  (fst r = Ret true <-> succeeded o1 = true /\ succeeded o2 = true).
Proof.
  intros Hlisted. cbv zeta.
  unfold ReleaseScript.create_git_tag. rewrite bind_print.
  fold (tag_list_cmd version) (tag_create_cmd version) (tag_push_cmd version).
  match goal with
  | |- context [bind (try_except _ _ _) _ ?wx] =>
    pose proof (@tag_listing_absent version wx Hlisted) as E0
  end.
  rewrite (bind_ret_eq _ E0). cbv beta iota. clear E0.
  cbn [fs ext printed history].
  destruct (spawn host (tag_list_cmd version) (fs w, ext w))
    as [o0 [n0 x0]].
  cbn [fst snd] in *.
  match goal with
  | |- context [bind (ReleaseScript.run_command host ?c ?d) _ ?wx] =>
    destruct (release_script_run_command_spec host c d wx)
      as (w1 & E1 & F1 & X1 & H1 & _)
  end.
  cbn [fs ext history] in *.
  fold (tag_create_cmd version) in *.
  destruct (spawn host (tag_create_cmd version) (n0, x0)) as [o1 s1].
  cbn [fst snd] in *.
  destruct (run_command_answer_cases o1) as [[S1 A1]|[S1 [A1|[e1 A1]]]];
    rewrite A1 in E1; rewrite S1;
    [rewrite (bind_ret_eq _ E1); cbv beta; cbn [negb]
    |rewrite (bind_ret_eq _ E1); cbn [negb]; unfold ret; cbn [fst snd];
     split; [exact H1|]; split; [discriminate|]; intros [? _]; discriminate
    |rewrite (bind_raise_eq _ E1); cbn [fst snd];
     split; [exact H1|]; split; [discriminate|]; intros [? _]; discriminate].
  match goal with
  | |- context [bind (ReleaseScript.run_command host ?c ?d) _ ?wx] =>
    destruct (release_script_run_command_spec host c d wx)
      as (w2 & E2 & F2 & X2 & H2 & _)
  end.
  fold (tag_push_cmd version) in *.
  assert (Es : (fs w1, ext w1) = s1) by (destruct s1; cbn in *; congruence).
  rewrite Es in *.
  destruct (spawn host (tag_push_cmd version) s1) as [o2 s2].
  cbn [fst snd] in *.
  destruct (run_command_answer_cases o2) as [[S2 A2]|[S2 [A2|[e2 A2]]]];
    rewrite A2 in E2; rewrite S2.
  - rewrite (bind_ret_eq _ E2). cbn [negb]. unfold bind, print, ret.
    cbn [fst snd history]. split; [now rewrite H2, H1|]. tauto.
  - rewrite (bind_ret_eq _ E2). cbn [negb]. unfold ret. cbn [fst snd].
    split; [now rewrite H2, H1|]. split; [discriminate|].
    intros [_ ?]; discriminate.
  - rewrite (bind_raise_eq _ E2). cbn [fst snd].
    split; [now rewrite H2, H1|]. split; [discriminate|].
    intros [_ ?]; discriminate.
Qed.

(** [create_github_release] stops at the first of its three commands that
    does not succeed: it asks for the login only when [gh] is there, and
    it creates the release only when the login is there.  The two probes
    keep their output as bytes and succeed when they exit with status 0;
    the creation of the release succeeds when it has written output that
    is text and exited with status 0.  The step returns [True] exactly
    when the three commands succeeded. *)
Theorem create_github_release_outcome
        (version : str) (draft : bool) (w : World X) :
  let o1 := fst (spawn host gh_version_cmd (fs w, ext w)) in
  let s1 := snd (spawn host gh_version_cmd (fs w, ext w)) in
  let o2 := fst (spawn host gh_auth_cmd s1) in
  let s2 := snd (spawn host gh_auth_cmd s1) in
  let o3 := fst (spawn host (gh_release_cmd version draft) s2) in
  let r := ReleaseScript.create_github_release host version draft w in
  history (snd r)
  = (if exited_ok o1
     then if exited_ok o2
          then [gh_release_cmd version draft; gh_auth_cmd; gh_version_cmd]
          else [gh_auth_cmd; gh_version_cmd]
     else [gh_version_cmd]) ++ history w /\
  (fst r = Ret true <->
   exited_ok o1 = true /\ exited_ok o2 = true /\ succeeded o3 = true).
Proof.
  cbv zeta. unfold ReleaseScript.create_github_release. rewrite bind_print.
  fold gh_version_cmd gh_auth_cmd (gh_release_cmd version draft).
  match goal with
  | |- context [bind (ReleaseScript.gh_check host ?c ?d) _ ?wx] =>
    destruct (gh_check_spec c d wx) as (w1 & E1 & F1 & X1 & H1 & _)
  end.
  cbn [fs ext history] in *. fold gh_version_cmd in *.
  destruct (spawn host gh_version_cmd (fs w, ext w)) as [o1 s1].
  cbn [fst snd] in *.
  destruct (check_answer_cases o1) as [[S1 A1]|[S1 [A1|[e1 A1]]]];
    rewrite A1 in E1; rewrite S1;
    [rewrite (bind_ret_eq _ E1); cbv beta; cbn [negb]
    |rewrite (bind_ret_eq _ E1); cbn [negb]; unfold ret; cbn [fst snd];
     split; [exact H1|]; split; [discriminate|]; intros [? _]; discriminate
    |rewrite (bind_raise_eq _ E1); cbn [fst snd];
     split; [exact H1|]; split; [discriminate|]; intros [? _]; discriminate].
  match goal with
  | |- context [bind (ReleaseScript.gh_check host ?c ?d) _ ?wx] =>
    destruct (gh_check_spec c d wx) as (w2 & E2 & F2 & X2 & H2 & _)
  end.
  fold gh_auth_cmd in *.
  assert (Es1 : (fs w1, ext w1) = s1) by (destruct s1; cbn in *; congruence).
  rewrite Es1 in *.
  destruct (spawn host gh_auth_cmd s1) as [o2 s2].
  cbn [fst snd] in *.
  destruct (check_answer_cases o2) as [[S2 A2]|[S2 [A2|[e2 A2]]]];
    rewrite A2 in E2; rewrite S2;
    [rewrite (bind_ret_eq _ E2); cbv beta; cbn [negb]
    |rewrite (bind_ret_eq _ E2); cbn [negb]; unfold ret; cbn [fst snd];
     split; [now rewrite H2, H1|]; split; [discriminate|];
     intros (_ & ? & _); discriminate
    |rewrite (bind_raise_eq _ E2); cbn [fst snd];
     split; [now rewrite H2, H1|]; split; [discriminate|];
     intros (_ & ? & _); discriminate].
  match goal with
  | |- context [bind (ReleaseScript.run_command host ?c ?d) _ ?wx] =>
    destruct (@release_run_command_as (gh_release_cmd version draft)
                                      c d wx eq_refl)
      as (w3 & E3 & F3 & X3 & H3 & _)
  end.
  assert (Es2 : (fs w2, ext w2) = s2) by (destruct s2; cbn in *; congruence).
  rewrite Es2 in *.
  destruct (spawn host (gh_release_cmd version draft) s2) as [o3 s3].
  cbn [fst snd] in *.
  destruct (run_command_answer_cases o3) as [[S3 A3]|[S3 [A3|[e3 A3]]]];
    rewrite A3 in E3; rewrite S3.
  - rewrite (bind_ret_eq _ E3). cbn [negb]. unfold bind, print, ret.
    cbn [fst snd history]. split; [now rewrite H3, H2, H1|]. tauto.
  - rewrite (bind_ret_eq _ E3). cbn [negb]. unfold ret. cbn [fst snd].
    split; [now rewrite H3, H2, H1|]. split; [discriminate|].
    intros (_ & _ & ?); discriminate.
  - rewrite (bind_raise_eq _ E3). cbn [fst snd].
    split; [now rewrite H3, H2, H1|]. split; [discriminate|].
    intros (_ & _ & ?); discriminate.
Qed.

(** The executable that [build_all_platforms] looks for and its test. *)
Definition local_exe_path : Fs.path :=
  [lit "dist";
   if PyStr.eqb (lower (platform_system host)) (lit "windows")
   then lit "gridapi.exe" else lit "gridapi"].

(** [build_all_platforms] of [release_script.py] returns [True] exactly
    when the platform is one of the three it knows, the build through
    [build_script.py] has written output that is text and exited with
    status 0, the executable exists after it, and the test of the
    executable has done the same: here a test that fails makes the build
    fail. *)
Theorem release_build_outcome (w : World X) :
  let s1 := snd (spawn host exe_build_cmd (fs w, ext w)) in
  fst (ReleaseScript.build_all_platforms host w) = Ret true <->
  ReleaseScript.platform_names (lower (platform_system host)) <> None /\
  succeeded (fst (spawn host exe_build_cmd (fs w, ext w))) = true /\
  Fs.exists_ local_exe_path (fst s1) = true /\
  succeeded (fst (spawn host (exe_test_cmd host) s1)) = true.
Proof.
  cbv zeta.
  unfold ReleaseScript.build_all_platforms, local_exe_path, exe_test_cmd.
  rewrite bind_print.
  destruct (ReleaseScript.platform_names (lower (platform_system host)))
    as [platform_name|];
    [|rewrite bind_print; unfold ret; cbn [fst];
      split; [discriminate|]; intros [? _]; congruence].
  rewrite bind_print.
  match goal with
  | |- context [bind (ReleaseScript.run_command host ?c ?d) _ ?wx] =>
    destruct (release_script_run_command_spec host c d wx)
      as (w1 & E1 & F1 & X1 & H1 & _)
  end.
  cbn [fs ext history] in *. fold exe_build_cmd in *.
  destruct (spawn host exe_build_cmd (fs w, ext w)) as [o1 s1].
  cbn [fst snd] in *.
  destruct (run_command_answer_cases o1) as [[S1 A1]|[S1 [A1|[e1 A1]]]];
    rewrite A1 in E1; rewrite S1;
    [rewrite (bind_ret_eq _ E1); cbv beta; cbn [negb]
    |rewrite (bind_ret_eq _ E1); cbn [negb]; unfold ret; cbn [fst snd];
     split; [discriminate|]; intros (_ & ? & _); discriminate
    |rewrite (bind_raise_eq _ E1); cbn [fst snd];
     split; [discriminate|]; intros (_ & ? & _); discriminate].
  rewrite bind_path_exists. rewrite F1.
  destruct (Fs.exists_ _ (fst s1)) eqn:Hexe;
    [|rewrite bind_print; unfold ret; cbn [fst];
      split; [discriminate|]; intros (_ & _ & ? & _); discriminate].
  rewrite bind_print.
  match goal with
  | |- context [bind (st_size host ?p) ?k ?wx] =>
    destruct (@bind_st_size _ host _ p k wx) as (size & ->);
      [cbn [fs]; now rewrite F1|]
  end.
  rewrite bind_print.
  match goal with
  | |- context [bind (ReleaseScript.run_command host ?c ?d) _ ?wx] =>
    destruct (release_script_run_command_spec host c d wx)
      as (w2 & E2 & F2 & X2 & H2 & _)
  end.
  cbn [fs ext history] in *.
  assert (Es1 : (fs w1, ext w1) = s1) by (destruct s1; cbn in *; congruence).
  rewrite Es1 in *.
  match type of E2 with
  | context [spawn host ?c s1] =>
    replace (spawn host (Shell
               (if PyStr.eqb (lower (platform_system host)) (lit "windows")
                then lit "dist\" ++ lit "gridapi.exe" ++ lit " --help"
                else lit "./dist/" ++ lit "gridapi" ++ lit " --help")) s1)
      with (spawn host c s1)
      by (destruct (PyStr.eqb (lower (platform_system host)) (lit "windows"));
          reflexivity)
  end.
  destruct (spawn host _ s1) as [o2 s2].
  cbn [fst snd] in *.
  destruct (run_command_answer_cases o2) as [[S2 A2]|[S2 [A2|[e2 A2]]]];
    rewrite A2 in E2; rewrite S2.
  - rewrite (bind_ret_eq _ E2). rewrite bind_print. unfold ret. cbn [fst].
    split; [|reflexivity]. intros _. repeat split; discriminate.
  - rewrite (bind_ret_eq _ E2). rewrite bind_print. unfold ret. cbn [fst].
    split; [discriminate|]. intros (_ & _ & _ & ?); discriminate.
  - rewrite (bind_raise_eq _ E2). cbn [fst].
    split; [discriminate|]. intros (_ & _ & _ & ?); discriminate.
Qed.

End ReleaseSteps.

Lemma create_git_tag_outcome_witness :
  history (snd (ReleaseScript.create_git_tag Hosts.linux (lit "1.2.0")
                                             Hosts.w0))
  = [tag_push_cmd (lit "1.2.0"); tag_create_cmd (lit "1.2.0");
     tag_list_cmd (lit "1.2.0")] ++ history Hosts.w0 /\
  fst (ReleaseScript.create_git_tag Hosts.linux (lit "1.2.0") Hosts.w0)
  = Ret true.
Proof.
  destruct (@create_git_tag_outcome _ Hosts.linux (lit "1.2.0") Hosts.w0)
    as [H1 H2].
  - vm_compute. reflexivity.
  - split.
    + exact H1.
    + apply H2. split; vm_compute; reflexivity.
Defined.

(* ================================================================== *)
(** ** build.py *)

Section BuildPyEffects.

Variable X : Type.
Variable host : Host X.

Lemma effects_build_py_run_command (cmd description : str) :
  effects (fun c => c = Shell cmd) ordinary
          (BuildPy.run_command host cmd description).
Proof.
  unfold BuildPy.run_command. pose proof ordinary_Exception.
  repeat effects_step; reflexivity.
Qed.

Lemma effects_build_py_clean_build :
  effects (fun _ => False) ordinary (BuildPy.clean_build host).
Proof.
  unfold BuildPy.clean_build, BuildPy.remove_if_dir.
  pose proof ordinary_Exception.
  repeat effects_step.
Qed.

Lemma effects_build_py_probe_tools (tools : list str) :
  effects (fun c => In c (map probe tools)) ordinary
          (BuildPy.probe_tools host tools).
Proof.
  pose proof ordinary_Exception.
  induction tools as [|tool rest IH]; cbn [BuildPy.probe_tools].
  - repeat effects_step.
  - eapply effects_bind; [|intros ?].
    + eapply effects_weaken with (P := fun c => c = probe tool);
        [intros c ->; now left|exact (fun e H => H)|].
      repeat effects_step. reflexivity.
    + eapply effects_bind; [|intros ?].
      * eapply effects_weaken; [|exact (fun e H => H)|exact IH].
        intros c Hc. now right.
      * repeat effects_step.
Qed.

End BuildPyEffects.

Ltac build_py_step :=
  lazymatch goal with
  | |- effects _ _ (BuildPy.run_command _ _ _) =>
    eapply effects_weaken;
    [| |eapply effects_build_py_run_command];
    [cbv beta; intros ? ->|exact (fun e H => H)]
  | |- effects _ _ (BuildPy.probe_tools _ _) =>
    eapply effects_weaken;
    [| |eapply effects_build_py_probe_tools]; [|exact (fun e H => H)]
  | _ => effects_step
  end.

Section BuildPyPlan.

Variable X : Type.
Variable host : Host X.

(** [build.py] does not probe PyInstaller. *)
Definition build_py_check_commands : list Cmd :=
  map probe [lit "python"; lit "pip"; lit "twine"].

Lemma effects_build_py_check_requirements :
  effects (fun c => In c build_py_check_commands) ordinary
          (BuildPy.check_requirements host).
Proof.
  unfold BuildPy.check_requirements. pose proof ordinary_Exception.
  repeat build_py_step.
  cbv beta. intros c Hc. exact Hc.
Qed.

Lemma effects_build_py_build_package :
  effects (fun c => In c build_commands) ordinary
          (BuildPy.build_package host).
Proof.
  unfold BuildPy.build_package. pose proof ordinary_Exception.
  repeat build_py_step; listed.
Qed.

Lemma effects_build_py_test_package :
  effects (fun c => In c (test_commands host)) ordinary
          (BuildPy.test_package host).
Proof.
  unfold BuildPy.test_package. pose proof ordinary_Exception.
  fold (pip_cmd host).
  repeat build_py_step; listed.
Qed.

Lemma effects_build_py_publish_package (test_pypi : bool) :
  effects (fun c => c = publish_command test_pypi) ordinary
          (BuildPy.publish_package host test_pypi).
Proof.
  unfold BuildPy.publish_package, publish_command.
  pose proof ordinary_Exception.
  repeat build_py_step; reflexivity.
Qed.

Lemma effects_build_py_or_exit (P : Cmd -> Prop) (step : M X bool) :
  effects P ordinary step ->
  effects P exit_1_or_ordinary (BuildPy.or_exit step).
Proof.
  intros H. unfold BuildPy.or_exit.
  apply effects_bind.
  - eapply effects_weaken; [exact (fun c Hc => Hc)| |exact H].
    intros e He. now right.
  - intros [|]; cbn [negb].
    + apply effects_ret. exact exit_1_or_ordinary_Exception.
    + apply effects_raise. now left.
Qed.

(** The commands of the steps that [main] of [build.py] reaches with the
    flags of [argv], in the order of the steps. *)
Definition build_py_plan (argv : list str) : list Cmd :=
  if flag "--clean" argv then [] else
  build_py_check_commands ++
  (if flag "--build" argv
      || negb (flag "--test" argv || flag "--test-pypi" argv
               || flag "--publish" argv)
   then build_commands else []) ++
  (if flag "--build" argv then []
   else
     (if flag "--test" argv
         || negb (flag "--test-pypi" argv || flag "--publish" argv)
      then test_commands host else []) ++
     (if flag "--test" argv then []
      else if flag "--test-pypi" argv then [publish_command true]
      else if flag "--publish" argv then [publish_command false]
      else [])).

Ltac build_py_member :=
  cbv beta; intros ? ?;
  repeat (rewrite in_app_iff || cbn [In]); tauto.

Ltac build_py_plan_step :=
  lazymatch goal with
  | |- effects _ _ (BuildPy.or_exit _) =>
    apply effects_build_py_or_exit
  | |- effects _ _ (@BuildPy.banner _) =>
    unfold BuildPy.banner
  | |- effects _ ordinary (BuildPy.check_requirements _) =>
    eapply effects_weaken;
    [|exact (fun e H => H)|apply effects_build_py_check_requirements];
    build_py_member
  | |- effects _ ordinary (BuildPy.build_package _) =>
    eapply effects_weaken;
    [|exact (fun e H => H)|apply effects_build_py_build_package];
    build_py_member
  | |- effects _ ordinary (BuildPy.test_package _) =>
    eapply effects_weaken;
    [|exact (fun e H => H)|apply effects_build_py_test_package];
    build_py_member
  | |- effects _ ordinary (BuildPy.publish_package _ _) =>
    eapply effects_weaken;
    [|exact (fun e H => H)|apply effects_build_py_publish_package];
    cbv beta; intros ? ->; repeat (rewrite in_app_iff || cbn [In]); tauto
  | |- effects _ _ (BuildPy.clean_build _) =>
    eapply effects_weaken; [| |apply effects_build_py_clean_build];
    [cbv beta; intros ? []|intros ? H; right; exact H]
  | _ => effects_step
  end.

Theorem build_py_main_follows_its_plan (argv : list str) :
  effects (fun c => In c (build_py_plan argv)) exit_1_or_ordinary
          (BuildPy.main host argv).
Proof.
  unfold BuildPy.main, build_py_plan, flag.
  pose proof exit_1_or_ordinary_Exception as HQ.
  destruct (mem (lit "--clean") argv), (mem (lit "--build") argv),
    (mem (lit "--test") argv),
    (mem (lit "--test-pypi") argv), (mem (lit "--publish") argv);
    cbn [orb negb andb];
    repeat build_py_plan_step.
Qed.

(** The command uploads the package to a package index. *)
Definition is_upload (c : Cmd) : bool :=
  match c with
  | Shell line => startswith (lit "twine upload") line
  | Argv _ => false
  end.

Lemma build_py_steps_do_not_upload (c : Cmd) :
  In c (build_py_check_commands ++ build_commands ++ test_commands host) ->
  is_upload c = false.
Proof.
  unfold build_py_check_commands, build_commands, test_commands, pip_cmd,
    path_str, is_windows.
  destruct (PyStr.eqb (os_name host) (lit "nt"));
    cbn [map app In];
    intros H; decompose [or] H; try contradiction; subst c;
      now vm_compute.
Qed.

(** [build.py] uploads the package only on request: an upload that a run
    of [main] has started, and that was not started before, goes to Test
    PyPI when [--test-pypi] is given and to PyPI otherwise, and then
    [--test-pypi] or [--publish] is given and none of [--clean],
    [--build] and [--test].  Without flags nothing is uploaded. *)
Theorem build_py_uploads_only_on_request
        (argv : list str) (w : World X) (c : Cmd) :
  In c (history (snd (BuildPy.main host argv w))) ->
  is_upload c = true ->
  In c (history w) \/
  (c = publish_command (flag "--test-pypi" argv) /\
   flag "--test-pypi" argv || flag "--publish" argv = true /\
   flag "--clean" argv = false /\ flag "--build" argv = false /\
   flag "--test" argv = false).
Proof.
  intros Hin Hup.
  apply (history_within w c (build_py_main_follows_its_plan argv)) in Hin.
  destruct Hin as [Hin|Hin]; [now left|right].
  unfold build_py_plan in Hin.
  assert (Hno : forall l,
             In c l ->
             (forall x, In x l ->
                        In x (build_py_check_commands ++ build_commands
                                ++ test_commands host)) ->
             False).
  { intros l Hl Hsub. apply Hsub, build_py_steps_do_not_upload in Hl.
    congruence. }
  destruct (flag "--clean" argv); [destruct Hin|].
  destruct (flag "--build" argv), (flag "--test" argv),
    (flag "--test-pypi" argv), (flag "--publish" argv);
    cbn [orb negb app] in Hin;
    repeat rewrite ?app_nil_r in Hin;
    try (exfalso; apply (Hno _ Hin); intros x Hx;
         repeat rewrite in_app_iff in *; tauto);
    repeat (apply in_app_or in Hin; destruct Hin as [Hin|Hin];
            [exfalso; apply (Hno _ Hin); intros x Hx;
             repeat rewrite in_app_iff in *; tauto|]);
    try (destruct Hin as [<-|[]]; now repeat split).
Qed.

End BuildPyPlan.

Lemma build_py_uploads_only_on_request_witness :
  In (publish_command false) (history Hosts.w0) \/
  (publish_command false
   = publish_command (flag "--test-pypi" [lit "build.py"; lit "--publish"]) /\
   flag "--test-pypi" [lit "build.py"; lit "--publish"]
   || flag "--publish" [lit "build.py"; lit "--publish"] = true /\
   flag "--clean" [lit "build.py"; lit "--publish"] = false /\
   flag "--build" [lit "build.py"; lit "--publish"] = false /\
   flag "--test" [lit "build.py"; lit "--publish"] = false).
Proof.
  apply (@build_py_uploads_only_on_request
           _ Hosts.linux [lit "build.py"; lit "--publish"] Hosts.w0).
  - vm_compute. listed.
  - vm_compute. reflexivity.
Defined.

(* ================================================================== *)
(** ** The release notes and the release assets *)

Section ReleaseNotes.

Variable X : Type.
Variable host : Host X.

Lemma contains_app_r (sub a b : str) :
  contains sub b = true -> contains sub (a ++ b) = true.
Proof.
  intros H. induction a as [|c a IH]; [exact H|].
  cbn [app contains]. rewrite IH. apply orb_true_r.
Qed.

(** The notes after their first line. *)
Definition notes_body : str :=
  join [nl] (tl (ReleaseScript.notes_lines [])).

Lemma notes_content (version : str) :
  join [nl] (ReleaseScript.notes_lines version)
  = (lit "# GridAPI CLI " ++ version) ++ [nl] ++ notes_body.
Proof. reflexivity. Qed.

Lemma notes_written (version : str) (w w' : World X) :
  ReleaseScript.create_release_notes host version w = (Ret true, w') ->
  exists d,
    to_bytes host (join [nl] (ReleaseScript.notes_lines version)) = Some d /\
    Fs.lookup ReleaseScript.notes_file (fs w') = Some (Fs.File d).
Proof.
  unfold ReleaseScript.create_release_notes, try_except. unfold bind at 1.
  destruct (write_text host ReleaseScript.notes_file
                       (join [nl] (ReleaseScript.notes_lines version)) w)
    as [[u|e] w1] eqn:Ew.
  - apply write_text_inv in Ew as (d & T & L).
    rewrite bind_print. unfold ret. intros [= <-]. cbn [fs].
    now exists d.
  - destruct (is_Exception e); [|discriminate].
    rewrite bind_print. discriminate.
Qed.

(** The two scripts agree on the names of the assets: on each platform
    that [release_script.py] knows, the notes that [create_release_notes]
    has written, for whatever version, name the asset that
    [prepare_release_assets] of [build_script.py] puts into
    [release-assets] on this host.  The file of the notes holds the
    text [content], as the host writes text. *)
Theorem release_notes_name_the_asset (version : str) (w : World X) :
  ReleaseScript.platform_names (lower (platform_system host)) <> None ->
  fst (ReleaseScript.create_release_notes host version w) = Ret true ->
  exists content d,
    Fs.lookup ReleaseScript.notes_file
              (fs (snd (ReleaseScript.create_release_notes host version w)))
    = Some (Fs.File d) /\
    to_bytes host content = Some d /\
    contains (asset_name host) content = true.
Proof.
  intros Hplatform Hok.
  exists (join [nl] (ReleaseScript.notes_lines version)).
  assert (Hd : exists d,
             to_bytes host (join [nl] (ReleaseScript.notes_lines version))
             = Some d /\
             Fs.lookup ReleaseScript.notes_file
                       (fs (snd (ReleaseScript.create_release_notes
                                   host version w)))
             = Some (Fs.File d)).
  { destruct (ReleaseScript.create_release_notes host version w)
      as [r w'] eqn:E.
    cbn [fst snd] in *. subst r. exact (@notes_written _ _ _ E). }
  destruct Hd as (d & T & L). exists d. split; [exact L|]. split; [exact T|].
  rewrite notes_content. apply contains_app_r, contains_app_r.
    unfold asset_name, BuildScript.get_platform_info,
      ReleaseScript.platform_names in *.
    destruct (PyStr.eqb (lower (platform_system host)) (lit "windows"));
      [now vm_compute|].
    destruct (PyStr.eqb (lower (platform_system host)) (lit "darwin"));
      [now vm_compute|].
    destruct (PyStr.eqb (lower (platform_system host)) (lit "linux"));
      [now vm_compute|].
    now destruct Hplatform.
Qed.

End ReleaseNotes.

Lemma release_notes_name_the_asset_witness :
  exists content d,
    Fs.lookup ReleaseScript.notes_file
              (fs (snd (ReleaseScript.create_release_notes
                          Hosts.windows (lit "1.2.0") Hosts.w0)))
    = Some (Fs.File d) /\
    to_bytes Hosts.windows content = Some d /\
    contains (asset_name Hosts.windows) content = true.
Proof.
  apply (@release_notes_name_the_asset _ Hosts.windows (lit "1.2.0") Hosts.w0).
  - vm_compute. discriminate.
  - vm_compute. reflexivity.
Defined.

(** The two scripts agree on where the executable is: on every host,
    [build_all_platforms] of [release_script.py] looks for the executable
    at the path where [build_executable] of [build_script.py], which it
    runs through [--exe], expects the packager to leave it. *)
Theorem release_looks_where_build_puts
        (X : Type) (host : Host X) :
  local_exe_path host = exe_path host.
Proof.
  unfold local_exe_path, exe_path, BuildScript.get_platform_info,
    BuildScript.exe_path_of.
  destruct (PyStr.eqb (lower (platform_system host)) (lit "windows"));
    [reflexivity|].
  destruct (PyStr.eqb (lower (platform_system host)) (lit "darwin"));
    [reflexivity|].
  destruct (PyStr.eqb (lower (platform_system host)) (lit "linux"));
    reflexivity.
Qed.

(* ================================================================== *)
(** ** setup.py

    [setup.py] reads the requirements of the package from
    [requirements.txt]:
    [[line.strip() for line in fh if line.strip() and not
    line.startswith("#")]]. *)

Module SetupPy.

(** The lines that iterating over a text file yields, each with its line
    end but, possibly, the last.  [text] is what the file holds once the
    line ends have been translated to ["\n"]. *)
Fixpoint file_lines (text : str) : list str :=
  match text with
  | [] => []
  | c :: rest =>
    if (c =? nl)%N then [c] :: file_lines rest
    else match file_lines rest with
         | [] => [[c]]
         | l :: ls => (c :: l) :: ls
         end
  end.

Definition keeps_line (line : str) : bool :=
  truthy (strip line) && negb (startswith (lit "#") line).

Definition requirements (text : str) : list str :=
  map strip (filter keeps_line (file_lines text)).

End SetupPy.

Example file_lines_example :
  SetupPy.file_lines (lit "a" ++ [nl] ++ [nl] ++ lit "b")
  = [lit "a" ++ [nl]; [nl]; lit "b"].
Proof. reflexivity. Qed.

Example requirements_example :
  SetupPy.requirements
    (lit "# core" ++ [nl] ++ lit "requests>=2.28.0 " ++ [nl] ++ [nl]
         ++ lit "  # indented" ++ [nl] ++ lit "pydantic")
  = [lit "requests>=2.28.0"; lit "# indented"; lit "pydantic"].
Proof. reflexivity. Qed.

Section Stripped.

Variable p : char -> bool.

Lemma lstrip_by_head (s : str) :
  match lstrip_by p s with
  | [] => True
  | c :: _ => p c = false
  end.
Proof.
  induction s as [|c s IH]; cbn [lstrip_by]; [exact I|].
  destruct (p c) eqn:E; [exact IH|exact E].
Qed.

Lemma lstrip_by_fixed (s : str) :
  match s with [] => True | c :: _ => p c = false end ->
  lstrip_by p s = s.
Proof.
  destruct s as [|c s]; [reflexivity|]. cbn [lstrip_by]. now intros ->.
Qed.

(** What [rstrip_by] leaves of a string that starts with a character to
    keep starts with this character. *)
Lemma rstrip_by_cons (c : char) (s : str) :
  p c = false -> exists s', rstrip_by p (c :: s) = c :: s'.
Proof.
  intros Hc. unfold rstrip_by. cbn [rev].
  induction (rev s) as [|d r IH]; cbn [app lstrip_by].
  - rewrite Hc. cbn [rev app]. now exists [].
  - destruct (p d).
    + exact IH.
    + cbn [rev]. rewrite rev_app_distr. cbn [rev app]. eauto.
Qed.

Lemma rstrip_by_twice (s : str) :
  rstrip_by p (rstrip_by p s) = rstrip_by p s.
Proof.
  unfold rstrip_by. rewrite rev_involutive. f_equal.
  apply lstrip_by_fixed, lstrip_by_head.
Qed.

(** Stripping is idempotent. *)
Lemma strip_by_twice (s : str) :
  strip_by p (strip_by p s) = strip_by p s.
Proof.
  unfold strip_by.
  pose proof (lstrip_by_head s) as H.
  destruct (lstrip_by p s) as [|c t].
  - reflexivity.
  - destruct (rstrip_by_cons t H) as (s' & E). rewrite E.
    rewrite lstrip_by_fixed by exact H. rewrite <- E.
    apply rstrip_by_twice.
Qed.

End Stripped.

(** Every requirement that [setup.py] hands to [setup] is a line of
    [requirements.txt] without the white space around it, and it is not
    empty.  A requirement may still start with [#]: the test for a
    comment looks at the line before it is stripped. *)
Theorem requirements_are_stripped_lines (text r : str) :
  In r (SetupPy.requirements text) ->
  r <> [] /\ strip r = r /\
  exists line,
    In line (SetupPy.file_lines text) /\ r = strip line /\
    startswith (lit "#") line = false.
Proof.
  unfold SetupPy.requirements. intros H.
  apply in_map_iff in H. destruct H as (line & <- & H).
  apply filter_In in H. destruct H as [Hin Hkeep].
  unfold SetupPy.keeps_line in Hkeep.
  apply andb_prop in Hkeep. destruct Hkeep as [Hne Hc].
  split; [|split].
  - intros E. now rewrite E in Hne.
  - apply strip_by_twice.
  - exists line. repeat split; [exact Hin|].
    now destruct (startswith (lit "#") line).
Qed.

Lemma requirements_are_stripped_lines_witness :
  lit "# indented" <> [] /\ strip (lit "# indented") = lit "# indented" /\
  exists line,
    In line (SetupPy.file_lines
               (lit "requests " ++ [nl] ++ lit "  # indented" ++ [nl])) /\
    lit "# indented" = strip line /\
    startswith (lit "#") line = false.
Proof.
  apply (@requirements_are_stripped_lines
           (lit "requests " ++ [nl] ++ lit "  # indented" ++ [nl])
           (lit "# indented")).
  vm_compute. tauto.
Defined.
